(** * LBO modelling tool: the debt-schedule and returns engine of
      [lbo_model.py], embedded as Rocq functions.

    Numbers.  The Python code computes with [int] and [float].  The embedding
    idealises both as exact rationals in lowest terms ([Qc]), so that equal
    values are equal terms and every definition evaluates.  The one operation
    that leaves the rationals, [moic ** (1/exit_year)], is a parameter
    ([float_pow]) of the definitions that use it.

    Effects.  Every method of [LBOAnalysis] reads and updates the attributes
    of [self]; a method is a function from the object to an outcome and the
    object afterwards.  Console output is not modelled.

    Dictionaries.  A Python [dict] keeps insertion order and the loops of the
    engine traverse it in that order; it is an association list updated in
    place. *)

From Stdlib Require Import QArith Qcanon ZArith Bool List Lia.
From Stdlib Require Import Ascii String DecimalString.
Import ListNotations.

Local Open Scope Z_scope.
Local Open Scope Qc_scope.

(* ================================================================== *)
(** ** Numbers *)

(** A literal such as [0.045] or [10]. *)
Definition lit (q : Q) : Qc := Q2Qc q.

Definition Qc_ltb (x y : Qc) : bool :=
  match x ?= y with Lt => true | _ => false end.

Definition Qc_eqb (x y : Qc) : bool :=
  match x ?= y with Eq => true | _ => false end.

(** Python's two-argument [min(a, b)]: the first argument unless the second
    is strictly smaller. *)
Definition py_min (a b : Qc) : Qc := if Qc_ltb b a then b else a.

(** Python's two-argument [max(a, b)]: the first argument unless the second
    is strictly larger. *)
Definition py_max (a b : Qc) : Qc := if Qc_ltb a b then b else a.

(** [sum(xs)]: starts from 0 and adds from the left. *)
Definition py_sum (xs : list Qc) : Qc := fold_left Qcplus xs 0.

(* ================================================================== *)
(** ** Outcomes of a call *)

Inductive exn : Type := KeyError | IndexError | ZeroDivisionError.

(** A call returns a value, prints an error line and returns [None], or
    raises an exception. *)
Inductive outcome (A : Type) : Type :=
| Returned (a : A)
| ReturnedNone
| Raised (e : exn).

Arguments Returned {A} a.
Arguments ReturnedNone {A}.
Arguments Raised {A} e.

Definition bind {A B : Type} (m : outcome A) (k : A -> outcome B) : outcome B :=
  match m with
  | Returned a => k a
  | ReturnedNone => ReturnedNone
  | Raised e => Raised e
  end.

Notation "x <- m ;; k" := (bind m (fun x => k))
  (at level 61, m at next level, right associativity).

(** The call produced no result: it returned [None] or raised. *)
Definition failed {A : Type} (o : outcome A) : Prop :=
  match o with Returned _ => False | _ => True end.

(** [a / b] on numbers. *)
Definition py_div (a b : Qc) : outcome Qc :=
  if Qc_eqb b 0 then Raised ZeroDivisionError else Returned (a / b).

(** [for x in xs: body], threading the variables the body assigns. *)
Fixpoint for_each {A S : Type} (xs : list A) (body : A -> S -> outcome S) (s : S)
  : outcome S :=
  match xs with
  | [] => Returned s
  | x :: xs' => s' <- body x s ;; for_each xs' body s'
  end.

(** [xs[k]] on a list, with Python's negative indices. *)
Definition py_index {A : Type} (xs : list A) (k : Z) : outcome A :=
  let n := Z.of_nat (List.length xs) in
  let k' := (if k <? 0 then k + n else k)%Z in
  if (k' <? 0)%Z || (n <=? k')%Z then Raised IndexError
  else match nth_error xs (Z.to_nat k') with
       | Some x => Returned x
       | None => Raised IndexError
       end.

(** [enumerate(xs)]. *)
Fixpoint enumerate_from {A : Type} (i : Z) (xs : list A) : list (Z * A) :=
  match xs with
  | [] => []
  | x :: xs' => (i, x) :: enumerate_from (i + 1)%Z xs'
  end.

Definition enumerate {A : Type} (xs : list A) : list (Z * A) := enumerate_from 0%Z xs.

(* ================================================================== *)
(** ** Dictionaries *)

Section Dict.
Context {K V : Type}.
Variable eqb : K -> K -> bool.

Definition dict : Type := list (K * V).

(** [d.get(k)] *)
Fixpoint dict_get (d : dict) (k : K) : option V :=
  match d with
  | [] => None
  | (k', v) :: d' => if eqb k k' then Some v else dict_get d' k
  end.

(** [d[k]] *)
Definition dict_item (d : dict) (k : K) : outcome V :=
  match dict_get d k with
  | Some v => Returned v
  | None => Raised KeyError
  end.

(** [d[k] = v]: an existing key keeps its place, a new key goes last. *)
Fixpoint dict_set (d : dict) (k : K) (v : V) : dict :=
  match d with
  | [] => [(k, v)]
  | (k', v') :: d' =>
      if eqb k k' then (k', v) :: d' else (k', v') :: dict_set d' k v
  end.

Definition dict_keys (d : dict) : list K := map fst d.
Definition dict_values (d : dict) : list V := map snd d.

(** Truth value of a dict: non-empty. *)
Definition truthy (d : dict) : bool :=
  match d with [] => false | _ :: _ => true end.
End Dict.

Arguments dict K V : clear implicits.

Abbreviation sdict V := (dict string V).
Abbreviation zdict V := (dict Z V).
Abbreviation sget := (dict_get String.eqb).
Abbreviation sitem := (dict_item String.eqb).
Abbreviation sset := (dict_set String.eqb).
Abbreviation zget := (dict_get Z.eqb).
Abbreviation zitem := (dict_item Z.eqb).
Abbreviation zset := (dict_set Z.eqb).

(* ================================================================== *)
(** ** Records *)

(** One entry of [self.debt_structure]. *)
Record TrancheTerms : Type := {
  amount : Qc;
  rate : Qc;
  term : Z;
  amortization : Qc;
  seniority : Z
}.

(** One entry of the operating model. *)
Record OperatingYear : Type := {
  revenue : Qc;
  ebitda : Qc;
  ebit : Qc;
  depreciation : Qc;
  interest_expense : Qc;
  ebt : Qc;
  taxes : Qc;
  net_income : Qc;
  operating_cash_flow : Qc;
  capex : Qc;
  nwc_change : Qc;
  free_cash_flow : Qc
}.

(** One entry of a year of the debt schedule. *)
Record TrancheYear : Type := {
  beginning_balance : Qc;
  mandatory_payment : Qc;
  optional_payment : Qc;
  total_payment : Qc;
  interest_payment : Qc;
  ending_balance : Qc
}.

(** One entry of the returns analysis. *)
Record ExitScenario : Type := {
  exit_multiple : Qc;
  enterprise_value : Qc;
  remaining_debt : Qc;
  equity_value : Qc;
  moic : Qc;
  irr : Qc
}.

(** One row of the sensitivity grid. *)
Record SensitivityRow : Type := {
  revenue_adj : Qc;
  ebitda_adj : Qc;
  row_irr : Qc;
  row_moic : Qc
}.

(** The attributes of an [LBOAnalysis] object. *)
Record LBOAnalysis : Type := {
  company_name : string;
  purchase_price : Qc;
  sponsor_equity : Qc;
  total_debt : Qc;
  debt_structure : sdict TrancheTerms;
  operating_model : zdict OperatingYear;
  debt_schedule : zdict (sdict TrancheYear);
  returns_analysis : sdict ExitScenario
}.

Definition set_debt_structure (self : LBOAnalysis) (d : sdict TrancheTerms) :=
  {| company_name := company_name self; purchase_price := purchase_price self;
     sponsor_equity := sponsor_equity self; total_debt := total_debt self;
     debt_structure := d; operating_model := operating_model self;
     debt_schedule := debt_schedule self; returns_analysis := returns_analysis self |}.

Definition set_operating_model (self : LBOAnalysis) (m : zdict OperatingYear) :=
  {| company_name := company_name self; purchase_price := purchase_price self;
     sponsor_equity := sponsor_equity self; total_debt := total_debt self;
     debt_structure := debt_structure self; operating_model := m;
     debt_schedule := debt_schedule self; returns_analysis := returns_analysis self |}.

Definition set_debt_schedule (self : LBOAnalysis) (s : zdict (sdict TrancheYear)) :=
  {| company_name := company_name self; purchase_price := purchase_price self;
     sponsor_equity := sponsor_equity self; total_debt := total_debt self;
     debt_structure := debt_structure self; operating_model := operating_model self;
     debt_schedule := s; returns_analysis := returns_analysis self |}.

Definition set_returns_analysis (self : LBOAnalysis) (r : sdict ExitScenario) :=
  {| company_name := company_name self; purchase_price := purchase_price self;
     sponsor_equity := sponsor_equity self; total_debt := total_debt self;
     debt_structure := debt_structure self; operating_model := operating_model self;
     debt_schedule := debt_schedule self; returns_analysis := r |}.

(* ================================================================== *)
(** ** [__init__] and [structure_debt] *)

Definition init (name : string) (price equity : Qc) : LBOAnalysis :=
  {| company_name := name; purchase_price := price; sponsor_equity := equity;
     total_debt := price - equity;
     debt_structure := []; operating_model := [];
     debt_schedule := []; returns_analysis := [] |}.

Definition term_loan_b_name : string := "Term Loan B".

Definition structure_debt (self : LBOAnalysis)
    (term_loan_a term_loan_b revolver subordinated : Qc)
  : sdict TrancheTerms * LBOAnalysis :=
  let d : sdict TrancheTerms :=
    [ ("Term Loan A"%string,
       {| amount := term_loan_a; rate := lit 0.045; term := 7;
          amortization := lit 0.15; seniority := 1 |});
      (term_loan_b_name,
       {| amount := term_loan_b; rate := lit 0.065; term := 8;
          amortization := lit 0.01; seniority := 2 |});
      ("Revolver"%string,
       {| amount := revolver; rate := lit 0.035; term := 5;
          amortization := lit 0; seniority := 1 |});
      ("Subordinated Debt"%string,
       {| amount := subordinated; rate := lit 0.085; term := 10;
          amortization := lit 0; seniority := 3 |}) ] in
  (d, set_debt_structure self d).

(* ================================================================== *)
(** ** [build_operating_model] *)

Definition years : list Z := [1; 2; 3; 4; 5]%Z.

(** The interest line of one projection year. *)
Definition interest_of_year (ds : sdict TrancheTerms) (year : Z) : outcome Qc :=
  if truthy ds then
    let total_debt_amount := py_sum (map amount (dict_values ds)) in
    weighted_avg_rate <-
      (if Qc_ltb 0 total_debt_amount
       then py_div (py_sum (map (fun debt => amount debt * rate debt) (dict_values ds)))
                   total_debt_amount
       else Returned 0) ;;
    let debt_reduction_factor := lit 0.9 ^ Z.to_nat (year - 1) in
    Returned (total_debt_amount * weighted_avg_rate * debt_reduction_factor)
  else Returned 0.

(** The body of the loop over [enumerate(years)]; [model] is the dict built
    so far. *)
Definition operating_year_body (ds : sdict TrancheTerms)
    (base_revenue : Qc) (revenue_growth : list Qc)
    (ebitda_margin capex_rate nwc_rate tax_rate : Qc)
    (iy : Z * Z) (model : zdict OperatingYear) : outcome (zdict OperatingYear) :=
  let '(i, year) := iy in
  revenue_ <-
    (if (year =? 1)%Z then Returned base_revenue
     else
       growth_rate <-
         (if (i - 1 <? Z.of_nat (List.length revenue_growth))%Z
          then py_index revenue_growth (i - 1)
          else py_index revenue_growth (-1)) ;;
       prev <- zitem model (year - 1)%Z ;;
       Returned (revenue prev * (1 + growth_rate))) ;;
  let ebitda_ := revenue_ * ebitda_margin in
  let depreciation_ := revenue_ * lit 0.03 in
  let ebit_ := ebitda_ - depreciation_ in
  interest_expense_ <- interest_of_year ds year ;;
  let ebt_ := ebit_ - interest_expense_ in
  let taxes_ := py_max 0 (ebt_ * tax_rate) in
  let net_income_ := ebt_ - taxes_ in
  let operating_cash_flow_ := net_income_ + depreciation_ in
  let capex_ := revenue_ * capex_rate in
  nwc_change_ <-
    (if (year =? 1)%Z then Returned 0
     else
       prev <- zitem model (year - 1)%Z ;;
       Returned ((revenue_ - revenue prev) * nwc_rate)) ;;
  let free_cash_flow_ := operating_cash_flow_ - capex_ - nwc_change_ in
  Returned (zset model year
    {| revenue := revenue_; ebitda := ebitda_; ebit := ebit_;
       depreciation := depreciation_; interest_expense := interest_expense_;
       ebt := ebt_; taxes := taxes_; net_income := net_income_;
       operating_cash_flow := operating_cash_flow_; capex := capex_;
       nwc_change := nwc_change_; free_cash_flow := free_cash_flow_ |}).

Definition default_capex_rate : Qc := lit 0.03.
Definition default_nwc_rate : Qc := lit 0.02.
Definition default_tax_rate : Qc := lit 0.25.

Definition build_operating_model (self : LBOAnalysis)
    (base_revenue : Qc) (revenue_growth : list Qc)
    (ebitda_margin capex_rate nwc_rate tax_rate : Qc)
  : outcome (zdict OperatingYear) * LBOAnalysis :=
  match for_each (enumerate years)
          (operating_year_body (debt_structure self) base_revenue revenue_growth
             ebitda_margin capex_rate nwc_rate tax_rate) [] with
  | Returned model => (Returned model, set_operating_model self model)
  | ReturnedNone => (ReturnedNone, self)
  | Raised e => (Raised e, self)
  end.

(* ================================================================== *)
(** ** [model_debt_schedule] *)

(** The variables the loop over the tranches of one year assigns. *)
Record SweepState : Type := {
  remaining_cash : Qc;
  debt_balances : sdict Qc;
  year_schedule : sdict TrancheYear
}.

(** What the loop body computes for one tranche, from the pool at its turn
    ([cash]) and the balance it starts the year with. *)
Definition tranche_row (tranche : string) (terms : TrancheTerms)
    (cash beginning_balance_ : Qc) : TrancheYear :=
  let mandatory_payment_ := beginning_balance_ * amortization terms in
  let mandatory_payment_ := py_min mandatory_payment_ beginning_balance_ in
  let optional_payment_ :=
    if Qc_ltb mandatory_payment_ cash && String.eqb tranche term_loan_b_name
    then
      let available_cash := cash - mandatory_payment_ in
      py_min available_cash (beginning_balance_ - mandatory_payment_)
    else 0 in
  let total_payment_ := mandatory_payment_ + optional_payment_ in
  let ending_balance_ := py_max 0 (beginning_balance_ - total_payment_) in
  let interest_payment_ := beginning_balance_ * rate terms in
  {| beginning_balance := beginning_balance_;
     mandatory_payment := mandatory_payment_;
     optional_payment := optional_payment_;
     total_payment := total_payment_;
     interest_payment := interest_payment_;
     ending_balance := ending_balance_ |}.

(** The body of the loop over [self.debt_structure.items()]: read the
    balance, record the row, update the pool and the balance. *)
Definition tranche_body (item : string * TrancheTerms) (s : SweepState)
  : outcome SweepState :=
  let '(tranche, terms) := item in
  beginning_balance_ <- sitem (debt_balances s) tranche ;;
  let row := tranche_row tranche terms (remaining_cash s) beginning_balance_ in
  Returned
    {| remaining_cash := remaining_cash s - total_payment row;
       debt_balances := sset (debt_balances s) tranche (ending_balance row);
       year_schedule := sset (year_schedule s) tranche row |}.

(** One year: the pool starts at the year's free cash flow, the balances are
    those the previous year left. *)
Definition sweep_year (ds : sdict TrancheTerms) (free_cash_flow_ : Qc)
    (balances : sdict Qc) : outcome SweepState :=
  for_each ds tranche_body
    {| remaining_cash := free_cash_flow_; debt_balances := balances;
       year_schedule := [] |}.

(** The body of the loop over [years]. *)
Definition schedule_year_body (ds : sdict TrancheTerms) (om : zdict OperatingYear)
    (year : Z) (s : sdict Qc * zdict (sdict TrancheYear))
  : outcome (sdict Qc * zdict (sdict TrancheYear)) :=
  let '(balances, schedule) := s in
  oy <- zitem om year ;;
  s' <- sweep_year ds (free_cash_flow oy) balances ;;
  Returned (debt_balances s', zset schedule year (year_schedule s')).

(** [debt_balances[tranche] = terms['amount']] for every tranche. *)
Definition initial_balances (ds : sdict TrancheTerms) : sdict Qc :=
  fold_left (fun b (item : string * TrancheTerms) => sset b (fst item) (amount (snd item)))
            ds [].

Definition model_debt_schedule (self : LBOAnalysis)
  : outcome (zdict (sdict TrancheYear)) * LBOAnalysis :=
  if negb (truthy (debt_structure self)) || negb (truthy (operating_model self))
  then (ReturnedNone, self)
  else
    match for_each years
            (schedule_year_body (debt_structure self) (operating_model self))
            (initial_balances (debt_structure self), []) with
    | Returned (_, schedule) => (Returned schedule, set_debt_schedule self schedule)
    | ReturnedNone => (ReturnedNone, self)
    | Raised e => (Raised e, self)
    end.

(* ================================================================== *)
(** ** Labels of the returns analysis: [f"{multiple:.1f}x"] *)

Definition string_of_nat_Z (z : Z) : string :=
  NilZero.string_of_uint (N.to_uint (Z.to_N z)).

(** The integer nearest to a non-negative rational, ties to the even one. *)
Definition round_half_even (x : Q) : Z :=
  let n := Qnum x in
  let d := Zpos (Qden x) in
  let fl := (n / d)%Z in
  match (2 * (n mod d) ?= d)%Z with
  | Lt => fl
  | Gt => (fl + 1)%Z
  | Eq => if Z.even fl then fl else (fl + 1)%Z
  end.

(** [f"{x:.1f}"] on the exact value of [x]. *)
Definition format_1f (x : Qc) : string :=
  let a := if Qc_ltb x 0 then - x else x in
  let tenths := round_half_even (this (a * lit 10)) in
  ((if Qc_ltb x 0 then "-" else "")
   ++ string_of_nat_Z (tenths / 10) ++ "." ++ string_of_nat_Z (tenths mod 10))%string.

Definition scenario_label (multiple : Qc) : string :=
  (format_1f multiple ++ "x")%string.

(* ================================================================== *)
(** ** [exit_analysis] and [sensitivity_analysis] *)

Definition default_exit_multiples : list Qc :=
  [lit 8; lit 9; lit 10; lit 11; lit 12].

Definition default_revenue_sensitivity : list Qc := [lit (-0.1); lit 0; lit 0.1].
Definition default_ebitda_sensitivity : list Qc := [lit (-0.02); lit 0; lit 0.02].

Section Returns.
(** [x ** y] on floats, for the fractional exponents of the IRR. *)
Variable float_pow : Qc -> Qc -> Qc.

(** [(moic ** (1/n)) - 1 if moic > 0 else -1] *)
Definition irr_of (moic_ : Qc) (inv_years : outcome Qc) : outcome Qc :=
  if Qc_ltb 0 moic_
  then e <- inv_years ;; Returned (float_pow moic_ e - 1)
  else Returned (lit (-1)).

(** The body of the loop over [exit_multiples]. *)
Definition scenario_body (equity exit_ebitda total_remaining_debt : Qc) (exit_year : Z)
    (multiple : Qc) (results : sdict ExitScenario) : outcome (sdict ExitScenario) :=
  let enterprise_value_ := exit_ebitda * multiple in
  let equity_value_ := py_max 0 (enterprise_value_ - total_remaining_debt) in
  moic_ <- (if Qc_ltb 0 equity then py_div equity_value_ equity else Returned 0) ;;
  irr_ <- irr_of moic_ (py_div 1 (lit (inject_Z exit_year))) ;;
  Returned (sset results (scenario_label multiple)
    {| exit_multiple := multiple;
       enterprise_value := enterprise_value_;
       remaining_debt := total_remaining_debt;
       equity_value := equity_value_;
       moic := moic_;
       irr := irr_ |}).

(** [total_remaining_debt]: the ending balances of the exit year, added in
    the order of the year's dict. *)
Definition remaining_debt_of (ys : sdict TrancheYear) : Qc :=
  fold_left (fun acc tranche => acc + ending_balance tranche) (dict_values ys) 0.

Definition exit_analysis (self : LBOAnalysis)
    (exit_multiples : option (list Qc)) (exit_year : Z)
  : outcome (sdict ExitScenario) * LBOAnalysis :=
  let exit_multiples :=
    match exit_multiples with None => default_exit_multiples | Some l => l end in
  if negb (truthy (operating_model self)) || negb (truthy (debt_schedule self))
  then (ReturnedNone, self)
  else
    match
      (oy <- zitem (operating_model self) exit_year ;;
       ys <- zitem (debt_schedule self) exit_year ;;
       for_each exit_multiples
         (scenario_body (sponsor_equity self) (ebitda oy) (remaining_debt_of ys)
            exit_year) [])
    with
    | Returned results => (Returned results, set_returns_analysis self results)
    | ReturnedNone => (ReturnedNone, self)
    | Raised e => (Raised e, self)
    end.

(** The body of the inner loop of the sensitivity grid. *)
Definition sensitivity_body (self : LBOAnalysis) (base_case : ExitScenario)
    (rev_adj ebitda_adj : Qc) (grid : list SensitivityRow)
  : outcome (list SensitivityRow) :=
  oy <- zitem (operating_model self) 5%Z ;;
  let adjusted_ebitda := ebitda oy * (1 + rev_adj) * (1 + ebitda_adj) in
  let enterprise_value_ := adjusted_ebitda * lit 10 in
  let remaining_debt_ := remaining_debt base_case in
  let equity_value_ := py_max 0 (enterprise_value_ - remaining_debt_) in
  moic_ <- py_div equity_value_ (sponsor_equity self) ;;
  irr_ <- irr_of moic_ (py_div 1 (lit 5)) ;;
  Returned (grid ++ [ {| revenue_adj := rev_adj; ebitda_adj := ebitda_adj;
                         row_irr := irr_; row_moic := moic_ |} ]).

(** The object is read, never assigned; the rows are those of the data
    frame the method returns. *)
Definition sensitivity_analysis (self : LBOAnalysis)
    (revenue_sensitivity ebitda_sensitivity : list Qc)
  : outcome (list SensitivityRow) :=
  if negb (truthy (returns_analysis self)) then ReturnedNone
  else
    base_case <- sitem (returns_analysis self) "10.0x"%string ;;
    for_each revenue_sensitivity
      (fun rev_adj grid =>
         for_each ebitda_sensitivity (sensitivity_body self base_case rev_adj) grid)
      [].
End Returns.

(* ================================================================== *)
(** ** Reading the results *)

(** [schedule[year][tranche]] *)
Definition schedule_row (schedule : zdict (sdict TrancheYear)) (year : Z)
    (tranche : string) : option TrancheYear :=
  match zget schedule year with
  | Some ys => sget ys tranche
  | None => None
  end.

(** The cash pool at the turn of the tranche that follows [before]: the
    year's free cash flow less the total payments recorded for the tranches
    before it, taken in order. *)
Definition pool_before (fcf : Qc) (ys : sdict TrancheYear) (before : list string) : Qc :=
  fold_left
    (fun cash tranche =>
       match sget ys tranche with
       | Some r => cash - total_payment r
       | None => cash
       end)
    before fcf.

(** The state in which the scheduler runs: a debt structure is set (a dict,
    so its keys are distinct) and the operating model holds the five years. *)
Definition schedule_ready (self : LBOAnalysis) : Prop :=
  NoDup (dict_keys (debt_structure self))
  /\ debt_structure self <> []
  /\ forall y, In y years -> zget (operating_model self) y <> None.

(** Total principal and principal-weighted average rate of a structure, in
    the words of the specification of the interest line. *)
Definition total_principal (ds : sdict TrancheTerms) : Qc :=
  py_sum (map amount (dict_values ds)).

Definition weighted_average_rate (ds : sdict TrancheTerms) : Qc :=
  py_sum (map (fun debt => amount debt * rate debt) (dict_values ds))
  / total_principal ds.

(** One cell of the sensitivity grid, in the words of the specification:
    EBITDA of year 5 scaled by both adjustments, valued at 10.0x, against a
    remaining debt that is given. *)
Definition grid_cell (float_pow : Qc -> Qc -> Qc) (ebitda5 fixed_debt equity : Qc)
    (rev_adj ebitda_adj : Qc) : SensitivityRow :=
  let adjusted_ebitda := ebitda5 * (1 + rev_adj) * (1 + ebitda_adj) in
  let enterprise_value_ := adjusted_ebitda * lit 10 in
  let moic_ := py_max 0 (enterprise_value_ - fixed_debt) / equity in
  {| revenue_adj := rev_adj; ebitda_adj := ebitda_adj;
     row_irr := if Qc_ltb 0 moic_ then float_pow moic_ (1 / lit 5) - 1 else lit (-1);
     row_moic := moic_ |}.

(** The Cartesian product, revenue adjustment outermost. *)
Definition grid_of (float_pow : Qc -> Qc -> Qc) (ebitda5 fixed_debt equity : Qc)
    (revs ebitdas : list Qc) : list SensitivityRow :=
  flat_map (fun r => map (grid_cell float_pow ebitda5 fixed_debt equity r) ebitdas) revs.

(* ================================================================== *)
(** ** The example run of the script *)

(** A stand-in for the float power in evaluations: the first-order
    expansion of [x ** y] around [x = 1], exact at [y = 0] and [y = 1]. *)
Definition sample_pow (x y : Qc) : Qc := 1 + y * (x - 1).

Definition demo_growth : list Qc := [lit 0.08; lit 0.07; lit 0.06; lit 0.05].

(** [LBOAnalysis("TechCorp Industries", 500, equity)], structured with
    100/200/25/25 and projected from a revenue of 200 at a 25% margin. *)
Definition demo_projected (equity : Qc) : LBOAnalysis :=
  let lbo := init "TechCorp Industries" (lit 500) equity in
  let lbo := snd (structure_debt lbo (lit 100) (lit 200) (lit 25) (lit 25)) in
  snd (build_operating_model lbo (lit 200) demo_growth (lit 0.25)
         default_capex_rate default_nwc_rate default_tax_rate).

Definition demo_scheduled (equity : Qc) : LBOAnalysis :=
  snd (model_debt_schedule (demo_projected equity)).

Definition demo_exited (equity : Qc) : LBOAnalysis :=
  snd (exit_analysis sample_pow (demo_scheduled equity) None 5).


(* ================================================================== *)
(** ** The class of a raised exception *)

(** The name of the class of an exception, [type(e).__name__].  The code
    defines no exception class of its own: these three built-in classes
    are all it can raise in the operations modelled here. *)
Definition exn_name (e : exn) : string :=
  match e with
  | KeyError => "KeyError"
  | IndexError => "IndexError"
  | ZeroDivisionError => "ZeroDivisionError"
  end%string.

(** The call raised an exception whose class has the name [name]. *)
Definition fails_with {A : Type} (name : string) (o : outcome A) : bool :=
  match o with
  | Raised e => String.eqb (exn_name e) name
  | _ => false
  end.

(* ================================================================== *)
(** ** Reading the operating model *)

(** The growth rate the projection uses for the transition into year
    [k + 2]: entry [k] of the list, or its last entry when the list is
    shorter. *)
Definition growth_used (revenue_growth : list Qc) (k : nat) : Qc :=
  nth k revenue_growth (last revenue_growth 0).

(** What the loop body stores for year [N], given the record of the year
    before ([None] in year 1). *)
Definition projected_year (ds : sdict TrancheTerms) (base_revenue : Qc)
    (revenue_growth : list Qc) (ebitda_margin capex_rate nwc_rate tax_rate : Qc)
    (N : Z) (prev : option OperatingYear) (oy : OperatingYear) : Prop :=
  revenue oy =
    match prev with
    | None => base_revenue
    | Some p => revenue p * (1 + growth_used revenue_growth (Z.to_nat (N - 2)))
    end
  /\ ebitda oy = revenue oy * ebitda_margin
  /\ depreciation oy = revenue oy * lit 0.03
  /\ ebit oy = ebitda oy - depreciation oy
  /\ interest_of_year ds N = Returned (interest_expense oy)
  /\ ebt oy = ebit oy - interest_expense oy
  /\ taxes oy = py_max 0 (ebt oy * tax_rate)
  /\ net_income oy = ebt oy - taxes oy
  /\ operating_cash_flow oy = net_income oy + depreciation oy
  /\ capex oy = revenue oy * capex_rate
  /\ nwc_change oy =
       match prev with
       | None => 0
       | Some p => (revenue oy - revenue p) * nwc_rate
       end
  /\ free_cash_flow oy = operating_cash_flow oy - capex oy - nwc_change oy.

(* ================================================================== *)
(** ** [create_visualizations]: the data of the two figures *)

(** A call that finishes with an outcome, or dies on the UnboundLocalError
    Python raises when a local variable is read before it was assigned. *)
Inductive reached (A : Type) : Type :=
| Finished (o : outcome A)
| RaisedUnboundLocalError.

Arguments Finished {A} o.
Arguments RaisedUnboundLocalError {A}.

(** The list comprehension [[f(x) for x in xs]]. *)
Fixpoint comprehension {A B : Type} (f : A -> outcome B) (xs : list A)
  : outcome (list B) :=
  match xs with
  | [] => Returned []
  | x :: xs' => y <- f x ;; ys <- comprehension f xs' ;; Returned (y :: ys)
  end.

(** The list comprehension [[f(x) for x in xs if c(x)]]. *)
Fixpoint comprehension_if {A B : Type} (c : A -> outcome bool) (f : A -> outcome B)
    (xs : list A) : outcome (list B) :=
  match xs with
  | [] => Returned []
  | x :: xs' =>
      keep <- c x ;;
      if keep : bool
      then y <- f x ;; ys <- comprehension_if c f xs' ;; Returned (y :: ys)
      else comprehension_if c f xs'
  end.

(** One line of the debt figure: [go.Scatter(x=years, y=balances, name=tranche)]. *)
Record DebtTrace : Type := {
  trace_name : string;
  trace_years : list Z;
  trace_balances : list Qc
}.

(** The heat map: [px.imshow(irr_matrix, x=..., y=...)]. *)
Record Heatmap : Type := {
  cells : list (list Qc);
  x_labels : list string;
  y_labels : list string
}.

Definition figure_tranches : list string :=
  ["Term Loan A"; "Term Loan B"; "Revolver"; "Subordinated Debt"]%string.

(** [self.debt_schedule[year][tranche]['ending_balance']] *)
Definition ending_balance_at (self : LBOAnalysis) (year : Z) (tranche : string)
  : outcome Qc :=
  ys <- zitem (debt_schedule self) year ;;
  r <- sitem ys tranche ;;
  Returned (ending_balance r).

(** The loop that adds one trace per tranche with a positive amount. *)
Definition debt_traces (self : LBOAnalysis) : outcome (list DebtTrace) :=
  for_each figure_tranches
    (fun tranche traces =>
       terms <- sitem (debt_structure self) tranche ;;
       if Qc_ltb 0 (amount terms)
       then
         balances <-
           comprehension (fun year => ending_balance_at self year tranche) years ;;
         Returned (traces ++ [ {| trace_name := tranche; trace_years := years;
                                  trace_balances := balances |} ])
       else Returned traces)
    [].

Definition heatmap_multiples : list Z := [8; 9; 10; 11; 12]%Z.
Definition heatmap_years : list Z := [3; 4; 5; 6; 7]%Z.

(** The body of the inner loop of the heat map: the IRR of one exit year and
    one multiple. *)
Definition heatmap_cell (float_pow : Qc -> Qc -> Qc) (self : LBOAnalysis)
    (year multiple : Z) : outcome Qc :=
  oy <- zitem (operating_model self) (Z.min year 5) ;;
  let exit_ebitda := ebitda oy in
  let enterprise_value_ := exit_ebitda * lit (inject_Z multiple) in
  balances <-
    comprehension_if
      (fun tranche =>
         terms <- sitem (debt_structure self) tranche ;;
         Returned (Qc_ltb 0 (amount terms)))
      (fun tranche => ending_balance_at self (Z.min year 5) tranche)
      (dict_keys (debt_structure self)) ;;
  let remaining_debt_ := py_sum balances in
  let equity_value_ := py_max 0 (enterprise_value_ - remaining_debt_) in
  moic_ <- py_div equity_value_ (sponsor_equity self) ;;
  irr_of float_pow moic_ (py_div 1 (lit (inject_Z year))).

Definition irr_matrix (float_pow : Qc -> Qc -> Qc) (self : LBOAnalysis)
  : outcome (list (list Qc)) :=
  for_each heatmap_years
    (fun year matrix =>
       row <-
         for_each heatmap_multiples
           (fun multiple row =>
              irr_ <- heatmap_cell float_pow self year multiple ;;
              Returned (row ++ [irr_]))
           [] ;;
       Returned (matrix ++ [row]))
    [].

(** The figures are stood for by the data they are built from. *)
Definition create_visualizations (float_pow : Qc -> Qc -> Qc) (self : LBOAnalysis)
  : reached (list DebtTrace * Heatmap) :=
  if negb (truthy (debt_schedule self)) || negb (truthy (operating_model self))
  then Finished ReturnedNone
  else
    match debt_traces self with
    | Returned fig_debt =>
        if truthy (returns_analysis self)
        then
          match irr_matrix float_pow self with
          | Returned matrix =>
              Finished
                (Returned
                   (fig_debt,
                    {| cells := matrix;
                       x_labels :=
                         map (fun m => (string_of_nat_Z m ++ "x")%string)
                             heatmap_multiples;
                       y_labels :=
                         map (fun y => ("Year " ++ string_of_nat_Z y)%string)
                             heatmap_years |}))
          | ReturnedNone => Finished ReturnedNone
          | Raised e => Finished (Raised e)
          end
        else RaisedUnboundLocalError
    | ReturnedNone => Finished ReturnedNone
    | Raised e => Finished (Raised e)
    end.

(* ================================================================== *)
(** ** [export_to_excel]: the file name and the sheets handed to the writer *)

(** [s.replace(' ', '_')] *)
Fixpoint replace_spaces (s : string) : string :=
  match s with
  | EmptyString => EmptyString
  | String c s' =>
      String (if Ascii.eqb c " "%char then "_"%char else c) (replace_spaces s')
  end.

Inductive Sheet : Type :=
| TransactionSummary (values : list Qc)
| OperatingModelSheet (model : zdict OperatingYear)
| DebtScheduleSheet (year : Z) (ys : sdict TrancheYear)
| ReturnsAnalysisSheet (results : sdict ExitScenario).

Definition sheet_name (s : Sheet) : string :=
  match s with
  | TransactionSummary _ => "Transaction Summary"
  | OperatingModelSheet _ => "Operating Model"
  | DebtScheduleSheet year _ => "Debt Schedule Y" ++ string_of_nat_Z year
  | ReturnsAnalysisSheet _ => "Returns Analysis"
  end%string.

(** The loop over the years of the debt schedule, with the sheets written
    so far. *)
Fixpoint write_schedule_sheets (schedule : zdict (sdict TrancheYear))
    (ys : list Z) (written : list Sheet) : list Sheet * outcome unit :=
  match ys with
  | [] => (written, Returned tt)
  | y :: ys' =>
      match zget schedule y with
      | Some s => write_schedule_sheets schedule ys' (written ++ [DebtScheduleSheet y s])
      | None => (written, Raised KeyError)
      end
  end.

(** The result is the file name, the sheets that reached the writer, in
    order, and how the call ended. *)
Definition export_to_excel (self : LBOAnalysis) (filename : option string)
  : string * list Sheet * outcome unit :=
  let filename :=
    match filename with
    | None => (replace_spaces (company_name self) ++ "_LBO_Model.xlsx")%string
    | Some f => f
    end in
  match py_div (total_debt self) (sponsor_equity self) with
  | Returned ratio =>
      let written :=
        [TransactionSummary
           [purchase_price self; sponsor_equity self; total_debt self; ratio]] in
      let written :=
        if truthy (operating_model self)
        then written ++ [OperatingModelSheet (operating_model self)]
        else written in
      let '(written, status) :=
        if truthy (debt_schedule self)
        then write_schedule_sheets (debt_schedule self) years written
        else (written, Returned tt) in
      match status with
      | Returned _ =>
          if truthy (returns_analysis self)
          then (filename, written ++ [ReturnsAnalysisSheet (returns_analysis self)],
                Returned tt)
          else (filename, written, Returned tt)
      | _ => (filename, written, status)
      end
  | ReturnedNone => (filename, [], ReturnedNone)
  | Raised e => (filename, [], Raised e)
  end.

(** The state in which the figures can be computed: the four tranches the
    debt figure names are in the structure, the operating model holds the
    five years, and the schedule has a row for every year and tranche. *)
Definition figures_ready (self : LBOAnalysis) : Prop :=
  (forall n, In n figure_tranches -> sget (debt_structure self) n <> None)
  /\ (forall y, In y years -> zget (operating_model self) y <> None)
  /\ (forall y n, In y years -> In n (dict_keys (debt_structure self)) ->
        schedule_row (debt_schedule self) y n <> None).

(* ================================================================== *)
(** ** More of the example run *)

Definition demo_structured (equity : Qc) : LBOAnalysis :=
  snd (structure_debt (init "TechCorp Industries" (lit 500) equity)
         (lit 100) (lit 200) (lit 25) (lit 25)).

Definition zero_year : OperatingYear :=
  {| revenue := 0; ebitda := 0; ebit := 0; depreciation := 0;
     interest_expense := 0; ebt := 0; taxes := 0; net_income := 0;
     operating_cash_flow := 0; capex := 0; nwc_change := 0; free_cash_flow := 0 |}.

(** Year 5 of the example projection and of the example schedule. *)
Definition demo_year5 : OperatingYear :=
  match zget (operating_model (demo_projected (lit 150))) 5%Z with
  | Some oy => oy
  | None => zero_year
  end.

Definition demo_schedule5 : sdict TrancheYear :=
  match zget (debt_schedule (demo_scheduled (lit 150))) 5%Z with
  | Some ys => ys
  | None => []
  end.

(** The "10.0x" scenario of the example run. *)
Definition demo_base_case (equity : Qc) : ExitScenario :=
  match sget (returns_analysis (demo_exited equity)) "10.0x"%string with
  | Some rec => rec
  | None =>
      {| exit_multiple := 0; enterprise_value := 0; remaining_debt := 0;
         equity_value := 0; moic := 0; irr := 0 |}
  end.

(* ================================================================== *)
(** * Facts *)

(** ** Order on the numbers *)

Lemma Qc_ltb_lt (x y : Qc) : Qc_ltb x y = true <-> x < y.
Proof.
  unfold Qc_ltb. rewrite Qclt_alt.
  destruct (x ?= y); split; congruence.
Qed.

Lemma Qc_ltb_ge (x y : Qc) : Qc_ltb x y = false <-> y <= x.
Proof.
  split; intro H.
  - apply Qcnot_lt_le. intro L. apply Qc_ltb_lt in L. congruence.
  - destruct (Qc_ltb x y) eqn:E; [|reflexivity].
    apply Qc_ltb_lt in E. exfalso. exact (Qcle_not_lt _ _ H E).
Qed.

Lemma Qc_eqb_eq (x y : Qc) : Qc_eqb x y = true <-> x = y.
Proof.
  unfold Qc_eqb. rewrite Qceq_alt.
  destruct (x ?= y); split; congruence.
Qed.

Lemma py_max_lower (x : Qc) : 0 <= py_max 0 x.
Proof.
  unfold py_max. destruct (Qc_ltb 0 x) eqn:E.
  - apply Qclt_le_weak, Qc_ltb_lt, E.
  - apply Qcle_refl.
Qed.

Lemma py_min_le_r (a b : Qc) : py_min a b <= b.
Proof.
  unfold py_min. destruct (Qc_ltb b a) eqn:E.
  - apply Qcle_refl.
  - apply Qc_ltb_ge, E.
Qed.

(** ** Dictionaries *)

Section DictFacts.
Context {K V : Type}.
Variable eqb : K -> K -> bool.
Hypothesis eqb_eq : forall x y, eqb x y = true <-> x = y.

Lemma eqb_same (k : K) : eqb k k = true.
Proof. apply eqb_eq. reflexivity. Qed.

Lemma eqb_differ (k k' : K) : k <> k' -> eqb k k' = false.
Proof.
  intro N. destruct (eqb k k') eqn:E; [|reflexivity].
  apply eqb_eq in E. contradiction.
Qed.

Lemma dict_get_set_same (d : dict K V) (k : K) (v : V) :
  dict_get eqb (dict_set eqb d k v) k = Some v.
Proof.
  induction d as [|[k' v'] d IH]; simpl.
  - rewrite eqb_same. reflexivity.
  - destruct (eqb k k') eqn:E; simpl; rewrite E; [reflexivity | exact IH].
Qed.

Lemma dict_get_set_other (d : dict K V) (k k' : K) (v : V) :
  k <> k' -> dict_get eqb (dict_set eqb d k v) k' = dict_get eqb d k'.
Proof.
  intro N. induction d as [|[k0 v0] d IH]; simpl.
  - rewrite (eqb_differ k' k); auto.
  - destruct (eqb k k0) eqn:E; simpl.
    + apply eqb_eq in E. subst k0.
      rewrite (eqb_differ k' k); auto.
    + rewrite IH. reflexivity.
Qed.

Lemma dict_get_set_inv (d : dict K V) (k k' : K) (v r : V) :
  dict_get eqb (dict_set eqb d k v) k' = Some r ->
  (k' = k /\ r = v) \/ dict_get eqb d k' = Some r.
Proof.
  intro H. destruct (eqb k k') eqn:E.
  - apply eqb_eq in E. subst k'. rewrite dict_get_set_same in H.
    left. split; congruence.
  - right. rewrite dict_get_set_other in H; [exact H|].
    intro Heq. subst k'. rewrite eqb_same in E. discriminate.
Qed.

Lemma dict_get_in (d : dict K V) (k : K) (v : V) :
  NoDup (dict_keys d) -> In (k, v) d -> dict_get eqb d k = Some v.
Proof.
  induction d as [|[k0 v0] d IH]; simpl; intros ND HI; [contradiction|].
  inversion ND as [|? ? Hnotin ND']; subst.
  destruct HI as [Heq | HI].
  - inversion Heq; subst. rewrite eqb_same. reflexivity.
  - rewrite eqb_differ; [apply IH; assumption|].
    intro Heq. subst k0. apply Hnotin.
    change k with (fst (k, v)). apply in_map. exact HI.
Qed.

Lemma dict_get_key (d : dict K V) (k : K) (v : V) :
  dict_get eqb d k = Some v -> In k (dict_keys d).
Proof.
  induction d as [|[k0 v0] d IH]; simpl; [discriminate|].
  destruct (eqb k k0) eqn:E; intro H.
  - left. symmetry. apply eqb_eq. exact E.
  - right. apply IH. exact H.
Qed.
End DictFacts.

Lemma sget_set_same {V : Type} (d : sdict V) (k : string) (v : V) :
  sget (sset d k v) k = Some v.
Proof. apply dict_get_set_same, String.eqb_eq. Qed.

Lemma sget_set_other {V : Type} (d : sdict V) (k k' : string) (v : V) :
  k <> k' -> sget (sset d k v) k' = sget d k'.
Proof. apply dict_get_set_other, String.eqb_eq. Qed.

Lemma sget_set_inv {V : Type} (d : sdict V) (k k' : string) (v r : V) :
  sget (sset d k v) k' = Some r -> (k' = k /\ r = v) \/ sget d k' = Some r.
Proof. apply dict_get_set_inv, String.eqb_eq. Qed.

Lemma sget_in {V : Type} (d : sdict V) (k : string) (v : V) :
  NoDup (dict_keys d) -> In (k, v) d -> sget d k = Some v.
Proof. apply dict_get_in, String.eqb_eq. Qed.

Lemma sget_key {V : Type} (d : sdict V) (k : string) (v : V) :
  sget d k = Some v -> In k (dict_keys d).
Proof. apply dict_get_key, String.eqb_eq. Qed.


(** ** Loops *)

Lemma for_each_cons {A S : Type} (x : A) (xs : list A)
    (body : A -> S -> outcome S) (s : S) :
  for_each (x :: xs) body s = (s' <- body x s ;; for_each xs body s').
Proof. reflexivity. Qed.

Lemma for_each_step {A S : Type} (x : A) (xs : list A)
    (body : A -> S -> outcome S) (s s' : S) :
  body x s = Returned s' ->
  for_each (x :: xs) body s = for_each xs body s'.
Proof. intro H. rewrite for_each_cons, H. reflexivity. Qed.

(** ** One year of the sweep *)

Lemma dict_keys_app {V : Type} (a b : sdict V) :
  dict_keys (a ++ b) = dict_keys a ++ dict_keys b.
Proof. unfold dict_keys. apply map_app. Qed.

(** The loop over the tranches, from any state: it returns; keys outside the
    list keep their balance and their row; the tranche after the prefix [pre]
    gets the row computed from its own balance and the pool left by [pre],
    and its balance becomes the ending balance of that row. *)
Lemma tranche_loop (l : sdict TrancheTerms) :
  forall s,
    NoDup (dict_keys l) ->
    (forall n, In n (dict_keys l) -> sget (debt_balances s) n <> None) ->
    exists s',
      for_each l tranche_body s = Returned s'
      /\ (forall n, ~ In n (dict_keys l) ->
            sget (debt_balances s') n = sget (debt_balances s) n
            /\ sget (year_schedule s') n = sget (year_schedule s) n)
      /\ (forall n, sget (debt_balances s) n <> None ->
            sget (debt_balances s') n <> None)
      /\ (forall pre n t post, l = pre ++ (n, t) :: post ->
            exists b,
              sget (debt_balances s) n = Some b
              /\ sget (year_schedule s') n =
                   Some (tranche_row n t
                           (pool_before (remaining_cash s) (year_schedule s')
                              (dict_keys pre)) b)
              /\ sget (debt_balances s') n =
                   Some (ending_balance
                           (tranche_row n t
                              (pool_before (remaining_cash s) (year_schedule s')
                                 (dict_keys pre)) b))).
Proof.
  induction l as [|[n0 t0] l IH]; intros s ND Hcov.
  - exists s. split; [reflexivity|]. split; [auto|]. split; [auto|].
    intros pre n t post E. destruct pre; discriminate.
  - simpl in ND. inversion ND as [|? ? Hfresh ND']; subst.
    destruct (sget (debt_balances s) n0) as [b0|] eqn:Eb0;
      [|exfalso; apply (Hcov n0); [left; reflexivity | exact Eb0]].
    set (r0 := tranche_row n0 t0 (remaining_cash s) b0).
    set (s1 := {| remaining_cash := remaining_cash s - total_payment r0;
                  debt_balances := sset (debt_balances s) n0 (ending_balance r0);
                  year_schedule := sset (year_schedule s) n0 r0 |}).
    assert (Hstep : tranche_body (n0, t0) s = Returned s1).
    { unfold tranche_body, dict_item. rewrite Eb0. reflexivity. }
    destruct (IH s1 ND') as (s' & Hrun & Hout & Hkeep & Hrows).
    { intros n Hn. simpl.
      destruct (string_dec n0 n) as [->|Hne].
      - rewrite sget_set_same. discriminate.
      - rewrite sget_set_other by exact Hne. apply Hcov. right. exact Hn. }
    assert (Hn0 : sget (debt_balances s') n0 = Some (ending_balance r0)
                  /\ sget (year_schedule s') n0 = Some r0).
    { destruct (Hout n0 Hfresh) as [Hb Hy]. rewrite Hb, Hy. simpl.
      rewrite !sget_set_same. split; reflexivity. }
    exists s'. split.
    { rewrite for_each_cons, Hstep. exact Hrun. }
    split.
    { intros n Hn. simpl in Hn.
      assert (Hne : n0 <> n) by (intro; apply Hn; left; assumption).
      assert (Hnl : ~ In n (dict_keys l)) by (intro; apply Hn; right; assumption).
      destruct (Hout n Hnl) as [Hb Hy]. rewrite Hb, Hy. simpl.
      rewrite !sget_set_other by exact Hne. split; reflexivity. }
    split.
    { intros n Hn. apply Hkeep. simpl.
      destruct (string_dec n0 n) as [->|Hne].
      - rewrite sget_set_same. discriminate.
      - rewrite sget_set_other by exact Hne. exact Hn. }
    intros pre n t post E.
    destruct pre as [|[n1 t1] pre]; simpl in E.
    + inversion E; subst. exists b0. simpl.
      destruct Hn0 as [Hb Hy]. fold r0. auto.
    + inversion E; subst.
      destruct (Hrows pre n t post eq_refl) as (b & Hb & Hy & Hb').
      assert (Hne : n1 <> n).
      { intro; subst n. apply Hfresh. rewrite dict_keys_app.
        apply in_or_app. right. left. reflexivity. }
      exists b. simpl in Hb. rewrite sget_set_other in Hb by exact Hne.
      split; [exact Hb|].
      assert (Hpool :
        pool_before (remaining_cash s) (year_schedule s') (dict_keys ((n1, t1) :: pre))
        = pool_before (remaining_cash s1) (year_schedule s') (dict_keys pre)).
      { unfold pool_before. simpl. destruct Hn0 as [_ Hy0]. rewrite Hy0. reflexivity. }
      rewrite Hpool. split; assumption.
Qed.


Lemma in_keys_split {V : Type} (d : sdict V) (n : string) :
  In n (dict_keys d) -> exists pre v post, d = pre ++ (n, v) :: post.
Proof.
  unfold dict_keys. intro H. apply in_map_iff in H.
  destruct H as ([n' v] & E & HI). simpl in E. subst n'.
  destruct (in_split _ _ HI) as (pre & post & ->).
  exists pre, v, post. reflexivity.
Qed.

(** One year from free cash flow [fcf] and balances [bal]. *)
Lemma sweep_year_spec (ds : sdict TrancheTerms) (fcf : Qc) (bal : sdict Qc) :
  NoDup (dict_keys ds) ->
  (forall n, In n (dict_keys ds) -> sget bal n <> None) ->
  exists s',
    sweep_year ds fcf bal = Returned s'
    /\ (forall n, sget bal n <> None -> sget (debt_balances s') n <> None)
    /\ (forall pre n t post, ds = pre ++ (n, t) :: post ->
          exists b,
            sget bal n = Some b
            /\ sget (year_schedule s') n =
                 Some (tranche_row n t
                         (pool_before fcf (year_schedule s') (dict_keys pre)) b))
    /\ (forall n r, sget (year_schedule s') n = Some r ->
          In n (dict_keys ds)
          /\ sget (debt_balances s') n = Some (ending_balance r)).
Proof.
  intros ND Hcov. unfold sweep_year.
  destruct (tranche_loop ds
              {| remaining_cash := fcf; debt_balances := bal; year_schedule := [] |}
              ND Hcov) as (s' & Hrun & Hout & Hkeep & Hrows).
  exists s'. split; [exact Hrun|]. split; [exact Hkeep|]. split.
  - intros pre n t post E.
    destruct (Hrows pre n t post E) as (b & Hb & Hy & _).
    exists b. split; assumption.
  - intros n r Hr.
    assert (Hin : In n (dict_keys ds)).
    { destruct (in_dec string_dec n (dict_keys ds)) as [Hin|Hnot]; [exact Hin|].
      destruct (Hout n Hnot) as [_ Hy]. rewrite Hy in Hr. discriminate. }
    split; [exact Hin|].
    destruct (in_keys_split ds n Hin) as (pre & t & post & E).
    destruct (Hrows pre n t post E) as (b & _ & Hy & Hb').
    rewrite Hy in Hr. inversion Hr; subst r. exact Hb'.
Qed.

(** ** The balances the first year starts from *)

Lemma initial_balances_fold (l : sdict TrancheTerms) :
  forall (b0 : sdict Qc) (n : string),
    ~ In n (dict_keys l) ->
    sget (fold_left
            (fun b (item : string * TrancheTerms) =>
               sset b (fst item) (amount (snd item))) l b0) n
    = sget b0 n.
Proof.
  induction l as [|[n0 t0] l IH]; intros b0 n Hn; simpl; [reflexivity|].
  rewrite IH by (intro; apply Hn; right; assumption).
  apply sget_set_other. intro; subst. apply Hn. left. reflexivity.
Qed.

Lemma initial_balances_amount (ds : sdict TrancheTerms) (n : string) (t : TrancheTerms) :
  NoDup (dict_keys ds) -> In (n, t) ds ->
  sget (initial_balances ds) n = Some (amount t).
Proof.
  unfold initial_balances. generalize (@nil (string * Qc)).
  induction ds as [|[n0 t0] ds IH]; intros b0 ND HI; [contradiction|].
  simpl in ND. inversion ND as [|? ? Hfresh ND']; subst.
  destruct HI as [E | HI]; simpl.
  - inversion E; subst. rewrite initial_balances_fold by exact Hfresh.
    apply sget_set_same.
  - apply IH; assumption.
Qed.

Lemma initial_balances_cover (ds : sdict TrancheTerms) (n : string) :
  NoDup (dict_keys ds) -> In n (dict_keys ds) -> sget (initial_balances ds) n <> None.
Proof.
  intros ND Hin. destruct (in_keys_split ds n Hin) as (pre & t & post & E).
  rewrite (initial_balances_amount ds n t ND); [discriminate|].
  rewrite E. apply in_or_app. right. left. reflexivity.
Qed.

(** ** The five years *)

Lemma schedule_year_body_run (ds : sdict TrancheTerms) (om : zdict OperatingYear)
    (y : Z) (bal : sdict Qc) (sched : zdict (sdict TrancheYear))
    (oy : OperatingYear) (s' : SweepState) :
  zget om y = Some oy ->
  sweep_year ds (free_cash_flow oy) bal = Returned s' ->
  schedule_year_body ds om y (bal, sched)
  = Returned (debt_balances s', zset sched y (year_schedule s')).
Proof.
  intros Hoy Hrun. unfold schedule_year_body, dict_item.
  rewrite Hoy. simpl. rewrite Hrun. reflexivity.
Qed.

(** The scheduler returns in a ready state, and every year [y] of its
    schedule is one sweep: from the year's free cash flow and from balances
    [bal] that are the principals in year 1 and the ending balances of year
    [y - 1] afterwards. *)
Lemma schedule_facts (self : LBOAnalysis) :
  schedule_ready self ->
  exists schedule,
    model_debt_schedule self = (Returned schedule, set_debt_schedule self schedule)
    /\ forall y, In y years ->
         exists oy s bal,
           zget (operating_model self) y = Some oy
           /\ sweep_year (debt_structure self) (free_cash_flow oy) bal = Returned s
           /\ zget schedule y = Some (year_schedule s)
           /\ (forall pre n t post,
                 debt_structure self = pre ++ (n, t) :: post ->
                 exists b,
                   sget bal n = Some b
                   /\ sget (year_schedule s) n =
                        Some (tranche_row n t
                                (pool_before (free_cash_flow oy) (year_schedule s)
                                   (dict_keys pre)) b))
           /\ (forall n r, sget (year_schedule s) n = Some r ->
                 In n (dict_keys (debt_structure self)))
           /\ (y = 1%Z -> bal = initial_balances (debt_structure self))
           /\ (forall ys_prev,
                 zget schedule (y - 1)%Z = Some ys_prev ->
                 forall n r, sget ys_prev n = Some r ->
                             sget bal n = Some (ending_balance r)).
Proof.
  intros (ND & Hne & Hom).
  set (ds := debt_structure self) in *.
  set (om := operating_model self) in *.
  assert (Hy : forall y, In y years -> exists oy, zget om y = Some oy).
  { intros y Hin. specialize (Hom y Hin).
    destruct (zget om y) as [oy|]; [exists oy; reflexivity | contradiction]. }
  destruct (Hy 1%Z) as [oy1 H1]; [simpl; tauto|].
  destruct (Hy 2%Z) as [oy2 H2]; [simpl; tauto|].
  destruct (Hy 3%Z) as [oy3 H3]; [simpl; tauto|].
  destruct (Hy 4%Z) as [oy4 H4]; [simpl; tauto|].
  destruct (Hy 5%Z) as [oy5 H5]; [simpl; tauto|].
  destruct (sweep_year_spec ds (free_cash_flow oy1) (initial_balances ds) ND)
    as (s1 & R1 & K1 & Rows1 & End1).
  { intros n Hn. apply initial_balances_cover; assumption. }
  assert (C1 : forall n, In n (dict_keys ds) -> sget (debt_balances s1) n <> None).
  { intros n Hn. apply K1, initial_balances_cover; assumption. }
  destruct (sweep_year_spec ds (free_cash_flow oy2) (debt_balances s1) ND C1)
    as (s2 & R2 & K2 & Rows2 & End2).
  assert (C2 : forall n, In n (dict_keys ds) -> sget (debt_balances s2) n <> None)
    by (intros n Hn; apply K2, C1, Hn).
  destruct (sweep_year_spec ds (free_cash_flow oy3) (debt_balances s2) ND C2)
    as (s3 & R3 & K3 & Rows3 & End3).
  assert (C3 : forall n, In n (dict_keys ds) -> sget (debt_balances s3) n <> None)
    by (intros n Hn; apply K3, C2, Hn).
  destruct (sweep_year_spec ds (free_cash_flow oy4) (debt_balances s3) ND C3)
    as (s4 & R4 & K4 & Rows4 & End4).
  assert (C4 : forall n, In n (dict_keys ds) -> sget (debt_balances s4) n <> None)
    by (intros n Hn; apply K4, C3, Hn).
  destruct (sweep_year_spec ds (free_cash_flow oy5) (debt_balances s4) ND C4)
    as (s5 & R5 & K5 & Rows5 & End5).
  exists [(1%Z, year_schedule s1); (2%Z, year_schedule s2); (3%Z, year_schedule s3);
          (4%Z, year_schedule s4); (5%Z, year_schedule s5)].
  split.
  - unfold model_debt_schedule. fold ds om.
    assert (Tds : truthy ds = true) by (destruct ds; [contradiction | reflexivity]).
    assert (Tom : truthy om = true) by (destruct om; [discriminate | reflexivity]).
    rewrite Tds, Tom. simpl negb. simpl orb. cbv iota.
    unfold years.
    rewrite (for_each_step _ _ _ _ _ (schedule_year_body_run ds om _ _ _ _ _ H1 R1)).
    rewrite (for_each_step _ _ _ _ _ (schedule_year_body_run ds om _ _ _ _ _ H2 R2)).
    rewrite (for_each_step _ _ _ _ _ (schedule_year_body_run ds om _ _ _ _ _ H3 R3)).
    rewrite (for_each_step _ _ _ _ _ (schedule_year_body_run ds om _ _ _ _ _ H4 R4)).
    rewrite (for_each_step _ _ _ _ _ (schedule_year_body_run ds om _ _ _ _ _ H5 R5)).
    reflexivity.
  - intros y Hin. simpl in Hin.
    destruct Hin as [<-|[<-|[<-|[<-|[<-|[]]]]]].
    + exists oy1, s1, (initial_balances ds).
      repeat split; try assumption; try reflexivity.
      * intros n r Hr. apply (End1 n r Hr).
      * intros ys_prev Hprev. discriminate Hprev.
    + exists oy2, s2, (debt_balances s1).
      repeat split; try assumption; try reflexivity; try discriminate.
      * intros n r Hr. apply (End2 n r Hr).
      * intros ys_prev Hprev n r Hr. inversion Hprev; subst ys_prev.
        apply (End1 n r Hr).
    + exists oy3, s3, (debt_balances s2).
      repeat split; try assumption; try reflexivity; try discriminate.
      * intros n r Hr. apply (End3 n r Hr).
      * intros ys_prev Hprev n r Hr. inversion Hprev; subst ys_prev.
        apply (End2 n r Hr).
    + exists oy4, s4, (debt_balances s3).
      repeat split; try assumption; try reflexivity; try discriminate.
      * intros n r Hr. apply (End4 n r Hr).
      * intros ys_prev Hprev n r Hr. inversion Hprev; subst ys_prev.
        apply (End3 n r Hr).
    + exists oy5, s5, (debt_balances s4).
      repeat split; try assumption; try reflexivity; try discriminate.
      * intros n r Hr. apply (End5 n r Hr).
      * intros ys_prev Hprev n r Hr. inversion Hprev; subst ys_prev.
        apply (End4 n r Hr).
Qed.


Lemma years_range (y : Z) : (1 <= y <= 5)%Z -> In y years.
Proof. intro H. unfold years. simpl. lia. Qed.

Lemma in_split_item {V : Type} (d : sdict V) (n : string) (v : V) :
  In (n, v) d -> exists pre post, d = pre ++ (n, v) :: post.
Proof. intro H. destruct (in_split _ _ H) as (pre & post & E). eauto. Qed.

(** ** The debt schedule *)

(** C1 (balance continuity).  In a state where the scheduler can run it
    returns a schedule in which, for every tranche of the structure, the row
    of year 1 begins at the tranche's principal amount and, for every year y
    in 1..4, the ending balance of year y is the beginning balance of year
    y + 1. *)
Theorem balance_continuity (self : LBOAnalysis) :
  schedule_ready self ->
  exists schedule,
    model_debt_schedule self = (Returned schedule, set_debt_schedule self schedule)
    /\ forall tranche terms,
         In (tranche, terms) (debt_structure self) ->
         (exists r1,
            schedule_row schedule 1 tranche = Some r1
            /\ beginning_balance r1 = amount terms)
         /\ forall y, (1 <= y <= 4)%Z ->
              exists r r',
                schedule_row schedule y tranche = Some r
                /\ schedule_row schedule (y + 1) tranche = Some r'
                /\ ending_balance r = beginning_balance r'.
Proof.
  intro Hready. pose proof Hready as (ND & _ & _).
  destruct (schedule_facts self Hready) as (schedule & Hrun & Hyears).
  exists schedule. split; [exact Hrun|].
  intros tranche terms HI.
  destruct (in_split_item _ _ _ HI) as (pre & post & E).
  split.
  - destruct (Hyears 1%Z) as (oy & s & bal & _ & _ & Hs & Hrows & _ & Hstart & _);
      [apply years_range; lia|].
    destruct (Hrows pre tranche terms post E) as (b & Hb & Hr).
    rewrite (Hstart eq_refl), (initial_balances_amount _ _ _ ND HI) in Hb.
    inversion Hb; subst b.
    eexists. split; [unfold schedule_row; rewrite Hs; exact Hr | reflexivity].
  - intros y Hy.
    destruct (Hyears y) as (oy & s & bal & _ & _ & Hs & Hrows & _ & _ & _);
      [apply years_range; lia|].
    destruct (Hyears (y + 1)%Z) as (oy' & s' & bal' & _ & _ & Hs' & Hrows' & _ & _ & Hprev);
      [apply years_range; lia|].
    destruct (Hrows pre tranche terms post E) as (b & _ & Hr).
    destruct (Hrows' pre tranche terms post E) as (b' & Hb' & Hr').
    replace (y + 1 - 1)%Z with y in Hprev by lia.
    rewrite (Hprev _ Hs _ _ Hr) in Hb'. inversion Hb'; subst b'.
    do 2 eexists. unfold schedule_row. rewrite Hs, Hs'.
    split; [exact Hr|]. split; [exact Hr'|]. reflexivity.
Qed.


(** C9 (bounds).  In every year of the schedule every tranche has a row
    whose ending balance is at least 0 and whose mandatory payment is at most
    its beginning balance. *)
Theorem balances_bounded (self : LBOAnalysis) :
  schedule_ready self ->
  exists schedule,
    model_debt_schedule self = (Returned schedule, set_debt_schedule self schedule)
    /\ forall y tranche terms,
         (1 <= y <= 5)%Z ->
         In (tranche, terms) (debt_structure self) ->
         exists r,
           schedule_row schedule y tranche = Some r
           /\ 0 <= ending_balance r
           /\ mandatory_payment r <= beginning_balance r.
Proof.
  intro Hready.
  destruct (schedule_facts self Hready) as (schedule & Hrun & Hyears).
  exists schedule. split; [exact Hrun|].
  intros y tranche terms Hy HI.
  destruct (in_split_item _ _ _ HI) as (pre & post & E).
  destruct (Hyears y (years_range y Hy)) as (oy & s & bal & _ & _ & Hs & Hrows & _).
  destruct (Hrows pre tranche terms post E) as (b & _ & Hr).
  eexists. unfold schedule_row. rewrite Hs. split; [exact Hr|].
  split; simpl.
  - apply py_max_lower.
  - apply py_min_le_r.
Qed.

(** C2 (the sweep).  In every year, with the pool starting at the year's
    free cash flow and reduced by the total payment of each tranche in the
    order of the structure, a tranche not named "Term Loan B" has optional
    payment 0, and "Term Loan B" has
    min(pool - mandatory, beginning - mandatory) when the pool at its turn
    exceeds its mandatory payment, and 0 otherwise. *)
Theorem sweep_only_term_loan_b (self : LBOAnalysis) :
  schedule_ready self ->
  exists schedule,
    model_debt_schedule self = (Returned schedule, set_debt_schedule self schedule)
    /\ forall y, (1 <= y <= 5)%Z ->
         exists oy ys,
           zget (operating_model self) y = Some oy
           /\ zget schedule y = Some ys
           /\ forall pre tranche terms post,
                debt_structure self = pre ++ (tranche, terms) :: post ->
                exists r,
                  sget ys tranche = Some r
                  /\ (tranche <> "Term Loan B"%string -> optional_payment r = 0)
                  /\ (tranche = "Term Loan B"%string ->
                      let pool := pool_before (free_cash_flow oy) ys (dict_keys pre) in
                      optional_payment r =
                        if Qc_ltb (mandatory_payment r) pool
                        then py_min (pool - mandatory_payment r)
                                    (beginning_balance r - mandatory_payment r)
                        else 0).
Proof.
  intro Hready.
  destruct (schedule_facts self Hready) as (schedule & Hrun & Hyears).
  exists schedule. split; [exact Hrun|].
  intros y Hy.
  destruct (Hyears y (years_range y Hy)) as (oy & s & bal & Hoy & _ & Hs & Hrows & _).
  exists oy, (year_schedule s). split; [exact Hoy|]. split; [exact Hs|].
  intros pre tranche terms post E.
  destruct (Hrows pre tranche terms post E) as (b & _ & Hr).
  eexists. split; [exact Hr|]. split.
  - intro Hne. simpl. unfold term_loan_b_name.
    apply String.eqb_neq in Hne. rewrite Hne, andb_false_r. reflexivity.
  - intros -> pool. simpl. unfold term_loan_b_name. fold pool.
    rewrite andb_true_r. reflexivity.
Qed.


Lemma tranche_row_other (n : string) (t : TrancheTerms) (cash cash' b : Qc) :
  n <> "Term Loan B"%string -> tranche_row n t cash' b = tranche_row n t cash b.
Proof.
  intro Hne. apply String.eqb_neq in Hne.
  unfold tranche_row, term_loan_b_name. rewrite Hne, !andb_false_r. reflexivity.
Qed.

Lemma tranche_row_no_cash (n : string) (t : TrancheTerms) (cash b : Qc) :
  cash <= mandatory_payment (tranche_row n t cash b) ->
  total_payment (tranche_row n t cash b) = mandatory_payment (tranche_row n t cash b).
Proof.
  simpl. intro Hle. apply Qc_ltb_ge in Hle. rewrite Hle. simpl.
  apply Qcplus_0_r.
Qed.

(** C10 (mandatory payments do not look at the pool).  Every row of the
    schedule has mandatory payment min(beginning x amortization, beginning).
    Replaying a year from the same starting balances with any other free cash
    flow leaves every beginning balance and every mandatory payment as they
    are and changes no row but that of "Term Loan B"; a tranche whose turn
    finds the pool at or below its mandatory payment (exhausted or negative)
    still pays the mandatory payment and nothing more.  The pool does go
    negative: with the principals 100/200/25/25 and a free cash flow of -10,
    Term Loan A pays a positive mandatory amount and the pool ends below
    -10. *)
Theorem mandatory_payment_ignores_cash (self : LBOAnalysis) :
  schedule_ready self ->
  exists schedule,
    model_debt_schedule self = (Returned schedule, set_debt_schedule self schedule)
    /\ (forall y, (1 <= y <= 5)%Z ->
          exists oy s bal,
            zget (operating_model self) y = Some oy
            /\ sweep_year (debt_structure self) (free_cash_flow oy) bal = Returned s
            /\ zget schedule y = Some (year_schedule s)
            /\ forall fcf',
                 exists s',
                   sweep_year (debt_structure self) fcf' bal = Returned s'
                   /\ forall pre tranche terms post,
                        debt_structure self = pre ++ (tranche, terms) :: post ->
                        exists r r',
                          sget (year_schedule s) tranche = Some r
                          /\ sget (year_schedule s') tranche = Some r'
                          /\ mandatory_payment r =
                               py_min (beginning_balance r * amortization terms)
                                      (beginning_balance r)
                          /\ beginning_balance r' = beginning_balance r
                          /\ mandatory_payment r' = mandatory_payment r
                          /\ (tranche <> "Term Loan B"%string -> r' = r)
                          /\ (pool_before fcf' (year_schedule s') (dict_keys pre)
                                <= mandatory_payment r' ->
                              total_payment r' = mandatory_payment r'))
    /\ (exists s rA,
          sweep_year (debt_structure (demo_projected (lit 150))) (lit (-10))
            (initial_balances (debt_structure (demo_projected (lit 150))))
          = Returned s
          /\ sget (year_schedule s) "Term Loan A"%string = Some rA
          /\ 0 < mandatory_payment rA
          /\ remaining_cash s < lit (-10)).
Proof.
  intro Hready. pose proof Hready as (ND & _ & _).
  destruct (schedule_facts self Hready) as (schedule & Hrun & Hyears).
  exists schedule. split; [exact Hrun|]. split.
  - intros y Hy.
    destruct (Hyears y (years_range y Hy))
      as (oy & s & bal & Hoy & Hsweep & Hs & Hrows & _).
    exists oy, s, bal. repeat (split; [assumption|]).
    intro fcf'.
    destruct (sweep_year_spec (debt_structure self) fcf' bal ND)
      as (s' & Hsweep' & _ & Hrows' & _).
    { intros n Hn. destruct (in_keys_split _ _ Hn) as (pre & t & post & E).
      destruct (Hrows pre n t post E) as (b & Hb & _). rewrite Hb. discriminate. }
    exists s'. split; [exact Hsweep'|].
    intros pre tranche terms post E.
    destruct (Hrows pre tranche terms post E) as (b & Hb & Hr).
    destruct (Hrows' pre tranche terms post E) as (b' & Hb' & Hr').
    rewrite Hb in Hb'. inversion Hb'; subst b'.
    do 2 eexists. split; [exact Hr|]. split; [exact Hr'|].
    split; [reflexivity|]. split; [reflexivity|]. split; [reflexivity|].
    split.
    + intro Hne. apply tranche_row_other, Hne.
    + apply tranche_row_no_cash.
  - do 2 eexists. split; [vm_compute; reflexivity|].
    split; [vm_compute; reflexivity|].
    split; vm_compute; reflexivity.
Qed.


(** ** The operating model *)

Lemma py_index_in_range {A : Type} (xs : list A) (k : Z) :
  (0 <= k < Z.of_nat (List.length xs))%Z -> exists x, py_index xs k = Returned x.
Proof.
  intro Hk.
  assert (E1 : (k <? 0)%Z = false) by (apply Z.ltb_ge; lia).
  assert (E2 : (Z.of_nat (List.length xs) <=? k)%Z = false) by (apply Z.leb_gt; lia).
  unfold py_index. cbv zeta. rewrite E1. cbv iota. rewrite E1, E2. simpl.
  destruct (nth_error xs (Z.to_nat k)) as [x|] eqn:E.
  - exists x. reflexivity.
  - apply nth_error_None in E. lia.
Qed.

Lemma py_index_last {A : Type} (xs : list A) :
  xs <> [] -> exists x, py_index xs (-1) = Returned x.
Proof.
  intro Hne.
  assert (Hlen : (1 <= Z.of_nat (List.length xs))%Z).
  { destruct xs; [contradiction | simpl List.length; lia]. }
  assert (E1 : (-1 + Z.of_nat (List.length xs) <? 0)%Z = false)
    by (apply Z.ltb_ge; lia).
  assert (E2 : (Z.of_nat (List.length xs) <=? -1 + Z.of_nat (List.length xs))%Z = false)
    by (apply Z.leb_gt; lia).
  unfold py_index. cbv zeta. change (-1 <? 0)%Z with true. cbv iota.
  rewrite E1, E2. cbn [orb].
  destruct (nth_error xs (Z.to_nat (-1 + Z.of_nat (List.length xs)))) as [x|] eqn:E.
  - exists x. reflexivity.
  - apply nth_error_None in E. lia.
Qed.

(** The interest line never fails: the division is reached only with a
    positive divisor. *)
Lemma interest_of_year_returns (ds : sdict TrancheTerms) (year : Z) :
  interest_of_year ds year =
  Returned
    (if truthy ds
     then total_principal ds
          * (if Qc_ltb 0 (total_principal ds) then weighted_average_rate ds else 0)
          * lit 0.9 ^ Z.to_nat (year - 1)
     else 0).
Proof.
  unfold interest_of_year, weighted_average_rate, total_principal.
  destruct (truthy ds); [|reflexivity].
  destruct (Qc_ltb 0 (py_sum (map amount (dict_values ds)))) eqn:E; [|reflexivity].
  unfold py_div.
  destruct (Qc_eqb (py_sum (map amount (dict_values ds))) 0) eqn:Z0; [|reflexivity].
  apply Qc_eqb_eq in Z0. rewrite Z0 in E. discriminate E.
Qed.

Section OperatingYears.
Variables (ds : sdict TrancheTerms) (base_revenue : Qc) (revenue_growth : list Qc).
Variables ebitda_margin capex_rate nwc_rate tax_rate : Qc.

Lemma operating_year_first (i : Z) (model : zdict OperatingYear) :
  exists oy,
    operating_year_body ds base_revenue revenue_growth
      ebitda_margin capex_rate nwc_rate tax_rate (i, 1%Z) model
    = Returned (zset model 1%Z oy)
    /\ interest_of_year ds 1 = Returned (interest_expense oy).
Proof.
  unfold operating_year_body.
  rewrite interest_of_year_returns. cbn [Z.eqb Pos.eqb bind].
  eexists. split; reflexivity.
Qed.

Lemma operating_year_next (i year : Z) (model : zdict OperatingYear)
    (prev : OperatingYear) :
  revenue_growth <> [] ->
  (0 <= i - 1)%Z ->
  year <> 1%Z ->
  zget model (year - 1)%Z = Some prev ->
  exists oy,
    operating_year_body ds base_revenue revenue_growth
      ebitda_margin capex_rate nwc_rate tax_rate (i, year) model
    = Returned (zset model year oy)
    /\ interest_of_year ds year = Returned (interest_expense oy).
Proof.
  intros Hg Hi Hy Hprev. unfold operating_year_body.
  apply Z.eqb_neq in Hy. rewrite Hy.
  assert (Hrate :
    exists g,
      (if (i - 1 <? Z.of_nat (List.length revenue_growth))%Z
       then py_index revenue_growth (i - 1)
       else py_index revenue_growth (-1)) = Returned g).
  { destruct (i - 1 <? Z.of_nat (List.length revenue_growth))%Z eqn:E.
    - apply py_index_in_range. apply Z.ltb_lt in E. lia.
    - apply py_index_last, Hg. }
  destruct Hrate as [g ->].
  unfold dict_item. rewrite Hprev.
  rewrite interest_of_year_returns. cbn [bind].
  eexists. split; reflexivity.
Qed.
End OperatingYears.


(** The projection returns whenever there is a growth rate to use, with the
    five years in place and the interest line of each year as
    [interest_of_year] gives it. *)
Lemma build_operating_model_run (self : LBOAnalysis) (base_revenue : Qc)
    (revenue_growth : list Qc) (ebitda_margin capex_rate nwc_rate tax_rate : Qc) :
  revenue_growth <> [] ->
  exists model,
    build_operating_model self base_revenue revenue_growth
      ebitda_margin capex_rate nwc_rate tax_rate
    = (Returned model, set_operating_model self model)
    /\ forall N, (1 <= N <= 5)%Z ->
         exists oy,
           zget model N = Some oy
           /\ interest_of_year (debt_structure self) N = Returned (interest_expense oy).
Proof.
  intro Hg. unfold build_operating_model.
  change (enumerate years)
    with [(0, 1); (1, 2); (2, 3); (3, 4); (4, 5)]%Z.
  destruct (operating_year_first (debt_structure self) base_revenue revenue_growth
              ebitda_margin capex_rate nwc_rate tax_rate 0%Z [])
    as (oy1 & B1 & I1).
  simpl zset in B1.
  destruct (operating_year_next (debt_structure self) base_revenue revenue_growth
              ebitda_margin capex_rate nwc_rate tax_rate 1%Z 2%Z
              [(1%Z, oy1)] oy1 Hg)
    as (oy2 & B2 & I2); [lia | discriminate | reflexivity |].
  simpl zset in B2.
  destruct (operating_year_next (debt_structure self) base_revenue revenue_growth
              ebitda_margin capex_rate nwc_rate tax_rate 2%Z 3%Z
              [(1%Z, oy1); (2%Z, oy2)] oy2 Hg)
    as (oy3 & B3 & I3); [lia | discriminate | reflexivity |].
  simpl zset in B3.
  destruct (operating_year_next (debt_structure self) base_revenue revenue_growth
              ebitda_margin capex_rate nwc_rate tax_rate 3%Z 4%Z
              [(1%Z, oy1); (2%Z, oy2); (3%Z, oy3)] oy3 Hg)
    as (oy4 & B4 & I4); [lia | discriminate | reflexivity |].
  simpl zset in B4.
  destruct (operating_year_next (debt_structure self) base_revenue revenue_growth
              ebitda_margin capex_rate nwc_rate tax_rate 4%Z 5%Z
              [(1%Z, oy1); (2%Z, oy2); (3%Z, oy3); (4%Z, oy4)] oy4 Hg)
    as (oy5 & B5 & I5); [lia | discriminate | reflexivity |].
  simpl zset in B5.
  rewrite (for_each_step _ _ _ _ _ B1), (for_each_step _ _ _ _ _ B2),
    (for_each_step _ _ _ _ _ B3), (for_each_step _ _ _ _ _ B4),
    (for_each_step _ _ _ _ _ B5).
  eexists. split; [reflexivity|].
  intros N HN.
  assert (HN' : N = 1%Z \/ N = 2%Z \/ N = 3%Z \/ N = 4%Z \/ N = 5%Z) by lia.
  destruct HN' as [->|[->|[->|[->| ->]]]]; eexists; (split; [reflexivity|assumption]).
Qed.

Lemma fold_sum_nonneg (xs : list Qc) :
  forall acc, 0 <= acc -> (forall x, In x xs -> 0 <= x) ->
              0 <= fold_left Qcplus xs acc.
Proof.
  induction xs as [|x xs IH]; intros acc Hacc Hall; simpl.
  - exact Hacc.
  - apply IH.
    + rewrite <- (Qcplus_0_l 0). apply Qcplus_le_compat; [exact Hacc|].
      apply Hall. left. reflexivity.
    + intros y Hy. apply Hall. right. exact Hy.
Qed.

Lemma py_sum_nonneg (xs : list Qc) :
  (forall x, In x xs -> 0 <= x) -> 0 <= py_sum xs.
Proof. intro H. apply fold_sum_nonneg; [apply Qcle_refl | exact H]. Qed.

(** C5 (interest line).  With a debt structure set, principals that are not
    negative and a growth rate to project with, the projection returns and the
    interest expense of every year N in 1..5 is
    total principal x principal-weighted average rate x 0.9^(N-1) when the
    total principal is not zero, and 0 when it is zero; no division by zero
    is raised. *)
Theorem interest_expense_formula (self : LBOAnalysis) (base_revenue : Qc)
    (revenue_growth : list Qc) (ebitda_margin capex_rate nwc_rate tax_rate : Qc) :
  debt_structure self <> [] ->
  (forall t, In t (dict_values (debt_structure self)) -> 0 <= amount t) ->
  revenue_growth <> [] ->
  exists model,
    build_operating_model self base_revenue revenue_growth
      ebitda_margin capex_rate nwc_rate tax_rate
    = (Returned model, set_operating_model self model)
    /\ forall N, (1 <= N <= 5)%Z ->
         exists oy,
           zget model N = Some oy
           /\ (total_principal (debt_structure self) <> 0 ->
               interest_expense oy =
                 total_principal (debt_structure self)
                 * weighted_average_rate (debt_structure self)
                 * lit 0.9 ^ Z.to_nat (N - 1))
           /\ (total_principal (debt_structure self) = 0 ->
               interest_expense oy = 0).
Proof.
  intros Hset Hpos Hg.
  destruct (build_operating_model_run self base_revenue revenue_growth
              ebitda_margin capex_rate nwc_rate tax_rate Hg) as (model & Hrun & Hyears).
  exists model. split; [exact Hrun|].
  intros N HN. destruct (Hyears N HN) as (oy & Hoy & Hint).
  exists oy. split; [exact Hoy|].
  rewrite interest_of_year_returns in Hint.
  assert (Ht : truthy (debt_structure self) = true)
    by (destruct (debt_structure self); [contradiction | reflexivity]).
  rewrite Ht in Hint. inversion Hint as [Hval]. clear Hint.
  assert (Hge : 0 <= total_principal (debt_structure self)).
  { unfold total_principal. apply py_sum_nonneg.
    intros x Hx. apply in_map_iff in Hx. destruct Hx as (t & <- & Ht'). apply Hpos, Ht'. }
  split.
  - intro Hnz.
    assert (Hlt : Qc_ltb 0 (total_principal (debt_structure self)) = true).
    { apply Qc_ltb_lt. destruct (Qcle_lt_or_eq _ _ Hge) as [L|E]; [exact L|].
      exfalso. apply Hnz. symmetry. exact E. }
    rewrite Hlt. reflexivity.
  - intro Hz. rewrite Hz. rewrite !Qcmult_0_l. reflexivity.
Qed.

(** C7 (empty growth sequence).  With no growth rate the projection of the
    five years fails, whatever the other arguments: year 2 looks up
    [revenue_growth[-1]] in the empty list.  The object is left as it was. *)
Theorem empty_growth_fails (self : LBOAnalysis)
    (base_revenue ebitda_margin capex_rate nwc_rate tax_rate : Qc) :
  build_operating_model self base_revenue [] ebitda_margin capex_rate nwc_rate tax_rate
  = (Raised IndexError, self)
  /\ failed (fst (build_operating_model self base_revenue []
                    ebitda_margin capex_rate nwc_rate tax_rate)).
Proof.
  assert (H : build_operating_model self base_revenue []
                ebitda_margin capex_rate nwc_rate tax_rate = (Raised IndexError, self)).
  { unfold build_operating_model.
    change (enumerate years) with [(0, 1); (1, 2); (2, 3); (3, 4); (4, 5)]%Z.
    destruct (operating_year_first (debt_structure self) base_revenue []
                ebitda_margin capex_rate nwc_rate tax_rate 0%Z []) as (oy1 & B1 & _).
    rewrite (for_each_step _ _ _ _ _ B1). reflexivity. }
  rewrite H. split; [reflexivity | exact I].
Qed.


(** ** Returns *)

Lemma lit_year_nonzero (y : Z) : y <> 0%Z -> Qc_eqb (lit (inject_Z y)) 0 = false.
Proof.
  intro Hy. destruct (Qc_eqb (lit (inject_Z y)) 0) eqn:E; [|reflexivity].
  apply Qc_eqb_eq in E. unfold lit in E. apply Q2Qc_eq_iff in E.
  exfalso. apply Hy. unfold Qeq in E. simpl in E. lia.
Qed.

Lemma Qc_eqb_false (x y : Qc) : x <> y -> Qc_eqb x y = false.
Proof.
  intro H. destruct (Qc_eqb x y) eqn:E; [|reflexivity].
  apply Qc_eqb_eq in E. contradiction.
Qed.

Lemma remaining_debt_of_sum (ys : sdict TrancheYear) :
  remaining_debt_of ys = py_sum (map ending_balance (dict_values ys)).
Proof.
  unfold remaining_debt_of, py_sum. generalize 0.
  induction (dict_values ys) as [|t l IH]; intro acc; simpl; [reflexivity | apply IH].
Qed.

Section ReturnsFacts.
Variable float_pow : Qc -> Qc -> Qc.

(** C6 (missing prerequisites).  Without a debt structure or without an
    operating model the scheduler produces no schedule and leaves the
    object as it was; without a "10.0x" scenario in the returns analysis
    the sensitivity sweep produces no rows (it returns [None] on an empty
    analysis and fails on the lookup of the key otherwise). *)
Theorem missing_prerequisites_fail (self self' : LBOAnalysis)
    (revenue_sensitivity ebitda_sensitivity : list Qc) :
  debt_structure self = [] \/ operating_model self = [] ->
  sget (returns_analysis self') "10.0x"%string = None ->
  model_debt_schedule self = (ReturnedNone, self)
  /\ failed (fst (model_debt_schedule self))
  /\ failed (sensitivity_analysis float_pow self'
               revenue_sensitivity ebitda_sensitivity)
  /\ sensitivity_analysis float_pow self' revenue_sensitivity ebitda_sensitivity
     = (if truthy (returns_analysis self') then Raised KeyError else ReturnedNone).
Proof.
  intros Hmiss Hbase.
  assert (Hs : model_debt_schedule self = (ReturnedNone, self)).
  { unfold model_debt_schedule.
    destruct Hmiss as [-> | ->]; simpl; [reflexivity|].
    rewrite orb_true_r. reflexivity. }
  assert (Hg : sensitivity_analysis float_pow self' revenue_sensitivity ebitda_sensitivity
               = (if truthy (returns_analysis self') then Raised KeyError
                  else ReturnedNone)).
  { unfold sensitivity_analysis, dict_item. rewrite Hbase.
    destruct (truthy (returns_analysis self')); reflexivity. }
  split; [exact Hs|]. split; [rewrite Hs; exact I|].
  split; [|exact Hg].
  rewrite Hg. destruct (truthy (returns_analysis self')); exact I.
Qed.

(** The loop over the multiples returns; every key it met is in the
    result; a record of the result was there before or satisfies the
    formulas of the loop body for its own multiple. *)
Lemma scenario_loop (equity exit_ebitda debt : Qc) (exit_year : Z)
    (multiples : list Qc) :
  exit_year <> 0%Z ->
  forall results,
  exists results',
    for_each multiples (scenario_body float_pow equity exit_ebitda debt exit_year)
      results = Returned results'
    /\ (forall label, sget results label <> None -> sget results' label <> None)
    /\ (forall m, In m multiples -> sget results' (scenario_label m) <> None)
    /\ (forall label rec,
          sget results' label = Some rec ->
          sget results label = Some rec
          \/ (In (exit_multiple rec) multiples
              /\ enterprise_value rec = exit_ebitda * exit_multiple rec
              /\ remaining_debt rec = debt
              /\ equity_value rec = py_max 0 (enterprise_value rec - remaining_debt rec)
              /\ moic rec = (if Qc_ltb 0 equity then equity_value rec / equity else 0)
              /\ irr rec =
                   (if Qc_ltb 0 (moic rec)
                    then float_pow (moic rec) (1 / lit (inject_Z exit_year)) - 1
                    else lit (-1)))).
Proof.
  intro Hy. induction multiples as [|m ms IH]; intro results.
  - exists results. split; [reflexivity|]. split; [auto|].
    split; [intros m []|]. intros label rec H. left. exact H.
  - set (ev := exit_ebitda * m).
    set (eq_ := py_max 0 (ev - debt)).
    set (mo := if Qc_ltb 0 equity then eq_ / equity else 0).
    set (ir := if Qc_ltb 0 mo
               then float_pow mo (1 / lit (inject_Z exit_year)) - 1 else lit (-1)).
    set (rec0 := {| exit_multiple := m; enterprise_value := ev;
                    remaining_debt := debt; equity_value := eq_;
                    moic := mo; irr := ir |}).
    assert (Hstep : scenario_body float_pow equity exit_ebitda debt exit_year m results
                    = Returned (sset results (scenario_label m) rec0)).
    { unfold scenario_body, irr_of, py_div. fold ev. fold eq_.
      rewrite (lit_year_nonzero _ Hy).
      unfold rec0, ir, mo.
      destruct (Qc_ltb 0 equity) eqn:Eq.
      - rewrite Qc_eqb_false.
        + cbn [bind]. destruct (Qc_ltb 0 (eq_ / equity)); reflexivity.
        + intro E0. rewrite E0 in Eq. discriminate Eq.
      - cbn [bind]. destruct (Qc_ltb 0 0); reflexivity. }
    destruct (IH (sset results (scenario_label m) rec0))
      as (results' & Hrun & Hkeep & Hkeys & Hrec).
    exists results'. split; [rewrite (for_each_step _ _ _ _ _ Hstep); exact Hrun|].
    split.
    { intros label Hl. apply Hkeep.
      destruct (string_dec (scenario_label m) label) as [<-|Hne].
      - rewrite sget_set_same. discriminate.
      - rewrite sget_set_other by exact Hne. exact Hl. }
    split.
    { intros m' [<-|Hin].
      - apply Hkeep. rewrite sget_set_same. discriminate.
      - apply Hkeys, Hin. }
    intros label rec Hget.
    destruct (Hrec label rec Hget) as [Hold | (Hin & Hrest)].
    + destruct (sget_set_inv _ _ _ _ _ Hold) as [[_ ->] | Hold'].
      * right. split; [left; reflexivity|]. repeat split; reflexivity.
      * left. exact Hold'.
    + right. split; [right; exact Hin | exact Hrest].
Qed.



(** The inner loop appends one cell per EBITDA adjustment. *)
Lemma sensitivity_inner (self : LBOAnalysis) (base_case : ExitScenario)
    (oy : OperatingYear) (rev_adj : Qc) (ebitdas : list Qc) :
  zget (operating_model self) 5%Z = Some oy ->
  sponsor_equity self <> 0 ->
  forall grid,
    for_each ebitdas (sensitivity_body float_pow self base_case rev_adj) grid
    = Returned
        (grid ++ map (grid_cell float_pow (ebitda oy) (remaining_debt base_case)
                        (sponsor_equity self) rev_adj) ebitdas).
Proof.
  intros Hoy Hse. induction ebitdas as [|e es IH]; intro grid.
  - simpl. rewrite app_nil_r. reflexivity.
  - assert (Hstep :
      sensitivity_body float_pow self base_case rev_adj e grid
      = Returned (grid ++ [grid_cell float_pow (ebitda oy) (remaining_debt base_case)
                             (sponsor_equity self) rev_adj e])).
    { unfold sensitivity_body, dict_item, py_div, irr_of, grid_cell.
      rewrite Hoy, (Qc_eqb_false _ _ Hse).
      change (Qc_eqb (lit 5) 0) with false. cbn [bind].
      destruct (Qc_ltb 0 _); reflexivity. }
    rewrite (for_each_step _ _ _ _ _ Hstep), IH, <- app_assoc. reflexivity.
Qed.

Lemma sensitivity_outer (self : LBOAnalysis) (base_case : ExitScenario)
    (oy : OperatingYear) (revs ebitdas : list Qc) :
  zget (operating_model self) 5%Z = Some oy ->
  sponsor_equity self <> 0 ->
  forall grid,
    for_each revs
      (fun rev_adj g =>
         for_each ebitdas (sensitivity_body float_pow self base_case rev_adj) g)
      grid
    = Returned
        (grid ++ grid_of float_pow (ebitda oy) (remaining_debt base_case)
                   (sponsor_equity self) revs ebitdas).
Proof.
  intros Hoy Hse. induction revs as [|r rs IH]; intro grid.
  - simpl. rewrite app_nil_r. reflexivity.
  - rewrite (for_each_step r rs
               (fun rev_adj g =>
                  for_each ebitdas
                    (sensitivity_body float_pow self base_case rev_adj) g)
               grid _
               (sensitivity_inner self base_case oy r ebitdas Hoy Hse grid)).
    rewrite IH, <- app_assoc. reflexivity.
Qed.

(** C8 (sensitivity grid).  With the "10.0x" scenario and year 5 of the
    operating model in place and a sponsor equity other than 0, the sweep
    over [-0.1, 0, 0.1] and [-0.02, 0, 0.02] returns exactly 9 rows, in the
    order of the Cartesian product with the revenue adjustment outermost;
    each row is the cell computed from year-5 EBITDA x (1 + rev_adj) x
    (1 + ebitda_adj), valued at 10.0x, against the remaining debt of the
    "10.0x" scenario. *)
Theorem sensitivity_grid (self : LBOAnalysis) (base_case : ExitScenario)
    (oy : OperatingYear) :
  sget (returns_analysis self) "10.0x"%string = Some base_case ->
  zget (operating_model self) 5%Z = Some oy ->
  sponsor_equity self <> 0 ->
  exists rows,
    sensitivity_analysis float_pow self
      default_revenue_sensitivity default_ebitda_sensitivity = Returned rows
    /\ List.length rows = 9%nat
    /\ map (fun r => (revenue_adj r, ebitda_adj r)) rows
       = list_prod default_revenue_sensitivity default_ebitda_sensitivity
    /\ rows = grid_of float_pow (ebitda oy) (remaining_debt base_case)
                (sponsor_equity self)
                default_revenue_sensitivity default_ebitda_sensitivity.
Proof.
  intros Hbase Hoy Hse.
  eexists. split.
  { unfold sensitivity_analysis, dict_item. rewrite Hbase.
    assert (T : truthy (returns_analysis self) = true)
      by (destruct (returns_analysis self); [discriminate | reflexivity]).
    rewrite T. cbn [negb bind].
    rewrite (sensitivity_outer self base_case oy _ _ Hoy Hse). reflexivity. }
  split; [reflexivity|]. split; reflexivity.
Qed.

(** C4 (unguarded division).  On the example deal with a sponsor equity of
    0 the exit analysis returns, with a MOIC of 0 under "10.0x", and the
    sensitivity sweep run after it raises ZeroDivisionError. *)
Theorem sensitivity_zero_equity_raises :
  exists results,
    exit_analysis float_pow (demo_scheduled 0) None 5
    = (Returned results, set_returns_analysis (demo_scheduled 0) results)
    /\ option_map moic (sget results "10.0x"%string) = Some 0
    /\ sensitivity_analysis float_pow (set_returns_analysis (demo_scheduled 0) results)
         default_revenue_sensitivity default_ebitda_sensitivity
       = Raised ZeroDivisionError.
Proof.
  eexists. split; [vm_compute; reflexivity|].
  split; vm_compute; reflexivity.
Qed.
End ReturnsFacts.


(* ================================================================== *)
(** * The example run, evaluated *)

(** Year 1 has an EBITDA of 50 and year 2 a revenue of 216. *)
Example demo_first_years :
  option_map (fun oy => this (ebitda oy))
    (zget (operating_model (demo_projected (lit 150))) 1%Z) = Some (50 # 1)%Q
  /\ option_map (fun oy => this (revenue oy))
       (zget (operating_model (demo_projected (lit 150))) 2%Z) = Some (216 # 1)%Q
  /\ option_map (fun oy => this (nwc_change oy))
       (zget (operating_model (demo_projected (lit 150))) 1%Z) = Some (0 # 1)%Q.
Proof. repeat split; vm_compute; reflexivity. Qed.

(** Year 1 of the schedule: free cash flow 17.625; Term Loan A pays 15,
    Term Loan B pays its mandatory 2 and sweeps the remaining 0.625. *)
Example demo_first_sweep :
  option_map
    (fun r => (this (beginning_balance r), this (mandatory_payment r),
               this (optional_payment r), this (ending_balance r)))
    (schedule_row (debt_schedule (demo_scheduled (lit 150))) 1 "Term Loan B")
  = Some (200 # 1, 2 # 1, 5 # 8, 1579 # 8)%Q
  /\ option_map
       (fun r => (this (beginning_balance r), this (mandatory_payment r),
                  this (optional_payment r), this (ending_balance r)))
       (schedule_row (debt_schedule (demo_scheduled (lit 150))) 1 "Term Loan A")
     = Some (100 # 1, 15 # 1, 0 # 1, 85 # 1)%Q.
Proof. split; vm_compute; reflexivity. Qed.

(** The default multiples give the labels "8.0x" to "12.0x", in order. *)
Example demo_labels :
  dict_keys (returns_analysis (demo_exited (lit 150)))
  = ["8.0x"; "9.0x"; "10.0x"; "11.0x"; "12.0x"]%string.
Proof. vm_compute. reflexivity. Qed.


(* ================================================================== *)
(** * The example run satisfies the hypotheses *)

Ltac example_ready :=
  split; [vm_compute; repeat constructor; simpl; intuition discriminate|];
  split; [vm_compute; discriminate|];
  intros y Hy; unfold years in Hy; simpl In in Hy;
  repeat (destruct Hy as [<-|Hy]; [vm_compute; discriminate|]);
  contradiction.

(** The example run is a ready state, and continuity holds in its schedule. *)
Lemma balance_continuity_witness :
  let self := demo_projected (lit 150) in
  schedule_ready self
  /\ exists schedule,
       model_debt_schedule self = (Returned schedule, set_debt_schedule self schedule)
       /\ forall tranche terms,
            In (tranche, terms) (debt_structure self) ->
            (exists r1,
               schedule_row schedule 1 tranche = Some r1
               /\ beginning_balance r1 = amount terms)
            /\ forall y, (1 <= y <= 4)%Z ->
                 exists r r',
                   schedule_row schedule y tranche = Some r
                   /\ schedule_row schedule (y + 1) tranche = Some r'
                   /\ ending_balance r = beginning_balance r'.
Proof.
  intro self.
  assert (Hready : schedule_ready self) by example_ready.
  split; [exact Hready | exact (balance_continuity self Hready)].
Defined.

(** The bounds on the example run. *)
Lemma balances_bounded_witness :
  let self := demo_projected (lit 150) in
  schedule_ready self
  /\ exists schedule,
       model_debt_schedule self = (Returned schedule, set_debt_schedule self schedule)
       /\ forall y tranche terms,
            (1 <= y <= 5)%Z ->
            In (tranche, terms) (debt_structure self) ->
            exists r,
              schedule_row schedule y tranche = Some r
              /\ 0 <= ending_balance r
              /\ mandatory_payment r <= beginning_balance r.
Proof.
  intro self.
  assert (Hready : schedule_ready self) by example_ready.
  split; [exact Hready | exact (balances_bounded self Hready)].
Defined.

(** The sweep rule on the example run. *)
Lemma sweep_only_term_loan_b_witness :
  let self := demo_projected (lit 150) in
  schedule_ready self
  /\ exists schedule,
       model_debt_schedule self = (Returned schedule, set_debt_schedule self schedule)
       /\ forall y, (1 <= y <= 5)%Z ->
            exists oy ys,
              zget (operating_model self) y = Some oy
              /\ zget schedule y = Some ys
              /\ forall pre tranche terms post,
                   debt_structure self = pre ++ (tranche, terms) :: post ->
                   exists r,
                     sget ys tranche = Some r
                     /\ (tranche <> "Term Loan B"%string -> optional_payment r = 0)
                     /\ (tranche = "Term Loan B"%string ->
                         let pool :=
                           pool_before (free_cash_flow oy) ys (dict_keys pre) in
                         optional_payment r =
                           if Qc_ltb (mandatory_payment r) pool
                           then py_min (pool - mandatory_payment r)
                                       (beginning_balance r - mandatory_payment r)
                           else 0).
Proof.
  intro self.
  assert (Hready : schedule_ready self) by example_ready.
  split; [exact Hready | exact (sweep_only_term_loan_b self Hready)].
Defined.

(** Mandatory payments on the example run. *)
Lemma mandatory_payment_ignores_cash_witness :
  let self := demo_projected (lit 150) in
  schedule_ready self
  /\ exists schedule,
       model_debt_schedule self = (Returned schedule, set_debt_schedule self schedule)
       /\ forall y, (1 <= y <= 5)%Z ->
            exists oy s bal,
              zget (operating_model self) y = Some oy
              /\ sweep_year (debt_structure self) (free_cash_flow oy) bal = Returned s
              /\ zget schedule y = Some (year_schedule s)
              /\ forall fcf',
                   exists s',
                     sweep_year (debt_structure self) fcf' bal = Returned s'
                     /\ forall pre tranche terms post,
                          debt_structure self = pre ++ (tranche, terms) :: post ->
                          exists r r',
                            sget (year_schedule s) tranche = Some r
                            /\ sget (year_schedule s') tranche = Some r'
                            /\ mandatory_payment r =
                                 py_min (beginning_balance r * amortization terms)
                                        (beginning_balance r)
                            /\ beginning_balance r' = beginning_balance r
                            /\ mandatory_payment r' = mandatory_payment r
                            /\ (tranche <> "Term Loan B"%string -> r' = r)
                            /\ (pool_before fcf' (year_schedule s') (dict_keys pre)
                                  <= mandatory_payment r' ->
                                total_payment r' = mandatory_payment r').
Proof.
  intro self.
  assert (Hready : schedule_ready self) by example_ready.
  split; [exact Hready|].
  destruct (mandatory_payment_ignores_cash self Hready) as (schedule & Hrun & Hrows & _).
  exists schedule. split; [exact Hrun | exact Hrows].
Defined.

(** The interest line of the example projection. *)
Lemma interest_expense_formula_witness :
  let self := snd (structure_debt (init "TechCorp Industries" (lit 500) (lit 150))
                     (lit 100) (lit 200) (lit 25) (lit 25)) in
  debt_structure self <> []
  /\ (forall t, In t (dict_values (debt_structure self)) -> 0 <= amount t)
  /\ demo_growth <> []
  /\ exists model,
       build_operating_model self (lit 200) demo_growth (lit 0.25)
         default_capex_rate default_nwc_rate default_tax_rate
       = (Returned model, set_operating_model self model)
       /\ forall N, (1 <= N <= 5)%Z ->
            exists oy,
              zget model N = Some oy
              /\ (total_principal (debt_structure self) <> 0 ->
                  interest_expense oy =
                    total_principal (debt_structure self)
                    * weighted_average_rate (debt_structure self)
                    * lit 0.9 ^ Z.to_nat (N - 1))
              /\ (total_principal (debt_structure self) = 0 ->
                  interest_expense oy = 0).
Proof.
  intro self.
  assert (H1 : debt_structure self <> []) by (vm_compute; discriminate).
  assert (H2 : forall t, In t (dict_values (debt_structure self)) -> 0 <= amount t).
  { intros t Ht. vm_compute in Ht.
    repeat (destruct Ht as [<-|Ht]; [vm_compute; discriminate|]). contradiction. }
  assert (H3 : demo_growth <> []) by discriminate.
  repeat (split; [assumption|]).
  exact (interest_expense_formula self (lit 200) demo_growth (lit 0.25)
           default_capex_rate default_nwc_rate default_tax_rate H1 H2 H3).
Defined.

(** A fresh object has no debt structure; an analysis run on the multiple 8
    alone has no "10.0x" scenario. *)
Lemma missing_prerequisites_fail_witness :
  let self := init "TechCorp Industries" (lit 500) (lit 150) in
  let self' :=
    snd (exit_analysis sample_pow (demo_scheduled (lit 150)) (Some [lit 8]) 5) in
  (debt_structure self = [] \/ operating_model self = [])
  /\ sget (returns_analysis self') "10.0x"%string = None
  /\ model_debt_schedule self = (ReturnedNone, self)
  /\ failed (fst (model_debt_schedule self))
  /\ failed (sensitivity_analysis sample_pow self'
               default_revenue_sensitivity default_ebitda_sensitivity)
  /\ sensitivity_analysis sample_pow self'
       default_revenue_sensitivity default_ebitda_sensitivity
     = (if truthy (returns_analysis self') then Raised KeyError else ReturnedNone).
Proof.
  intros self self'.
  assert (H1 : debt_structure self = [] \/ operating_model self = [])
    by (left; reflexivity).
  assert (H2 : sget (returns_analysis self') "10.0x"%string = None)
    by (vm_compute; reflexivity).
  split; [exact H1|]. split; [exact H2|].
  exact (missing_prerequisites_fail sample_pow self self'
           default_revenue_sensitivity default_ebitda_sensitivity H1 H2).
Defined.


(** The sensitivity grid of the example run. *)
Lemma sensitivity_grid_witness :
  let self := demo_exited (lit 150) in
  exists base_case oy,
    sget (returns_analysis self) "10.0x"%string = Some base_case
    /\ zget (operating_model self) 5%Z = Some oy
    /\ sponsor_equity self <> 0
    /\ exists rows,
         sensitivity_analysis sample_pow self
           default_revenue_sensitivity default_ebitda_sensitivity = Returned rows
         /\ List.length rows = 9%nat
         /\ map (fun r => (revenue_adj r, ebitda_adj r)) rows
            = list_prod default_revenue_sensitivity default_ebitda_sensitivity
         /\ rows = grid_of sample_pow (ebitda oy) (remaining_debt base_case)
                     (sponsor_equity self)
                     default_revenue_sensitivity default_ebitda_sensitivity.
Proof.
  intro self.
  destruct (sget (returns_analysis self) "10.0x"%string) as [base_case|] eqn:Hbase;
    [|vm_compute in Hbase; discriminate Hbase].
  destruct (zget (operating_model self) 5%Z) as [oy|] eqn:Hoy;
    [|vm_compute in Hoy; discriminate Hoy].
  assert (H3 : sponsor_equity self <> 0) by (vm_compute; discriminate).
  exists base_case, oy. split; [reflexivity|]. split; [reflexivity|].
  split; [exact H3|].
  exact (sensitivity_grid sample_pow self base_case oy Hbase Hoy H3).
Defined.


(* ================================================================== *)
(** * The error classes the specification names *)

(** C6, as worded, does not hold.  On a new object, which has no debt
    structure, no operating model and no returns analysis, the scheduler
    and the sensitivity sweep print an error line and return [None]: no
    exception is raised.  With a returns analysis that lacks the "10.0x"
    scenario the sweep raises the built-in KeyError.  In no case is there
    an exception of a class named StateError. *)
Lemma no_state_error_raised :
  fst (model_debt_schedule (init "TechCorp Industries" (lit 500) (lit 150)))
  = ReturnedNone
  /\ fails_with "StateError"
       (fst (model_debt_schedule (init "TechCorp Industries" (lit 500) (lit 150))))
     = false
  /\ sensitivity_analysis sample_pow
       (init "TechCorp Industries" (lit 500) (lit 150))
       default_revenue_sensitivity default_ebitda_sensitivity
     = ReturnedNone
  /\ fails_with "StateError"
       (sensitivity_analysis sample_pow
          (init "TechCorp Industries" (lit 500) (lit 150))
          default_revenue_sensitivity default_ebitda_sensitivity)
     = false
  /\ sensitivity_analysis sample_pow
       (snd (exit_analysis sample_pow (demo_scheduled (lit 150)) (Some [lit 8]) 5))
       default_revenue_sensitivity default_ebitda_sensitivity
     = Raised KeyError
  /\ fails_with "StateError"
       (sensitivity_analysis sample_pow
          (snd (exit_analysis sample_pow (demo_scheduled (lit 150)) (Some [lit 8]) 5))
          default_revenue_sensitivity default_ebitda_sensitivity)
     = false.
Proof. vm_compute. repeat split. Qed.

(** C7, as worded, does not hold.  With an empty growth list the example
    projection raises the built-in IndexError, from [revenue_growth[-1]] in
    year 2; it is not an exception of a class named ConfigurationError. *)
Lemma no_configuration_error_raised :
  fst (build_operating_model (demo_structured (lit 150)) (lit 200) []
         (lit 0.25) default_capex_rate default_nwc_rate default_tax_rate)
  = Raised IndexError
  /\ fails_with "ConfigurationError"
       (fst (build_operating_model (demo_structured (lit 150)) (lit 200) []
               (lit 0.25) default_capex_rate default_nwc_rate default_tax_rate))
     = false.
Proof. vm_compute. split; reflexivity. Qed.


(* ================================================================== *)
(** * Further properties of the engine *)

(** ** Arithmetic on the numbers *)

From Stdlib Require Import Lqa.

Lemma this_Q2Qc (q : Q) : (this (Q2Qc q) == q)%Q.
Proof. unfold Q2Qc. cbn [this]. apply Qred_correct. Qed.

Lemma this_lit (q : Q) : (this (lit q) == q)%Q.
Proof. apply this_Q2Qc. Qed.

Lemma this_plus (x y : Qc) : (this (x + y) == this x + this y)%Q.
Proof. unfold Qcplus. apply this_Q2Qc. Qed.

Lemma this_opp (x : Qc) : (this (- x) == - this x)%Q.
Proof. unfold Qcopp. apply this_Q2Qc. Qed.

Lemma this_minus (x y : Qc) : (this (x - y) == this x - this y)%Q.
Proof. unfold Qcminus. rewrite this_plus, this_opp. reflexivity. Qed.

Lemma this_mult (x y : Qc) : (this (x * y) == this x * this y)%Q.
Proof. unfold Qcmult. apply this_Q2Qc. Qed.

Ltac qc_push_hyp H :=
  repeat first
    [ rewrite this_minus in H | rewrite this_plus in H | rewrite this_opp in H
    | rewrite this_mult in H | rewrite this_lit in H | rewrite this_Q2Qc in H ].

Ltac qc_push_goal :=
  repeat first
    [ rewrite this_minus | rewrite this_plus | rewrite this_opp
    | rewrite this_mult | rewrite this_lit | rewrite this_Q2Qc ].

(** Linear arithmetic on [Qc], through the underlying fractions. *)
Ltac qc_lra :=
  unfold Qcle, Qclt in *;
  repeat match goal with
  | H : @eq Qc ?x ?y |- _ =>
      let H' := fresh in
      assert (H' : (this x == this y)%Q) by (rewrite H; reflexivity); clear H
  end;
  try (apply Qc_is_canon);
  repeat match goal with
  | H : (_ <= _)%Q |- _ => progress qc_push_hyp H
  | H : (_ < _)%Q |- _ => progress qc_push_hyp H
  | H : (_ == _)%Q |- _ => progress qc_push_hyp H
  end;
  qc_push_goal; lra.

Lemma Qc_mult_nonneg (x y : Qc) : 0 <= x -> 0 <= y -> 0 <= x * y.
Proof.
  intros Hx Hy. unfold Qcle in *. rewrite this_mult.
  rewrite this_Q2Qc in *. apply Qmult_le_0_compat; assumption.
Qed.

Lemma py_max_0_nonneg (x : Qc) : 0 <= x -> py_max 0 x = x.
Proof.
  intro H. unfold py_max. destruct (Qc_ltb 0 x) eqn:E; [reflexivity|].
  apply Qc_ltb_ge in E. apply Qcle_antisym; assumption.
Qed.

Lemma py_max_0_nonpos (x : Qc) : x <= 0 -> py_max 0 x = 0.
Proof.
  intro H. unfold py_max. apply Qc_ltb_ge in H. rewrite H. reflexivity.
Qed.

Lemma py_min_cases (a b : Qc) : py_min a b = a \/ py_min a b = b.
Proof. unfold py_min. destruct (Qc_ltb b a); auto. Qed.

Lemma py_min_left (a b : Qc) : a <= b -> py_min a b = a.
Proof.
  intro H. unfold py_min. apply Qc_ltb_ge in H. rewrite H. reflexivity.
Qed.

(** ** The operating model, year by year *)

Lemma nth_error_last {A : Type} (xs : list A) (d : A) :
  xs <> [] -> nth_error xs (List.length xs - 1) = Some (last xs d).
Proof.
  induction xs as [|x xs IH]; intro Hne; [contradiction|].
  destruct xs as [|y ys]; [reflexivity|].
  replace (List.length (x :: y :: ys) - 1)%nat
    with (S (List.length (y :: ys) - 1)) by (simpl List.length; lia).
  change (last (x :: y :: ys) d) with (last (y :: ys) d).
  change (nth_error (x :: y :: ys) (S (List.length (y :: ys) - 1)))
    with (nth_error (y :: ys) (List.length (y :: ys) - 1)).
  apply IH. discriminate.
Qed.

(** The rate the loop reads for loop index [i] (year [i + 1]). *)
Lemma growth_rate_read (revenue_growth : list Qc) (i : Z) :
  revenue_growth <> [] ->
  (0 <= i - 1)%Z ->
  (if (i - 1 <? Z.of_nat (List.length revenue_growth))%Z
   then py_index revenue_growth (i - 1)
   else py_index revenue_growth (-1))
  = Returned (growth_used revenue_growth (Z.to_nat (i - 1))).
Proof.
  intros Hne Hi. unfold growth_used.
  assert (Hlen : (1 <= Z.of_nat (List.length revenue_growth))%Z).
  { destruct revenue_growth; [contradiction | simpl List.length; lia]. }
  destruct (i - 1 <? Z.of_nat (List.length revenue_growth))%Z eqn:E.
  - apply Z.ltb_lt in E.
    assert (E1 : (i - 1 <? 0)%Z = false) by (apply Z.ltb_ge; lia).
    assert (E2 : (Z.of_nat (List.length revenue_growth) <=? i - 1)%Z = false)
      by (apply Z.leb_gt; lia).
    unfold py_index. cbv zeta. rewrite E1. cbv iota. rewrite E1, E2. cbn [orb].
    rewrite (nth_error_nth' revenue_growth (last revenue_growth 0)) by lia.
    reflexivity.
  - apply Z.ltb_ge in E.
    assert (E1 : (-1 + Z.of_nat (List.length revenue_growth) <? 0)%Z = false)
      by (apply Z.ltb_ge; lia).
    assert (E2 : (Z.of_nat (List.length revenue_growth)
                  <=? -1 + Z.of_nat (List.length revenue_growth))%Z = false)
      by (apply Z.leb_gt; lia).
    unfold py_index. cbv zeta. change (-1 <? 0)%Z with true. cbv iota.
    rewrite E1, E2. cbn [orb].
    replace (Z.to_nat (-1 + Z.of_nat (List.length revenue_growth)))
      with (List.length revenue_growth - 1)%nat by lia.
    rewrite (nth_error_last revenue_growth 0 Hne).
    rewrite nth_overflow by lia. reflexivity.
Qed.

Section OperatingYearRecords.
Variables (ds : sdict TrancheTerms) (base_revenue : Qc) (revenue_growth : list Qc).
Variables ebitda_margin capex_rate nwc_rate tax_rate : Qc.

Lemma operating_year_first_record (i : Z) (model : zdict OperatingYear) :
  exists oy,
    operating_year_body ds base_revenue revenue_growth
      ebitda_margin capex_rate nwc_rate tax_rate (i, 1%Z) model
    = Returned (zset model 1%Z oy)
    /\ projected_year ds base_revenue revenue_growth
         ebitda_margin capex_rate nwc_rate tax_rate 1 None oy.
Proof.
  unfold operating_year_body.
  rewrite interest_of_year_returns. cbn [Z.eqb Pos.eqb bind].
  eexists. split; [reflexivity|].
  unfold projected_year. cbn [revenue ebitda depreciation ebit interest_expense
    ebt taxes net_income operating_cash_flow capex nwc_change free_cash_flow].
  rewrite interest_of_year_returns. repeat split; reflexivity.
Qed.

Lemma operating_year_next_record (year : Z) (model : zdict OperatingYear)
    (prev : OperatingYear) :
  revenue_growth <> [] ->
  (2 <= year)%Z ->
  zget model (year - 1)%Z = Some prev ->
  exists oy,
    operating_year_body ds base_revenue revenue_growth
      ebitda_margin capex_rate nwc_rate tax_rate ((year - 1)%Z, year) model
    = Returned (zset model year oy)
    /\ projected_year ds base_revenue revenue_growth
         ebitda_margin capex_rate nwc_rate tax_rate year (Some prev) oy.
Proof.
  intros Hg Hy Hprev. unfold operating_year_body.
  assert (Hne : (year =? 1)%Z = false) by (apply Z.eqb_neq; lia).
  rewrite Hne, (growth_rate_read revenue_growth (year - 1) Hg) by lia.
  unfold dict_item. rewrite Hprev.
  rewrite interest_of_year_returns. cbn [bind].
  eexists. split; [reflexivity|].
  unfold projected_year. cbn [revenue ebitda depreciation ebit interest_expense
    ebt taxes net_income operating_cash_flow capex nwc_change free_cash_flow].
  rewrite interest_of_year_returns.
  replace (Z.to_nat (year - 2)) with (Z.to_nat (year - 1 - 1)) by lia.
  repeat split; reflexivity.
Qed.
End OperatingYearRecords.


(** The five records of a projection: year 1 from the base revenue, every
    later year from the record before it. *)
Lemma build_operating_model_years (self : LBOAnalysis) (base_revenue : Qc)
    (revenue_growth : list Qc) (ebitda_margin capex_rate nwc_rate tax_rate : Qc) :
  revenue_growth <> [] ->
  exists oy1 oy2 oy3 oy4 oy5,
    build_operating_model self base_revenue revenue_growth
      ebitda_margin capex_rate nwc_rate tax_rate
    = (Returned [(1%Z, oy1); (2%Z, oy2); (3%Z, oy3); (4%Z, oy4); (5%Z, oy5)],
       set_operating_model self
         [(1%Z, oy1); (2%Z, oy2); (3%Z, oy3); (4%Z, oy4); (5%Z, oy5)])
    /\ projected_year (debt_structure self) base_revenue revenue_growth
         ebitda_margin capex_rate nwc_rate tax_rate 1 None oy1
    /\ projected_year (debt_structure self) base_revenue revenue_growth
         ebitda_margin capex_rate nwc_rate tax_rate 2 (Some oy1) oy2
    /\ projected_year (debt_structure self) base_revenue revenue_growth
         ebitda_margin capex_rate nwc_rate tax_rate 3 (Some oy2) oy3
    /\ projected_year (debt_structure self) base_revenue revenue_growth
         ebitda_margin capex_rate nwc_rate tax_rate 4 (Some oy3) oy4
    /\ projected_year (debt_structure self) base_revenue revenue_growth
         ebitda_margin capex_rate nwc_rate tax_rate 5 (Some oy4) oy5.
Proof.
  intro Hg. unfold build_operating_model.
  change (enumerate years)
    with [(0, 1); (2 - 1, 2); (3 - 1, 3); (4 - 1, 4); (5 - 1, 5)]%Z.
  destruct (operating_year_first_record (debt_structure self) base_revenue
              revenue_growth ebitda_margin capex_rate nwc_rate tax_rate 0%Z [])
    as (oy1 & B1 & P1).
  simpl zset in B1.
  destruct (operating_year_next_record (debt_structure self) base_revenue
              revenue_growth ebitda_margin capex_rate nwc_rate tax_rate 2%Z
              [(1%Z, oy1)] oy1 Hg)
    as (oy2 & B2 & P2); [lia | reflexivity |].
  simpl zset in B2.
  destruct (operating_year_next_record (debt_structure self) base_revenue
              revenue_growth ebitda_margin capex_rate nwc_rate tax_rate 3%Z
              [(1%Z, oy1); (2%Z, oy2)] oy2 Hg)
    as (oy3 & B3 & P3); [lia | reflexivity |].
  simpl zset in B3.
  destruct (operating_year_next_record (debt_structure self) base_revenue
              revenue_growth ebitda_margin capex_rate nwc_rate tax_rate 4%Z
              [(1%Z, oy1); (2%Z, oy2); (3%Z, oy3)] oy3 Hg)
    as (oy4 & B4 & P4); [lia | reflexivity |].
  simpl zset in B4.
  destruct (operating_year_next_record (debt_structure self) base_revenue
              revenue_growth ebitda_margin capex_rate nwc_rate tax_rate 5%Z
              [(1%Z, oy1); (2%Z, oy2); (3%Z, oy3); (4%Z, oy4)] oy4 Hg)
    as (oy5 & B5 & P5); [lia | reflexivity |].
  simpl zset in B5.
  exists oy1, oy2, oy3, oy4, oy5.
  rewrite (for_each_step _ _ _ _ _ B1), (for_each_step _ _ _ _ _ B2),
    (for_each_step _ _ _ _ _ B3), (for_each_step _ _ _ _ _ B4),
    (for_each_step _ _ _ _ _ B5).
  split; [reflexivity|]. repeat (split; [assumption|]). assumption.
Qed.

(** X1.  The projection holds exactly the years 1 to 5, in order.  Year 1
    carries the base revenue and no working-capital change; every later year
    N carries the revenue of year N - 1 grown by entry N - 2 of the growth
    list (its last entry when the list is shorter), and a working-capital
    change of nwc_rate times the revenue increase. *)
Theorem revenue_path (self : LBOAnalysis) (base_revenue : Qc)
    (revenue_growth : list Qc) (ebitda_margin capex_rate nwc_rate tax_rate : Qc) :
  revenue_growth <> [] ->
  exists model,
    build_operating_model self base_revenue revenue_growth
      ebitda_margin capex_rate nwc_rate tax_rate
    = (Returned model, set_operating_model self model)
    /\ dict_keys model = [1; 2; 3; 4; 5]%Z
    /\ (exists oy1,
          zget model 1%Z = Some oy1
          /\ revenue oy1 = base_revenue
          /\ nwc_change oy1 = 0)
    /\ forall N, (2 <= N <= 5)%Z ->
         exists prev oy,
           zget model (N - 1)%Z = Some prev
           /\ zget model N = Some oy
           /\ revenue oy
              = revenue prev * (1 + growth_used revenue_growth (Z.to_nat (N - 2)))
           /\ nwc_change oy = (revenue oy - revenue prev) * nwc_rate.
Proof.
  intro Hg.
  destruct (build_operating_model_years self base_revenue revenue_growth
              ebitda_margin capex_rate nwc_rate tax_rate Hg)
    as (oy1 & oy2 & oy3 & oy4 & oy5 & Hrun & P1 & P2 & P3 & P4 & P5).
  eexists. split; [exact Hrun|]. split; [reflexivity|]. split.
  - exists oy1. split; [reflexivity|].
    destruct P1 as (R & _ & _ & _ & _ & _ & _ & _ & _ & _ & W & _). auto.
  - intros N HN.
    assert (HN' : N = 2%Z \/ N = 3%Z \/ N = 4%Z \/ N = 5%Z) by lia.
    destruct HN' as [->|[->|[-> | ->]]].
    + exists oy1, oy2. destruct P2 as (R & _ & _ & _ & _ & _ & _ & _ & _ & _ & W & _).
      repeat split; assumption || reflexivity.
    + exists oy2, oy3. destruct P3 as (R & _ & _ & _ & _ & _ & _ & _ & _ & _ & W & _).
      repeat split; assumption || reflexivity.
    + exists oy3, oy4. destruct P4 as (R & _ & _ & _ & _ & _ & _ & _ & _ & _ & W & _).
      repeat split; assumption || reflexivity.
    + exists oy4, oy5. destruct P5 as (R & _ & _ & _ & _ & _ & _ & _ & _ & _ & W & _).
      repeat split; assumption || reflexivity.
Qed.

Lemma projected_year_unique (ds : sdict TrancheTerms) (base_revenue : Qc)
    (g g' : list Qc) (ebitda_margin capex_rate nwc_rate tax_rate : Qc)
    (N : Z) (prev : option OperatingYear) (oy oy' : OperatingYear) :
  (prev <> None -> growth_used g (Z.to_nat (N - 2)) = growth_used g' (Z.to_nat (N - 2))) ->
  projected_year ds base_revenue g ebitda_margin capex_rate nwc_rate tax_rate N prev oy ->
  projected_year ds base_revenue g' ebitda_margin capex_rate nwc_rate tax_rate N prev oy' ->
  oy = oy'.
Proof.
  intros Hg (R & E & D & I & Int & T & X & NI & O & C & W & F)
         (R' & E' & D' & I' & Int' & T' & X' & NI' & O' & C' & W' & F').
  assert (HR : revenue oy' = revenue oy).
  { rewrite R, R'. destruct prev; [rewrite Hg by discriminate|]; reflexivity. }
  assert (HInt : interest_expense oy' = interest_expense oy).
  { rewrite Int in Int'. inversion Int'. reflexivity. }
  clear R' Int'.
  destruct oy, oy'. cbn in *. subst. reflexivity.
Qed.

(** X2.  Only four growth rates are ever read: the projection from a growth
    list equals the projection from the four rates it uses.  Entries beyond
    the fourth are ignored, and a list shorter than four is extended by
    repeating its last entry. *)
Theorem growth_list_normal_form (self : LBOAnalysis) (base_revenue : Qc)
    (revenue_growth : list Qc) (ebitda_margin capex_rate nwc_rate tax_rate : Qc) :
  revenue_growth <> [] ->
  build_operating_model self base_revenue revenue_growth
    ebitda_margin capex_rate nwc_rate tax_rate
  = build_operating_model self base_revenue
      (map (growth_used revenue_growth) [0; 1; 2; 3]%nat)
      ebitda_margin capex_rate nwc_rate tax_rate.
Proof.
  intro Hg.
  destruct (build_operating_model_years self base_revenue revenue_growth
              ebitda_margin capex_rate nwc_rate tax_rate Hg)
    as (oy1 & oy2 & oy3 & oy4 & oy5 & Hrun & P1 & P2 & P3 & P4 & P5).
  destruct (build_operating_model_years self base_revenue
              (map (growth_used revenue_growth) [0; 1; 2; 3]%nat)
              ebitda_margin capex_rate nwc_rate tax_rate)
    as (oy1' & oy2' & oy3' & oy4' & oy5' & Hrun' & P1' & P2' & P3' & P4' & P5');
    [discriminate|].
  rewrite Hrun, Hrun'.
  assert (E1 : oy1 = oy1').
  { eapply projected_year_unique; [|exact P1|exact P1']. intro H. contradiction. }
  subst oy1'.
  assert (E2 : oy2 = oy2').
  { eapply projected_year_unique; [|exact P2|exact P2']. reflexivity. }
  subst oy2'.
  assert (E3 : oy3 = oy3').
  { eapply projected_year_unique; [|exact P3|exact P3']. reflexivity. }
  subst oy3'.
  assert (E4 : oy4 = oy4').
  { eapply projected_year_unique; [|exact P4|exact P4']. reflexivity. }
  subst oy4'.
  assert (E5 : oy5 = oy5').
  { eapply projected_year_unique; [|exact P5|exact P5']. reflexivity. }
  subst oy5'. reflexivity.
Qed.

Lemma Qc_inv_pos (y : Qc) : 0 < y -> 0 < / y.
Proof.
  unfold Qclt, Qcinv. rewrite !this_Q2Qc. apply Qinv_lt_0_compat.
Qed.

Lemma Qc_div_nonneg (x y : Qc) : 0 <= x -> 0 < y -> 0 <= x / y.
Proof.
  intros Hx Hy. unfold Qcdiv. apply Qc_mult_nonneg; [exact Hx|].
  apply Qclt_le_weak, Qc_inv_pos, Hy.
Qed.


(** Every year of a projection, with the record it was computed from. *)
Lemma build_operating_model_each (self : LBOAnalysis) (base_revenue : Qc)
    (revenue_growth : list Qc) (ebitda_margin capex_rate nwc_rate tax_rate : Qc) :
  revenue_growth <> [] ->
  exists model,
    build_operating_model self base_revenue revenue_growth
      ebitda_margin capex_rate nwc_rate tax_rate
    = (Returned model, set_operating_model self model)
    /\ forall N, (1 <= N <= 5)%Z ->
         exists prev oy,
           zget model N = Some oy
           /\ projected_year (debt_structure self) base_revenue revenue_growth
                ebitda_margin capex_rate nwc_rate tax_rate N prev oy
           /\ (N = 1%Z -> prev = None)
           /\ ((2 <= N)%Z -> exists p, prev = Some p /\ zget model (N - 1)%Z = Some p).
Proof.
  intro Hg.
  destruct (build_operating_model_years self base_revenue revenue_growth
              ebitda_margin capex_rate nwc_rate tax_rate Hg)
    as (oy1 & oy2 & oy3 & oy4 & oy5 & Hrun & P1 & P2 & P3 & P4 & P5).
  eexists. split; [exact Hrun|].
  intros N HN.
  assert (HN' : N = 1%Z \/ N = 2%Z \/ N = 3%Z \/ N = 4%Z \/ N = 5%Z) by lia.
  destruct HN' as [->|[->|[->|[-> | ->]]]].
  - exists None, oy1. split; [reflexivity|]. split; [exact P1|].
    split; [reflexivity | intro; lia].
  - exists (Some oy1), oy2. split; [reflexivity|]. split; [exact P2|].
    split; [discriminate | intro; exists oy1; split; reflexivity].
  - exists (Some oy2), oy3. split; [reflexivity|]. split; [exact P3|].
    split; [discriminate | intro; exists oy2; split; reflexivity].
  - exists (Some oy3), oy4. split; [reflexivity|]. split; [exact P4|].
    split; [discriminate | intro; exists oy3; split; reflexivity].
  - exists (Some oy4), oy5. split; [reflexivity|]. split; [exact P5|].
    split; [discriminate | intro; exists oy4; split; reflexivity].
Qed.

(** X4.  Taxes are never negative and net income never exceeds earnings
    before tax.  With a tax rate that is not negative, a year with a loss
    pays no tax (net income equals the loss: no tax credit), and a year with
    a profit pays tax_rate x earnings before tax. *)
Theorem taxes_never_negative (self : LBOAnalysis) (base_revenue : Qc)
    (revenue_growth : list Qc) (ebitda_margin capex_rate nwc_rate tax_rate : Qc) :
  revenue_growth <> [] ->
  exists model,
    build_operating_model self base_revenue revenue_growth
      ebitda_margin capex_rate nwc_rate tax_rate
    = (Returned model, set_operating_model self model)
    /\ forall N, (1 <= N <= 5)%Z ->
         exists oy,
           zget model N = Some oy
           /\ 0 <= taxes oy
           /\ net_income oy <= ebt oy
           /\ (0 <= tax_rate -> ebt oy <= 0 ->
               taxes oy = 0 /\ net_income oy = ebt oy)
           /\ (0 <= tax_rate -> 0 <= ebt oy ->
               taxes oy = ebt oy * tax_rate).
Proof.
  intro Hg.
  destruct (build_operating_model_each self base_revenue revenue_growth
              ebitda_margin capex_rate nwc_rate tax_rate Hg) as (model & Hrun & Hyears).
  exists model. split; [exact Hrun|].
  intros N HN. destruct (Hyears N HN) as (prev & oy & Hoy & P & _).
  destruct P as (R & E & D & I & Int & T & X & NI & O & C & W & F).
  exists oy. split; [exact Hoy|].
  assert (H0 : 0 <= taxes oy) by (rewrite X; apply py_max_lower).
  split; [exact H0|]. split; [rewrite NI; qc_lra|]. split.
  - intros Ht Hloss.
    assert (Hz : taxes oy = 0).
    { rewrite X. apply py_max_0_nonpos.
      assert (Hp : 0 <= (- ebt oy) * tax_rate)
        by (apply Qc_mult_nonneg; [qc_lra | exact Ht]).
      clear - Hp. qc_lra. }
    split; [exact Hz|]. rewrite NI, Hz. ring.
  - intros Ht Hprofit. rewrite X. apply py_max_0_nonneg.
    apply Qc_mult_nonneg; assumption.
Qed.

Lemma lit_09_nonneg : 0 <= lit 0.9.
Proof. vm_compute. discriminate. Qed.

Lemma lit_09_shrinks (x : Qc) : 0 <= x -> x * lit 0.9 <= x.
Proof.
  intro Hx.
  assert (H1 : 0 <= x * lit 0.1)
    by (apply Qc_mult_nonneg; [exact Hx | vm_compute; discriminate]).
  assert (E : lit 0.9 = 1 - lit 0.1) by (apply Qc_is_canon; reflexivity).
  rewrite E. clear E. qc_lra.
Qed.

(** The interest line before the yearly factor is not negative when no
    principal and no rate is. *)
Lemma interest_base_nonneg (ds : sdict TrancheTerms) :
  (forall t, In t (dict_values ds) -> 0 <= amount t /\ 0 <= rate t) ->
  0 <= total_principal ds
       * (if Qc_ltb 0 (total_principal ds) then weighted_average_rate ds else 0).
Proof.
  intro Hall.
  assert (Ht : 0 <= total_principal ds).
  { apply py_sum_nonneg. intros x Hx. apply in_map_iff in Hx.
    destruct Hx as (t & <- & Hin). apply (Hall t Hin). }
  apply Qc_mult_nonneg; [exact Ht|].
  destruct (Qc_ltb 0 (total_principal ds)) eqn:E; [|apply Qcle_refl].
  unfold weighted_average_rate. apply Qc_div_nonneg; [|apply Qc_ltb_lt, E].
  apply py_sum_nonneg. intros x Hx. apply in_map_iff in Hx.
  destruct Hx as (t & <- & Hin).
  apply Qc_mult_nonneg; apply (Hall t Hin).
Qed.

(** X5.  With principals and rates that are not negative the interest line
    is never negative and never rises from one year to the next.  It is 0
    in every year when no debt structure is set or the total principal is
    not positive. *)
Theorem interest_never_rises (self : LBOAnalysis) (base_revenue : Qc)
    (revenue_growth : list Qc) (ebitda_margin capex_rate nwc_rate tax_rate : Qc) :
  revenue_growth <> [] ->
  (forall t, In t (dict_values (debt_structure self)) ->
             0 <= amount t /\ 0 <= rate t) ->
  exists model,
    build_operating_model self base_revenue revenue_growth
      ebitda_margin capex_rate nwc_rate tax_rate
    = (Returned model, set_operating_model self model)
    /\ (forall N, (1 <= N <= 5)%Z ->
          exists oy, zget model N = Some oy /\ 0 <= interest_expense oy)
    /\ (forall N, (1 <= N <= 4)%Z ->
          exists oy oy',
            zget model N = Some oy
            /\ zget model (N + 1)%Z = Some oy'
            /\ interest_expense oy' <= interest_expense oy)
    /\ (debt_structure self = [] \/ total_principal (debt_structure self) <= 0 ->
        forall N, (1 <= N <= 5)%Z ->
          exists oy, zget model N = Some oy /\ interest_expense oy = 0).
Proof.
  intros Hg Hpos.
  destruct (build_operating_model_each self base_revenue revenue_growth
              ebitda_margin capex_rate nwc_rate tax_rate Hg) as (model & Hrun & Hyears).
  pose proof (interest_base_nonneg (debt_structure self) Hpos) as Hbase.
  assert (Hint : forall N, (1 <= N <= 5)%Z ->
            exists oy, zget model N = Some oy
                       /\ interest_expense oy
                          = if truthy (debt_structure self)
                            then total_principal (debt_structure self)
                                 * (if Qc_ltb 0 (total_principal (debt_structure self))
                                    then weighted_average_rate (debt_structure self)
                                    else 0)
                                 * lit 0.9 ^ Z.to_nat (N - 1)
                            else 0).
  { intros N HN. destruct (Hyears N HN) as (prev & oy & Hoy & P & _).
    destruct P as (_ & _ & _ & _ & Int & _). exists oy. split; [exact Hoy|].
    rewrite interest_of_year_returns in Int. injection Int as V.
    symmetry. exact V. }
  assert (Hnn : forall k,
            0 <= total_principal (debt_structure self)
                 * (if Qc_ltb 0 (total_principal (debt_structure self))
                    then weighted_average_rate (debt_structure self)
                    else 0)
                 * lit 0.9 ^ k).
  { intro k. apply Qc_mult_nonneg; [exact Hbase|].
    apply Qcpower_pos, lit_09_nonneg. }
  exists model. split; [exact Hrun|]. split; [|split].
  - intros N HN. destruct (Hint N HN) as (oy & Hoy & V).
    exists oy. split; [exact Hoy|]. rewrite V.
    destruct (truthy (debt_structure self)); [apply Hnn | apply Qcle_refl].
  - intros N HN.
    destruct (Hint N) as (oy & Hoy & V); [lia|].
    destruct (Hint (N + 1)%Z) as (oy' & Hoy' & V'); [lia|].
    exists oy, oy'. split; [exact Hoy|]. split; [exact Hoy'|].
    rewrite V, V'.
    replace (Z.to_nat (N + 1 - 1)) with (S (Z.to_nat (N - 1))) by lia.
    destruct (truthy (debt_structure self)); [|apply Qcle_refl].
    cbn [Qcpower].
    rewrite (Qcmult_comm (lit 0.9) (lit 0.9 ^ Z.to_nat (N - 1))), Qcmult_assoc.
    apply lit_09_shrinks, Hnn.
  - intros Hnone N HN.
    destruct (Hint N HN) as (oy & Hoy & V).
    exists oy. split; [exact Hoy|]. rewrite V.
    destruct Hnone as [-> | Hle]; [reflexivity|].
    destruct (truthy (debt_structure self)); [|reflexivity].
    apply Qc_ltb_ge in Hle. rewrite Hle. ring.
Qed.


Lemma last_in {A : Type} (xs : list A) (d : A) : xs <> [] -> In (last xs d) xs.
Proof.
  induction xs as [|x xs IH]; intro Hne; [contradiction|].
  destruct xs as [|y ys]; [left; reflexivity|].
  right. apply IH. discriminate.
Qed.

Lemma growth_used_in (revenue_growth : list Qc) (k : nat) :
  revenue_growth <> [] -> In (growth_used revenue_growth k) revenue_growth.
Proof.
  intro Hne. unfold growth_used.
  destruct (Nat.lt_ge_cases k (List.length revenue_growth)) as [Hlt | Hge].
  - apply nth_In, Hlt.
  - rewrite nth_overflow by exact Hge. apply last_in, Hne.
Qed.

Lemma grow_step (r g : Qc) : 0 <= r -> 0 <= g -> r <= r * (1 + g).
Proof.
  intros Hr Hg. pose proof (Qc_mult_nonneg r g Hr Hg) as Hp. qc_lra.
Qed.

(** X6.  With a base revenue and growth rates that are not negative, revenue
    never falls from one year to the next and never falls below the base
    revenue; with a working-capital rate that is not negative the
    working-capital change is never negative either. *)
Theorem revenue_never_falls (self : LBOAnalysis) (base_revenue : Qc)
    (revenue_growth : list Qc) (ebitda_margin capex_rate nwc_rate tax_rate : Qc) :
  revenue_growth <> [] ->
  (forall g, In g revenue_growth -> 0 <= g) ->
  0 <= base_revenue ->
  0 <= nwc_rate ->
  exists model,
    build_operating_model self base_revenue revenue_growth
      ebitda_margin capex_rate nwc_rate tax_rate
    = (Returned model, set_operating_model self model)
    /\ (forall N, (1 <= N <= 5)%Z ->
          exists oy,
            zget model N = Some oy
            /\ base_revenue <= revenue oy
            /\ 0 <= nwc_change oy)
    /\ (forall N, (1 <= N <= 4)%Z ->
          exists oy oy',
            zget model N = Some oy
            /\ zget model (N + 1)%Z = Some oy'
            /\ revenue oy <= revenue oy').
Proof.
  intros Hg Hrates Hbase Hnwc.
  destruct (build_operating_model_years self base_revenue revenue_growth
              ebitda_margin capex_rate nwc_rate tax_rate Hg)
    as (oy1 & oy2 & oy3 & oy4 & oy5 & Hrun & P1 & P2 & P3 & P4 & P5).
  assert (Hstep : forall N p oy,
            projected_year (debt_structure self) base_revenue revenue_growth
              ebitda_margin capex_rate nwc_rate tax_rate N (Some p) oy ->
            base_revenue <= revenue p ->
            revenue p <= revenue oy /\ base_revenue <= revenue oy
            /\ 0 <= nwc_change oy).
  { intros N p oy (R & _ & _ & _ & _ & _ & _ & _ & _ & _ & W & _) Hp.
    assert (H0 : 0 <= revenue p) by exact (Qcle_trans _ _ _ Hbase Hp).
    assert (Hle : revenue p <= revenue oy).
    { rewrite R. apply grow_step; [exact H0|].
      apply Hrates, growth_used_in, Hg. }
    split; [exact Hle|]. split; [exact (Qcle_trans _ _ _ Hp Hle)|].
    rewrite W. apply Qc_mult_nonneg; [|exact Hnwc].
    clear - Hle. qc_lra. }
  assert (B1 : base_revenue <= revenue oy1).
  { destruct P1 as (R & _). rewrite R. apply Qcle_refl. }
  assert (W1 : 0 <= nwc_change oy1).
  { destruct P1 as (_ & _ & _ & _ & _ & _ & _ & _ & _ & _ & W & _).
    rewrite W. apply Qcle_refl. }
  destruct (Hstep _ _ _ P2 B1) as (L2 & B2 & W2).
  destruct (Hstep _ _ _ P3 B2) as (L3 & B3 & W3).
  destruct (Hstep _ _ _ P4 B3) as (L4 & B4 & W4).
  destruct (Hstep _ _ _ P5 B4) as (L5 & B5 & W5).
  eexists. split; [exact Hrun|]. split.
  - intros N HN.
    assert (HN' : N = 1%Z \/ N = 2%Z \/ N = 3%Z \/ N = 4%Z \/ N = 5%Z) by lia.
    destruct HN' as [->|[->|[->|[-> | ->]]]];
      eexists; (split; [reflexivity|]); split; assumption.
  - intros N HN.
    assert (HN' : N = 1%Z \/ N = 2%Z \/ N = 3%Z \/ N = 4%Z) by lia.
    destruct HN' as [->|[->|[-> | ->]]];
      do 2 eexists; (split; [reflexivity|]); (split; [reflexivity|]); assumption.
Qed.


(** ** More on the debt schedule *)

(** Every row of the schedule is [tranche_row] of the pool at the tranche's
    turn and of a balance that is the principal in year 1 and the ending
    balance of the year before afterwards. *)
Lemma schedule_rows (self : LBOAnalysis) :
  schedule_ready self ->
  exists schedule,
    model_debt_schedule self = (Returned schedule, set_debt_schedule self schedule)
    /\ forall y, (1 <= y <= 5)%Z ->
         exists oy ys,
           zget (operating_model self) y = Some oy
           /\ zget schedule y = Some ys
           /\ forall pre n t post,
                debt_structure self = pre ++ (n, t) :: post ->
                exists b,
                  sget ys n =
                    Some (tranche_row n t
                            (pool_before (free_cash_flow oy) ys (dict_keys pre)) b)
                  /\ (y = 1%Z -> b = amount t)
                  /\ ((2 <= y)%Z ->
                      exists r_prev,
                        schedule_row schedule (y - 1) n = Some r_prev
                        /\ b = ending_balance r_prev).
Proof.
  intro Hready. pose proof Hready as (ND & _ & _).
  destruct (schedule_facts self Hready) as (schedule & Hrun & Hyears).
  exists schedule. split; [exact Hrun|].
  intros y Hy.
  destruct (Hyears y (years_range y Hy))
    as (oy & s & bal & Hoy & _ & Hs & Hrows & _ & Hstart & Hprev).
  exists oy, (year_schedule s). split; [exact Hoy|]. split; [exact Hs|].
  intros pre n t post E.
  destruct (Hrows pre n t post E) as (b & Hb & Hr).
  exists b. split; [exact Hr|]. split.
  - intro Hy1. rewrite (Hstart Hy1) in Hb.
    rewrite (initial_balances_amount _ n t ND) in Hb.
    + inversion Hb. reflexivity.
    + rewrite E. apply in_or_app. right. left. reflexivity.
  - intro Hy2.
    destruct (Hyears (y - 1)%Z) as (oy' & s' & bal' & _ & _ & Hs' & Hrows' & _);
      [apply years_range; lia|].
    destruct (Hrows' pre n t post E) as (b' & _ & Hr').
    eexists. unfold schedule_row. rewrite Hs'. split; [exact Hr'|].
    rewrite (Hprev _ Hs' _ _ Hr') in Hb. inversion Hb. reflexivity.
Qed.

(** What one row always satisfies, whatever the pool and the balance. *)
Lemma tranche_row_facts (n : string) (t : TrancheTerms) (cash b : Qc) :
  let r := tranche_row n t cash b in
  beginning_balance r = b
  /\ mandatory_payment r <= b
  /\ 0 <= optional_payment r
  /\ optional_payment r <= b - mandatory_payment r
  /\ total_payment r = mandatory_payment r + optional_payment r
  /\ ending_balance r = b - total_payment r
  /\ interest_payment r = b * rate t.
Proof.
  cbn zeta. cbn [tranche_row beginning_balance mandatory_payment optional_payment
                 total_payment ending_balance interest_payment].
  set (m := py_min (b * amortization t) b).
  assert (Hm : m <= b) by apply py_min_le_r.
  set (o := if Qc_ltb m cash && String.eqb n term_loan_b_name
            then py_min (cash - m) (b - m) else 0).
  assert (Ho : 0 <= o /\ o <= b - m).
  { unfold o. destruct (Qc_ltb m cash) eqn:Ec; cbn [andb].
    - destruct (String.eqb n term_loan_b_name).
      + apply Qc_ltb_lt in Ec. split; [|apply py_min_le_r].
        destruct (py_min_cases (cash - m) (b - m)) as [-> | ->]; qc_lra.
      + split; [apply Qcle_refl | qc_lra].
    - split; [apply Qcle_refl | qc_lra]. }
  destruct Ho as [Ho1 Ho2].
  split; [reflexivity|]. split; [exact Hm|]. split; [exact Ho1|].
  split; [exact Ho2|]. split; [reflexivity|]. split; [|reflexivity].
  apply py_max_0_nonneg. qc_lra.
Qed.

(** X8.  A tranche whose principal and amortization rate are not negative
    never has a negative balance or payment, and its balance never rises:
    in every year beginning, mandatory and total payment are at least 0 and
    the ending balance is at most the beginning balance. *)
Theorem balances_never_rise (self : LBOAnalysis) :
  schedule_ready self ->
  exists schedule,
    model_debt_schedule self = (Returned schedule, set_debt_schedule self schedule)
    /\ forall y tranche terms,
         (1 <= y <= 5)%Z ->
         In (tranche, terms) (debt_structure self) ->
         0 <= amount terms ->
         0 <= amortization terms ->
         exists r,
           schedule_row schedule y tranche = Some r
           /\ 0 <= beginning_balance r
           /\ 0 <= mandatory_payment r
           /\ 0 <= total_payment r
           /\ ending_balance r <= beginning_balance r.
Proof.
  intro Hready.
  destruct (schedule_rows self Hready) as (schedule & Hrun & Hyears).
  exists schedule. split; [exact Hrun|].
  intros y tranche terms Hy HI Hamt Hrate.
  destruct (in_split_item _ _ _ HI) as (pre & post & E).
  destruct (Hyears y Hy) as (oy & ys & _ & Hys & Hrows).
  destruct (Hrows pre tranche terms post E) as (b & Hr & Hfirst & Hlater).
  assert (Hb0 : 0 <= b).
  { destruct (Z.eq_dec y 1) as [Hy1 | Hy1].
    - rewrite (Hfirst Hy1). exact Hamt.
    - destruct Hlater as (r_prev & Hprev & ->); [lia|].
      unfold schedule_row in Hprev.
      destruct (Hyears (y - 1)%Z) as (oy' & ys' & _ & Hys' & Hrows'); [lia|].
      rewrite Hys' in Hprev.
      destruct (Hrows' pre tranche terms post E) as (b' & Hr' & _).
      rewrite Hr' in Hprev. inversion Hprev. apply py_max_lower. }
  eexists. unfold schedule_row. rewrite Hys. split; [exact Hr|].
  destruct (tranche_row_facts tranche terms
              (pool_before (free_cash_flow oy) ys (dict_keys pre)) b)
    as (Hb & Hm & Ho1 & Ho2 & Ht & He & Hi).
  assert (Hm0 : 0 <= mandatory_payment
                       (tranche_row tranche terms
                          (pool_before (free_cash_flow oy) ys (dict_keys pre)) b)).
  { cbn [tranche_row mandatory_payment].
    destruct (py_min_cases (b * amortization terms) b) as [-> | ->];
      [apply Qc_mult_nonneg; assumption | exact Hb0]. }
  rewrite Hb. split; [exact Hb0|]. split; [exact Hm0|].
  split; [rewrite Ht; clear - Hm0 Ho1; qc_lra|].
  rewrite He, Ht. clear - Hm0 Ho1. qc_lra.
Qed.

(** A row of a tranche that is never swept: with a balance that is not
    negative and a rate between 0 and 1 neither [min] nor [max] cuts
    anything off. *)
Lemma tranche_row_plain (n : string) (t : TrancheTerms) (cash b : Qc) :
  n <> "Term Loan B"%string ->
  0 <= b -> 0 <= amortization t -> amortization t <= 1 ->
  let r := tranche_row n t cash b in
  beginning_balance r = b
  /\ mandatory_payment r = b * amortization t
  /\ optional_payment r = 0
  /\ total_payment r = b * amortization t
  /\ ending_balance r = b - b * amortization t
  /\ 0 <= ending_balance r.
Proof.
  intros Hne Hb Ha0 Ha1. cbn zeta.
  cbn [tranche_row beginning_balance mandatory_payment optional_payment
       total_payment ending_balance].
  apply String.eqb_neq in Hne. unfold term_loan_b_name. rewrite Hne, andb_false_r.
  assert (Hp : 0 <= b * (1 - amortization t)).
  { apply Qc_mult_nonneg; [exact Hb | clear - Ha1; qc_lra]. }
  assert (Hm : py_min (b * amortization t) b = b * amortization t).
  { apply py_min_left. clear - Hp. qc_lra. }
  rewrite Hm. split; [reflexivity|]. split; [reflexivity|]. split; [reflexivity|].
  split; [ring|]. split; [|apply py_max_lower].
  rewrite py_max_0_nonneg; [ring|].
  clear - Hp. qc_lra.
Qed.

(** The rows of a tranche that is never swept, year by year. *)
Lemma unswept_rows (self : LBOAnalysis) :
  schedule_ready self ->
  exists schedule,
    model_debt_schedule self = (Returned schedule, set_debt_schedule self schedule)
    /\ forall tranche terms,
         In (tranche, terms) (debt_structure self) ->
         tranche <> "Term Loan B"%string ->
         0 <= amount terms ->
         0 <= amortization terms ->
         amortization terms <= 1 ->
         forall y, (1 <= y <= 5)%Z ->
           exists r,
             schedule_row schedule y tranche = Some r
             /\ (y = 1%Z -> beginning_balance r = amount terms)
             /\ ((2 <= y)%Z ->
                 exists r_prev,
                   schedule_row schedule (y - 1) tranche = Some r_prev
                   /\ beginning_balance r = ending_balance r_prev)
             /\ 0 <= beginning_balance r
             /\ mandatory_payment r = beginning_balance r * amortization terms
             /\ optional_payment r = 0
             /\ total_payment r = mandatory_payment r
             /\ ending_balance r = beginning_balance r - mandatory_payment r
             /\ 0 <= ending_balance r.
Proof.
  intro Hready.
  destruct (schedule_rows self Hready) as (schedule & Hrun & Hyears).
  exists schedule. split; [exact Hrun|].
  intros tranche terms HI Hne Hamt Ha0 Ha1 y Hy.
  destruct (in_split_item _ _ _ HI) as (pre & post & E).
  destruct (Hyears y Hy) as (oy & ys & _ & Hys & Hrows).
  destruct (Hrows pre tranche terms post E) as (b & Hr & Hfirst & Hlater).
  assert (Hb0 : 0 <= b).
  { destruct (Z.eq_dec y 1) as [Hy1 | Hy1].
    - rewrite (Hfirst Hy1). exact Hamt.
    - destruct Hlater as (r_prev & Hprev & ->); [lia|].
      unfold schedule_row in Hprev.
      destruct (Hyears (y - 1)%Z) as (oy' & ys' & _ & Hys' & Hrows'); [lia|].
      rewrite Hys' in Hprev.
      destruct (Hrows' pre tranche terms post E) as (b' & Hr' & _).
      rewrite Hr' in Hprev. inversion Hprev. apply py_max_lower. }
  destruct (tranche_row_plain tranche terms
              (pool_before (free_cash_flow oy) ys (dict_keys pre))
              b Hne Hb0 Ha0 Ha1) as (Hb & Hm & Ho & Ht & He & He0).
  eexists. unfold schedule_row at 1. rewrite Hys. split; [exact Hr|].
  rewrite Hb, Hm, Ho, Ht, He.
  split; [exact Hfirst|]. split; [exact Hlater|]. split; [exact Hb0|].
  split; [reflexivity|]. split; [reflexivity|]. split; [reflexivity|].
  split; [reflexivity|]. rewrite <- He. exact He0.
Qed.

(** A tranche that is never swept and has an amortization rate of 0 stays
    at its principal. *)
Lemma flat_rows (self : LBOAnalysis) :
  schedule_ready self ->
  exists schedule,
    model_debt_schedule self = (Returned schedule, set_debt_schedule self schedule)
    /\ forall tranche terms,
         In (tranche, terms) (debt_structure self) ->
         tranche <> "Term Loan B"%string ->
         0 <= amount terms ->
         amortization terms = 0 ->
         forall y, (1 <= y <= 5)%Z ->
           exists r,
             schedule_row schedule y tranche = Some r
             /\ beginning_balance r = amount terms
             /\ mandatory_payment r = 0
             /\ optional_payment r = 0
             /\ total_payment r = 0
             /\ ending_balance r = amount terms.
Proof.
  intro Hready.
  destruct (unswept_rows self Hready) as (schedule & Hrun & Hrows).
  exists schedule. split; [exact Hrun|].
  intros tranche terms HI Hne Hamt Hz.
  assert (Ha0 : 0 <= amortization terms) by (rewrite Hz; apply Qcle_refl).
  assert (Ha1 : amortization terms <= 1) by (rewrite Hz; vm_compute; discriminate).
  pose proof (Hrows tranche terms HI Hne Hamt Ha0 Ha1) as Hyears.
  assert (Hall : forall k, (k <= 4)%nat ->
            exists r,
              schedule_row schedule (Z.of_nat k + 1) tranche = Some r
              /\ beginning_balance r = amount terms
              /\ mandatory_payment r = 0
              /\ optional_payment r = 0
              /\ total_payment r = 0
              /\ ending_balance r = amount terms).
  { induction k as [|k IH]; intro Hk.
    - destruct (Hyears 1%Z) as (r & Hr & H1 & _ & _ & Hm & Ho & Ht & He & _); [lia|].
      exists r. cbn [Z.of_nat Z.add]. split; [exact Hr|].
      rewrite Hz in Hm. rewrite He, Ht, Hm, (H1 eq_refl).
      split; [reflexivity|]. split; [ring|]. split; [exact Ho|].
      split; ring.
    - destruct IH as (r0 & Hr0 & _ & _ & _ & _ & He0); [lia|].
      destruct (Hyears (Z.of_nat (S k) + 1)%Z)
        as (r & Hr & _ & H2 & _ & Hm & Ho & Ht & He & _); [lia|].
      destruct H2 as (r_prev & Hprev & Hb); [lia|].
      replace (Z.of_nat (S k) + 1 - 1)%Z with (Z.of_nat k + 1)%Z in Hprev by lia.
      rewrite Hr0 in Hprev. inversion Hprev; subst r_prev. clear Hprev.
      rewrite He0 in Hb.
      exists r. split; [exact Hr|].
      rewrite Hz in Hm. rewrite He, Ht, Hm, Hb.
      split; [reflexivity|]. split; [ring|]. split; [exact Ho|].
      split; ring. }
  intros y Hy.
  destruct (Hall (Z.to_nat (y - 1))) as (r & Hr & Hrest); [lia|].
  replace (Z.of_nat (Z.to_nat (y - 1)) + 1)%Z with y in Hr by lia.
  exists r. split; [exact Hr | exact Hrest].
Qed.

(** X10.  A tranche other than "Term Loan B" with a principal that is not
    negative and an amortization rate between 0 and 1 declines by its rate
    alone, whatever the operating model: it begins year 1 at its principal
    and every later year at the ending balance of the year before; each
    year it pays rate x beginning balance and nothing optional, and it
    ends at beginning balance - payment, which is never negative (neither
    the cap on the payment nor the clamp at 0 ever cuts anything off). *)
Theorem declining_balance_path (self : LBOAnalysis) :
  schedule_ready self ->
  exists schedule,
    model_debt_schedule self = (Returned schedule, set_debt_schedule self schedule)
    /\ forall tranche terms,
         In (tranche, terms) (debt_structure self) ->
         tranche <> "Term Loan B"%string ->
         0 <= amount terms ->
         0 <= amortization terms ->
         amortization terms <= 1 ->
         forall y, (1 <= y <= 5)%Z ->
           exists r,
             schedule_row schedule y tranche = Some r
             /\ (y = 1%Z -> beginning_balance r = amount terms)
             /\ ((2 <= y)%Z ->
                 exists r_prev,
                   schedule_row schedule (y - 1) tranche = Some r_prev
                   /\ beginning_balance r = ending_balance r_prev)
             /\ 0 <= beginning_balance r
             /\ mandatory_payment r = beginning_balance r * amortization terms
             /\ optional_payment r = 0
             /\ total_payment r = mandatory_payment r
             /\ ending_balance r = beginning_balance r - mandatory_payment r
             /\ 0 <= ending_balance r.
Proof. exact (unswept_rows self). Qed.


(** ** More on the exit analysis *)

Lemma Qc_div_pos (x y : Qc) : 0 < x -> 0 < y -> 0 < x / y.
Proof.
  intros Hx Hy. unfold Qcdiv.
  rewrite <- (Qcmult_0_l (/ y)). apply Qcmult_lt_compat_r; [|exact Hx].
  apply Qc_inv_pos, Hy.
Qed.

Lemma Qc_div_le_compat (x x' y : Qc) : x <= x' -> 0 < y -> x / y <= x' / y.
Proof.
  intros Hx Hy. unfold Qcdiv. apply Qcmult_le_compat_r; [exact Hx|].
  apply Qclt_le_weak, Qc_inv_pos, Hy.
Qed.

Lemma py_max_0_mono (x y : Qc) : x <= y -> py_max 0 x <= py_max 0 y.
Proof.
  intro H. unfold py_max.
  destruct (Qc_ltb 0 x) eqn:Ex; destruct (Qc_ltb 0 y) eqn:Ey.
  - exact H.
  - apply Qc_ltb_lt in Ex. apply Qc_ltb_ge in Ey.
    exfalso. apply (Qcle_not_lt _ _ (Qcle_trans _ _ _ H Ey) Ex).
  - apply Qclt_le_weak, Qc_ltb_lt, Ey.
  - apply Qcle_refl.
Qed.

Section ExitFacts.
Variable float_pow : Qc -> Qc -> Qc.

(** One turn of the loop over the multiples stores a record of that
    multiple under its label. *)
Lemma scenario_body_step (equity exit_ebitda debt : Qc) (exit_year : Z)
    (m : Qc) (results : sdict ExitScenario) :
  exit_year <> 0%Z ->
  exists rec,
    scenario_body float_pow equity exit_ebitda debt exit_year m results
    = Returned (sset results (scenario_label m) rec)
    /\ exit_multiple rec = m.
Proof.
  intro Hy. unfold scenario_body, irr_of, py_div.
  rewrite (lit_year_nonzero _ Hy).
  destruct (Qc_ltb 0 equity) eqn:Eq.
  - rewrite Qc_eqb_false.
    + cbn [bind].
      destruct (Qc_ltb 0 (py_max 0 (exit_ebitda * m - debt) / equity));
        cbn [bind]; eexists; split; reflexivity.
    + intro E0. rewrite E0 in Eq. discriminate Eq.
  - cbn [bind]. destruct (Qc_ltb 0 0); cbn [bind]; eexists; split; reflexivity.
Qed.

(** Which labels the loop fills, and with which multiple. *)
Lemma scenario_loop_labels (equity exit_ebitda debt : Qc) (exit_year : Z)
    (multiples : list Qc) :
  exit_year <> 0%Z ->
  forall results,
  exists results',
    for_each multiples (scenario_body float_pow equity exit_ebitda debt exit_year)
      results = Returned results'
    /\ (forall label, (forall m, In m multiples -> scenario_label m <> label) ->
          sget results' label = sget results label)
    /\ (forall label rec,
          sget results' label = Some rec ->
          sget results label = Some rec
          \/ (In (exit_multiple rec) multiples
              /\ label = scenario_label (exit_multiple rec)))
    /\ (forall pre m post,
          multiples = pre ++ m :: post ->
          (forall m', In m' post -> scenario_label m' <> scenario_label m) ->
          exists rec,
            sget results' (scenario_label m) = Some rec /\ exit_multiple rec = m).
Proof.
  intro Hy. induction multiples as [|m0 ms IH]; intro results.
  - exists results. split; [reflexivity|]. split; [auto|]. split; [auto|].
    intros pre m post E. destruct pre; discriminate.
  - destruct (scenario_body_step equity exit_ebitda debt exit_year m0 results Hy)
      as (rec0 & Hstep & Hm0).
    destruct (IH (sset results (scenario_label m0) rec0))
      as (results' & Hrun & Hother & Hrec & Hlast).
    exists results'. split; [rewrite (for_each_step _ _ _ _ _ Hstep); exact Hrun|].
    split.
    { intros label Hl. rewrite Hother.
      - apply sget_set_other. apply Hl. left. reflexivity.
      - intros m Hm. apply Hl. right. exact Hm. }
    split.
    { intros label rec Hget.
      destruct (Hrec label rec Hget) as [Hold | (Hin & Hlab)].
      - destruct (sget_set_inv _ _ _ _ _ Hold) as [[-> ->] | Hold'].
        + right. rewrite Hm0. split; [left|]; reflexivity.
        + left. exact Hold'.
      - right. split; [right; exact Hin | exact Hlab]. }
    intros pre m post E Hfresh.
    destruct pre as [|p pre]; simpl in E; injection E as Em Epost.
    + rewrite <- Em. exists rec0. split; [|exact Hm0].
      rewrite Hother; [apply sget_set_same|].
      intros m' Hm'. rewrite Em. apply Hfresh. rewrite <- Epost. exact Hm'.
    + apply (Hlast pre m post Epost Hfresh).
Qed.

(** The exit analysis returns when the exit year is there, with records
    that satisfy the formulas of the loop body. *)
Lemma exit_analysis_records (self : LBOAnalysis)
    (exit_multiples : option (list Qc)) (exit_year : Z)
    (oy : OperatingYear) (ys : sdict TrancheYear) :
  zget (operating_model self) exit_year = Some oy ->
  zget (debt_schedule self) exit_year = Some ys ->
  exit_year <> 0%Z ->
  let multiples :=
    match exit_multiples with None => default_exit_multiples | Some l => l end in
  exists results,
    exit_analysis float_pow self exit_multiples exit_year
    = (Returned results, set_returns_analysis self results)
    /\ for_each multiples
         (scenario_body float_pow (sponsor_equity self) (ebitda oy)
            (remaining_debt_of ys) exit_year) []
       = Returned results
    /\ (forall label rec,
          sget results label = Some rec ->
          In (exit_multiple rec) multiples
          /\ enterprise_value rec = ebitda oy * exit_multiple rec
          /\ remaining_debt rec = remaining_debt_of ys
          /\ equity_value rec = py_max 0 (enterprise_value rec - remaining_debt rec)
          /\ moic rec =
               (if Qc_ltb 0 (sponsor_equity self)
                then equity_value rec / sponsor_equity self else 0)
          /\ irr rec =
               (if Qc_ltb 0 (moic rec)
                then float_pow (moic rec) (1 / lit (inject_Z exit_year)) - 1
                else lit (-1))).
Proof.
  intros Hoy Hys Hy multiples.
  destruct (scenario_loop float_pow (sponsor_equity self) (ebitda oy)
              (remaining_debt_of ys) exit_year multiples Hy [])
    as (results & Hrun & _ & _ & Hrec).
  exists results. split.
  { unfold exit_analysis, dict_item. rewrite Hoy, Hys.
    assert (Tom : truthy (operating_model self) = true)
      by (destruct (operating_model self); [discriminate | reflexivity]).
    assert (Tds : truthy (debt_schedule self) = true)
      by (destruct (debt_schedule self); [discriminate | reflexivity]).
    rewrite Tom, Tds. cbn [negb orb bind]. fold multiples.
    rewrite Hrun. reflexivity. }
  split; [exact Hrun|].
  intros label rec Hget.
  destruct (Hrec label rec Hget) as [Hold | Hnew]; [discriminate Hold | exact Hnew].
Qed.
End ExitFacts.


Section ExitProperties.
Variable float_pow : Qc -> Qc -> Qc.

(** X11.  The exit analysis gives no analysis and leaves the object, and
    with it any earlier returns analysis, as it was in two cases: it
    returns [None] when the operating model or the debt schedule is empty,
    and it raises KeyError when both are there but the exit year (year 0,
    year 6, ...) is missing from one of them. *)
Theorem exit_analysis_failures (self : LBOAnalysis)
    (exit_multiples : option (list Qc)) (exit_year : Z) :
  operating_model self = [] \/ debt_schedule self = []
  \/ zget (operating_model self) exit_year = None
  \/ zget (debt_schedule self) exit_year = None ->
  exit_analysis float_pow self exit_multiples exit_year
  = (if negb (truthy (operating_model self)) || negb (truthy (debt_schedule self))
     then ReturnedNone else Raised KeyError,
     self).
Proof.
  intro H. unfold exit_analysis, dict_item.
  destruct (negb (truthy (operating_model self))
            || negb (truthy (debt_schedule self))) eqn:T; [reflexivity|].
  apply orb_false_elim in T. destruct T as [Tm Ts].
  destruct H as [Hm | [Hs | [Hm | Hs]]].
  - rewrite Hm in Tm. discriminate Tm.
  - rewrite Hs in Ts. discriminate Ts.
  - rewrite Hm. reflexivity.
  - destruct (zget (operating_model self) exit_year); [|reflexivity].
    rewrite Hs. reflexivity.
Qed.

(** X12.  The returns analysis is keyed by label, one record per label:
    every record sits under the label of its own multiple, which is one of
    the multiples asked for; a multiple that no later multiple shares its
    label with has its record in the result; so of several multiples with
    one label only the last is kept.  No multiples give an empty
    analysis. *)
Theorem one_record_per_label (self : LBOAnalysis)
    (exit_multiples : option (list Qc)) (exit_year : Z)
    (oy : OperatingYear) (ys : sdict TrancheYear) :
  zget (operating_model self) exit_year = Some oy ->
  zget (debt_schedule self) exit_year = Some ys ->
  exit_year <> 0%Z ->
  let multiples :=
    match exit_multiples with None => default_exit_multiples | Some l => l end in
  exists results,
    exit_analysis float_pow self exit_multiples exit_year
    = (Returned results, set_returns_analysis self results)
    /\ (forall label rec,
          sget results label = Some rec ->
          label = scenario_label (exit_multiple rec)
          /\ In (exit_multiple rec) multiples)
    /\ (forall pre m post,
          multiples = pre ++ m :: post ->
          (forall m', In m' post -> scenario_label m' <> scenario_label m) ->
          exists rec,
            sget results (scenario_label m) = Some rec /\ exit_multiple rec = m)
    /\ (multiples = [] -> results = []).
Proof.
  intros Hoy Hys Hy multiples.
  destruct (exit_analysis_records float_pow self exit_multiples exit_year oy ys
              Hoy Hys Hy) as (results & Hrun & Hloop & _).
  fold multiples in Hloop.
  destruct (scenario_loop_labels float_pow (sponsor_equity self) (ebitda oy)
              (remaining_debt_of ys) exit_year multiples Hy [])
    as (results' & Hloop' & _ & Hrec & Hlast).
  rewrite Hloop in Hloop'. injection Hloop' as <-.
  exists results. split; [exact Hrun|]. split; [|split].
  - intros label rec Hget.
    destruct (Hrec label rec Hget) as [Hold | [Hin Hlab]];
      [discriminate Hold | split; assumption].
  - exact Hlast.
  - intro Hnil. rewrite Hnil in Hloop. injection Hloop as <-. reflexivity.
Qed.

(** X13.  Equity value and MOIC are never negative.  When the sponsor
    equity is not positive or the enterprise value does not exceed the
    remaining debt, MOIC is 0 and IRR is the sentinel -1; otherwise MOIC
    is positive and IRR is MOIC^(1/exit_year) - 1. *)
Theorem wiped_out_or_positive (self : LBOAnalysis)
    (exit_multiples : option (list Qc)) (exit_year : Z)
    (oy : OperatingYear) (ys : sdict TrancheYear) :
  zget (operating_model self) exit_year = Some oy ->
  zget (debt_schedule self) exit_year = Some ys ->
  exit_year <> 0%Z ->
  exists results,
    exit_analysis float_pow self exit_multiples exit_year
    = (Returned results, set_returns_analysis self results)
    /\ forall label rec,
         sget results label = Some rec ->
         0 <= equity_value rec
         /\ 0 <= moic rec
         /\ (sponsor_equity self <= 0 \/ enterprise_value rec <= remaining_debt rec ->
             moic rec = 0 /\ irr rec = lit (-1))
         /\ (0 < sponsor_equity self -> remaining_debt rec < enterprise_value rec ->
             0 < moic rec
             /\ irr rec
                = float_pow (moic rec) (1 / lit (inject_Z exit_year)) - 1).
Proof.
  intros Hoy Hys Hy.
  destruct (exit_analysis_records float_pow self exit_multiples exit_year oy ys
              Hoy Hys Hy) as (results & Hrun & _ & Hrec).
  exists results. split; [exact Hrun|].
  intros label rec Hget.
  destruct (Hrec label rec Hget) as (_ & _ & _ & Heq & Hmoic & Hirr).
  assert (He0 : 0 <= equity_value rec) by (rewrite Heq; apply py_max_lower).
  assert (Hm0 : 0 <= moic rec).
  { rewrite Hmoic. destruct (Qc_ltb 0 (sponsor_equity self)) eqn:E.
    - apply Qc_div_nonneg; [exact He0 | apply Qc_ltb_lt, E].
    - apply Qcle_refl. }
  split; [exact He0|]. split; [exact Hm0|]. split.
  - intro Hwiped.
    assert (Hz : moic rec = 0).
    { rewrite Hmoic. destruct Hwiped as [Hse | Hev].
      - apply Qc_ltb_ge in Hse. rewrite Hse. reflexivity.
      - destruct (Qc_ltb 0 (sponsor_equity self)); [|reflexivity].
        rewrite Heq, py_max_0_nonpos by (clear - Hev; qc_lra).
        unfold Qcdiv. apply Qcmult_0_l. }
    split; [exact Hz|]. rewrite Hirr, Hz. reflexivity.
  - intros Hse Hev.
    assert (Hpos : 0 < moic rec).
    { rewrite Hmoic. pose proof Hse as Hb. apply Qc_ltb_lt in Hb. rewrite Hb.
      apply Qc_div_pos; [|exact Hse].
      rewrite Heq, py_max_0_nonneg by (clear - Hev; qc_lra).
      clear - Hev. qc_lra. }
    split; [exact Hpos|]. rewrite Hirr.
    apply Qc_ltb_lt in Hpos. rewrite Hpos. reflexivity.
Qed.

(** X14.  With an exit EBITDA that is not negative, a higher multiple
    never gives a lower enterprise value, equity value or MOIC. *)
Theorem higher_multiple_higher_value (self : LBOAnalysis)
    (exit_multiples : option (list Qc)) (exit_year : Z)
    (oy : OperatingYear) (ys : sdict TrancheYear) :
  zget (operating_model self) exit_year = Some oy ->
  zget (debt_schedule self) exit_year = Some ys ->
  exit_year <> 0%Z ->
  0 <= ebitda oy ->
  exists results,
    exit_analysis float_pow self exit_multiples exit_year
    = (Returned results, set_returns_analysis self results)
    /\ forall label1 rec1 label2 rec2,
         sget results label1 = Some rec1 ->
         sget results label2 = Some rec2 ->
         exit_multiple rec1 <= exit_multiple rec2 ->
         enterprise_value rec1 <= enterprise_value rec2
         /\ equity_value rec1 <= equity_value rec2
         /\ moic rec1 <= moic rec2.
Proof.
  intros Hoy Hys Hy Hebitda.
  destruct (exit_analysis_records float_pow self exit_multiples exit_year oy ys
              Hoy Hys Hy) as (results & Hrun & _ & Hrec).
  exists results. split; [exact Hrun|].
  intros label1 rec1 label2 rec2 H1 H2 Hle.
  destruct (Hrec _ _ H1) as (_ & Hev1 & Hrd1 & Heq1 & Hmoic1 & _).
  destruct (Hrec _ _ H2) as (_ & Hev2 & Hrd2 & Heq2 & Hmoic2 & _).
  assert (Hev : enterprise_value rec1 <= enterprise_value rec2).
  { rewrite Hev1, Hev2, !(Qcmult_comm (ebitda oy)).
    apply Qcmult_le_compat_r; assumption. }
  assert (Heq : equity_value rec1 <= equity_value rec2).
  { rewrite Heq1, Heq2, Hrd1, Hrd2. apply py_max_0_mono.
    clear - Hev. qc_lra. }
  split; [exact Hev|]. split; [exact Heq|].
  rewrite Hmoic1, Hmoic2.
  destruct (Qc_ltb 0 (sponsor_equity self)) eqn:E; [|apply Qcle_refl].
  apply Qc_div_le_compat; [exact Heq | apply Qc_ltb_lt, E].
Qed.
End ExitProperties.


(** ** More on the sensitivity sweep *)

Lemma grid_of_length (float_pow : Qc -> Qc -> Qc) (ebitda5 fixed_debt equity : Qc)
    (revs ebitdas : list Qc) :
  List.length (grid_of float_pow ebitda5 fixed_debt equity revs ebitdas)
  = (List.length revs * List.length ebitdas)%nat.
Proof.
  unfold grid_of. induction revs as [|r rs IH]; [reflexivity|].
  cbn [flat_map]. rewrite length_app, length_map, IH. reflexivity.
Qed.

Lemma grid_of_order (float_pow : Qc -> Qc -> Qc) (ebitda5 fixed_debt equity : Qc)
    (revs ebitdas : list Qc) :
  map (fun r => (revenue_adj r, ebitda_adj r))
      (grid_of float_pow ebitda5 fixed_debt equity revs ebitdas)
  = list_prod revs ebitdas.
Proof.
  unfold grid_of. induction revs as [|r rs IH]; [reflexivity|].
  cbn [flat_map list_prod]. rewrite map_app, IH, map_map. reflexivity.
Qed.

Section SensitivityProperties.
Variable float_pow : Qc -> Qc -> Qc.

(** X15.  For any two adjustment lists, with the "10.0x" scenario and
    year 5 in place and a sponsor equity other than 0, the sweep returns
    one row per pair, length(revenue list) x length(EBITDA list) rows in
    all, in the order of the Cartesian product with the revenue adjustment
    outermost. *)
Theorem sensitivity_grid_any (self : LBOAnalysis) (base_case : ExitScenario)
    (oy : OperatingYear) (revenue_sensitivity ebitda_sensitivity : list Qc) :
  sget (returns_analysis self) "10.0x"%string = Some base_case ->
  zget (operating_model self) 5%Z = Some oy ->
  sponsor_equity self <> 0 ->
  exists rows,
    sensitivity_analysis float_pow self revenue_sensitivity ebitda_sensitivity
    = Returned rows
    /\ List.length rows
       = (List.length revenue_sensitivity * List.length ebitda_sensitivity)%nat
    /\ map (fun r => (revenue_adj r, ebitda_adj r)) rows
       = list_prod revenue_sensitivity ebitda_sensitivity
    /\ rows = grid_of float_pow (ebitda oy) (remaining_debt base_case)
                (sponsor_equity self) revenue_sensitivity ebitda_sensitivity.
Proof.
  intros Hbase Hoy Hse. eexists. split.
  { unfold sensitivity_analysis, dict_item. rewrite Hbase.
    assert (T : truthy (returns_analysis self) = true)
      by (destruct (returns_analysis self); [discriminate | reflexivity]).
    rewrite T. cbn [negb bind].
    rewrite (sensitivity_outer float_pow self base_case oy _ _ Hoy Hse). reflexivity. }
  cbn [app]. split; [apply grid_of_length|]. split; [apply grid_of_order | reflexivity].
Qed.

Lemma sensitivity_no_columns (self : LBOAnalysis) (base_case : ExitScenario)
    (revs : list Qc) :
  forall grid,
    for_each revs
      (fun rev_adj g =>
         for_each [] (sensitivity_body float_pow self base_case rev_adj) g)
      grid
    = Returned grid.
Proof.
  induction revs as [|r rs IH]; intro grid; [reflexivity|].
  rewrite for_each_cons. cbn [for_each bind]. apply IH.
Qed.

Lemma sensitivity_zero_equity_run (self : LBOAnalysis) (base_case : ExitScenario)
    (oy : OperatingYear) (revenue_sensitivity ebitda_sensitivity : list Qc) :
  sget (returns_analysis self) "10.0x"%string = Some base_case ->
  zget (operating_model self) 5%Z = Some oy ->
  sponsor_equity self = 0 ->
  sensitivity_analysis float_pow self revenue_sensitivity ebitda_sensitivity
  = match revenue_sensitivity, ebitda_sensitivity with
    | _ :: _, _ :: _ => Raised ZeroDivisionError
    | _, _ => Returned []
    end.
Proof.
  intros Hbase Hoy Hse.
  unfold sensitivity_analysis, dict_item. rewrite Hbase.
  assert (T : truthy (returns_analysis self) = true)
    by (destruct (returns_analysis self); [discriminate | reflexivity]).
  rewrite T. cbn [negb bind].
  destruct revenue_sensitivity as [|r rs]; [reflexivity|].
  destruct ebitda_sensitivity as [|e es].
  - apply sensitivity_no_columns.
  - rewrite for_each_cons, for_each_cons.
    unfold sensitivity_body at 1. unfold dict_item, py_div.
    rewrite Hoy, Hse. reflexivity.
Qed.

(** X16.  With a sponsor equity of 0 the sweep raises ZeroDivisionError as
    soon as there is one cell to compute, for any adjustment lists; with an
    empty list of either kind there is no cell and it returns an empty
    grid. *)
Theorem sensitivity_zero_equity (self : LBOAnalysis) (base_case : ExitScenario)
    (oy : OperatingYear) (revenue_sensitivity ebitda_sensitivity : list Qc) :
  sget (returns_analysis self) "10.0x"%string = Some base_case ->
  zget (operating_model self) 5%Z = Some oy ->
  sponsor_equity self = 0 ->
  sensitivity_analysis float_pow self revenue_sensitivity ebitda_sensitivity
  = match revenue_sensitivity, ebitda_sensitivity with
    | _ :: _, _ :: _ => Raised ZeroDivisionError
    | _, _ => Returned []
    end.
Proof. exact (sensitivity_zero_equity_run self base_case oy _ _). Qed.

(** X17.  The centre of the grid reproduces the base case: after an exit
    analysis at year 5 with the default multiples and a positive sponsor
    equity, the sweep cell with both adjustments at 0 has the MOIC and the
    IRR of the "10.0x" scenario. *)
Theorem centre_cell_is_base_case (self : LBOAnalysis)
    (oy : OperatingYear) (ys : sdict TrancheYear) :
  zget (operating_model self) 5%Z = Some oy ->
  zget (debt_schedule self) 5%Z = Some ys ->
  0 < sponsor_equity self ->
  exists results base_case row,
    exit_analysis float_pow self None 5
    = (Returned results, set_returns_analysis self results)
    /\ sget results "10.0x"%string = Some base_case
    /\ exit_multiple base_case = lit 10
    /\ sensitivity_analysis float_pow (set_returns_analysis self results)
         [lit 0] [lit 0] = Returned [row]
    /\ row_moic row = moic base_case
    /\ row_irr row = irr base_case.
Proof.
  intros Hoy Hys Hse.
  assert (Hy : 5%Z <> 0%Z) by discriminate.
  destruct (exit_analysis_records float_pow self None 5 oy ys Hoy Hys Hy)
    as (results & Hrun & Hloop & Hrec).
  destruct (scenario_loop_labels float_pow (sponsor_equity self) (ebitda oy)
              (remaining_debt_of ys) 5 default_exit_multiples Hy [])
    as (results' & Hloop' & _ & _ & Hlast).
  cbv zeta in Hloop. rewrite Hloop in Hloop'. injection Hloop' as <-.
  destruct (Hlast [lit 8; lit 9] (lit 10) [lit 11; lit 12] eq_refl)
    as (base_case & Hbase & Hm).
  { intros m' [<- | [<- | []]]; vm_compute; discriminate. }
  change (scenario_label (lit 10)) with "10.0x"%string in Hbase.
  destruct (Hrec _ _ Hbase) as (_ & Hev & Hrd & Heq & Hmoic & Hirr).
  assert (Hnz : sponsor_equity self <> 0).
  { intro Hz. rewrite Hz in Hse. revert Hse. vm_compute. discriminate. }
  exists results, base_case. eexists.
  split; [exact Hrun|]. split; [exact Hbase|]. split; [exact Hm|].
  split.
  { unfold sensitivity_analysis, dict_item.
    cbn [returns_analysis set_returns_analysis]. rewrite Hbase.
    assert (T : truthy results = true) by (destruct results; [discriminate | reflexivity]).
    rewrite T. cbn [negb bind].
    rewrite (sensitivity_outer float_pow (set_returns_analysis self results)
               base_case oy [lit 0] [lit 0] Hoy Hnz).
    reflexivity. }
  cbn [grid_of flat_map map app grid_cell row_moic row_irr
       sponsor_equity set_returns_analysis].
  assert (Hcell :
    py_max 0 (ebitda oy * (1 + lit 0) * (1 + lit 0) * lit 10 - remaining_debt base_case)
    / sponsor_equity self = moic base_case).
  { rewrite Hmoic. apply Qc_ltb_lt in Hse. rewrite Hse.
    rewrite Heq, Hev, Hm. f_equal. f_equal. f_equal.
    unfold lit. ring. }
  rewrite Hcell. split; [reflexivity|].
  rewrite Hirr. reflexivity.
Qed.
End SensitivityProperties.


(** ** The shape of the schedule *)

Section DictKeys.
Context {K V : Type}.
Variable eqb : K -> K -> bool.
Hypothesis eqb_eq : forall x y, eqb x y = true <-> x = y.

Lemma dict_set_keys_fresh (d : dict K V) (k : K) (v : V) :
  dict_get eqb d k = None ->
  dict_keys (dict_set eqb d k v) = dict_keys d ++ [k].
Proof.
  induction d as [|[k' v'] d IH]; simpl; intro H; [reflexivity|].
  destruct (eqb k k') eqn:E; [discriminate H|].
  simpl. f_equal. apply IH, H.
Qed.
End DictKeys.

Lemma tranche_loop_keys (l : sdict TrancheTerms) :
  forall s s',
    for_each l tranche_body s = Returned s' ->
    NoDup (dict_keys l) ->
    (forall n, In n (dict_keys l) -> sget (year_schedule s) n = None) ->
    dict_keys (year_schedule s') = dict_keys (year_schedule s) ++ dict_keys l.
Proof.
  induction l as [|[n0 t0] l IH]; intros s s' Hrun ND Hfresh.
  - inversion Hrun. cbn [dict_keys map]. rewrite app_nil_r. reflexivity.
  - rewrite for_each_cons in Hrun. unfold tranche_body at 1 in Hrun.
    unfold dict_item in Hrun.
    destruct (sget (debt_balances s) n0) as [b0|]; [|discriminate Hrun].
    cbn [bind] in Hrun.
    simpl in ND. inversion ND as [|? ? Hnot ND']; subst.
    rewrite (IH _ _ Hrun ND').
    + cbn [year_schedule].
      rewrite (dict_set_keys_fresh String.eqb)
        by (apply Hfresh; left; reflexivity).
      rewrite <- app_assoc. reflexivity.
    + intros n Hn. cbn [year_schedule].
      rewrite sget_set_other.
      * apply Hfresh. right. exact Hn.
      * intro; subst. contradiction.
Qed.

Lemma year_loop_keys (ds : sdict TrancheTerms) (om : zdict OperatingYear)
    (yrs : list Z) :
  forall st st',
    for_each yrs (schedule_year_body ds om) st = Returned st' ->
    (forall y, In y yrs -> zget (snd st) y = None) ->
    NoDup yrs ->
    dict_keys (snd st') = dict_keys (snd st) ++ yrs.
Proof.
  induction yrs as [|y yrs IH]; intros [bal sched] st' Hrun Hfresh ND.
  - inversion Hrun. cbn [snd]. rewrite app_nil_r. reflexivity.
  - rewrite for_each_cons in Hrun. unfold schedule_year_body at 1 in Hrun.
    destruct (zitem om y) as [oy| |e]; cbn [bind] in Hrun; try discriminate Hrun.
    destruct (sweep_year ds (free_cash_flow oy) bal) as [s1| |e];
      cbn [bind] in Hrun; try discriminate Hrun.
    inversion ND as [|? ? Hnot ND']; subst.
    rewrite (IH _ _ Hrun); cbn [snd].
    + rewrite (dict_set_keys_fresh Z.eqb)
        by (apply (Hfresh y); left; reflexivity).
      rewrite <- app_assoc. reflexivity.
    + intros y' Hy'.
      rewrite (dict_get_set_other Z.eqb Z.eqb_eq).
      * apply (Hfresh y'). right. exact Hy'.
      * intro; subst. contradiction.
    + exact ND'.
Qed.

(** X18.  The schedule holds exactly the years 1 to 5, in order, and every
    year holds exactly the tranches of the debt structure, each once, in the
    order of the structure. *)
Theorem schedule_shape (self : LBOAnalysis) :
  schedule_ready self ->
  exists schedule,
    model_debt_schedule self = (Returned schedule, set_debt_schedule self schedule)
    /\ dict_keys schedule = [1; 2; 3; 4; 5]%Z
    /\ forall y ys,
         zget schedule y = Some ys ->
         dict_keys ys = dict_keys (debt_structure self).
Proof.
  intro Hready. pose proof Hready as (ND & _ & _).
  destruct (schedule_facts self Hready) as (schedule & Hrun & Hyears).
  exists schedule. split; [exact Hrun|].
  assert (Hkeys : dict_keys schedule = [1; 2; 3; 4; 5]%Z).
  { pose proof Hrun as Hrun'. unfold model_debt_schedule in Hrun'.
    destruct (negb (truthy (debt_structure self))
              || negb (truthy (operating_model self))); [discriminate Hrun'|].
    destruct (for_each years
                (schedule_year_body (debt_structure self) (operating_model self))
                (initial_balances (debt_structure self), []))
      as [[bal sched]| |e] eqn:Hloop; try discriminate Hrun'.
    injection Hrun' as Hs _. subst sched.
    apply year_loop_keys in Hloop.
    - exact Hloop.
    - reflexivity.
    - unfold years. repeat constructor; simpl; intuition discriminate. }
  split; [exact Hkeys|].
  intros y ys Hys.
  assert (Hin : In y years).
  { unfold years. rewrite <- Hkeys.
    apply (dict_get_key Z.eqb Z.eqb_eq _ _ _ Hys). }
  destruct (Hyears y Hin) as (oy & s & bal & _ & Hsweep & Hs & _).
  rewrite Hs in Hys. injection Hys as <-.
  unfold sweep_year in Hsweep.
  apply tranche_loop_keys in Hsweep; [exact Hsweep | exact ND | reflexivity].
Qed.


(** ** The four tranches of [structure_debt] *)

Lemma structure_debt_items (self : LBOAnalysis) (a b r s : Qc) :
  dict_keys (fst (structure_debt self a b r s))
  = ["Term Loan A"; "Term Loan B"; "Revolver"; "Subordinated Debt"]%string
  /\ NoDup (dict_keys (fst (structure_debt self a b r s)))
  /\ debt_structure (snd (structure_debt self a b r s))
     = fst (structure_debt self a b r s).
Proof.
  split; [reflexivity|]. split; [|reflexivity].
  cbn. repeat constructor; simpl; intuition discriminate.
Qed.

Lemma lit_015_range : 0 <= lit 0.15 /\ lit 0.15 <= 1.
Proof. split; vm_compute; discriminate. Qed.

(** X19.  For a structure made by [structure_debt] with principals that
    are not negative, three of the four balance paths do not depend on the
    operating model at all.  Term Loan A begins year 1 at its principal and
    every later year at the ending balance of the year before; each year it
    pays 0.15 x beginning balance and nothing optional, and it ends at
    beginning balance - payment.  The Revolver and the Subordinated Debt
    pay nothing and stay at their principal. *)
Theorem structured_tranche_paths (self self0 : LBOAnalysis) (a b r s : Qc) :
  debt_structure self = fst (structure_debt self0 a b r s) ->
  (forall y, In y years -> zget (operating_model self) y <> None) ->
  0 <= a -> 0 <= r -> 0 <= s ->
  exists schedule,
    model_debt_schedule self = (Returned schedule, set_debt_schedule self schedule)
    /\ forall y, (1 <= y <= 5)%Z ->
         exists rA rR rS,
           schedule_row schedule y "Term Loan A" = Some rA
           /\ (y = 1%Z -> beginning_balance rA = a)
           /\ ((2 <= y)%Z ->
               exists r_prev,
                 schedule_row schedule (y - 1) "Term Loan A" = Some r_prev
                 /\ beginning_balance rA = ending_balance r_prev)
           /\ mandatory_payment rA = beginning_balance rA * lit 0.15
           /\ optional_payment rA = 0
           /\ total_payment rA = mandatory_payment rA
           /\ ending_balance rA = beginning_balance rA - mandatory_payment rA
           /\ schedule_row schedule y "Revolver" = Some rR
           /\ beginning_balance rR = r
           /\ mandatory_payment rR = 0 /\ optional_payment rR = 0
           /\ ending_balance rR = r
           /\ schedule_row schedule y "Subordinated Debt" = Some rS
           /\ beginning_balance rS = s
           /\ mandatory_payment rS = 0 /\ optional_payment rS = 0
           /\ ending_balance rS = s.
Proof.
  intros Hds Hom Ha Hr Hs.
  assert (Hready : schedule_ready self).
  { split; [|split; [|exact Hom]]; rewrite Hds.
    - apply structure_debt_items.
    - discriminate. }
  destruct (unswept_rows self Hready) as (schedule & Hrun & Hpath).
  destruct (flat_rows self Hready) as (schedule' & Hrun' & Hflat).
  rewrite Hrun in Hrun'. injection Hrun' as <-.
  exists schedule. split; [exact Hrun|].
  intros y Hy. rewrite Hds in Hpath, Hflat.
  destruct (Hpath "Term Loan A"%string _ (or_introl eq_refl)) with (y := y)
    as (rA & HrA & H1 & H2 & _ & HmA & HoA & HtA & HeA & _);
    try assumption; try discriminate; try apply lit_015_range.
  destruct (Hflat "Revolver"%string _ (or_intror (or_intror (or_introl eq_refl))))
    with (y := y) as (rR & HrR & HbR & HmR & HoR & _ & HeR);
    try assumption; try discriminate; try (apply Qc_is_canon; reflexivity).
  destruct (Hflat "Subordinated Debt"%string _
              (or_intror (or_intror (or_intror (or_introl eq_refl)))))
    with (y := y) as (rS & HrS & HbS & HmS & HoS & _ & HeS);
    try assumption; try discriminate; try (apply Qc_is_canon; reflexivity).
  cbn [amount amortization] in *.
  exists rA, rR, rS.
  repeat (split; [assumption|]). assumption.
Qed.

(** ** The whole sequence of calls *)

Section Pipeline.
Variable float_pow : Qc -> Qc -> Qc.

(** X20.  The calls of the example script, made in order on a new object
    with any deal figures, any principals and any non-empty growth list,
    all return: the projection, the schedule, and the exit analysis at
    year 5 with the default multiples, which holds a "10.0x" scenario.  The
    sensitivity sweep that follows returns its 9 rows when the sponsor
    equity is not 0 and raises ZeroDivisionError when it is 0. *)
Theorem script_sequence (name : string) (price equity a b r s : Qc)
    (base_revenue : Qc) (revenue_growth : list Qc)
    (ebitda_margin capex_rate nwc_rate tax_rate : Qc) :
  revenue_growth <> [] ->
  let lbo := snd (structure_debt (init name price equity) a b r s) in
  exists model schedule results,
    build_operating_model lbo base_revenue revenue_growth
      ebitda_margin capex_rate nwc_rate tax_rate
    = (Returned model, set_operating_model lbo model)
    /\ model_debt_schedule (set_operating_model lbo model)
       = (Returned schedule,
          set_debt_schedule (set_operating_model lbo model) schedule)
    /\ exit_analysis float_pow
         (set_debt_schedule (set_operating_model lbo model) schedule) None 5
       = (Returned results,
          set_returns_analysis
            (set_debt_schedule (set_operating_model lbo model) schedule) results)
    /\ sget results "10.0x"%string <> None
    /\ (equity <> 0 ->
        exists rows,
          sensitivity_analysis float_pow
            (set_returns_analysis
               (set_debt_schedule (set_operating_model lbo model) schedule) results)
            default_revenue_sensitivity default_ebitda_sensitivity
          = Returned rows
          /\ List.length rows = 9%nat)
    /\ (equity = 0 ->
        sensitivity_analysis float_pow
          (set_returns_analysis
             (set_debt_schedule (set_operating_model lbo model) schedule) results)
          default_revenue_sensitivity default_ebitda_sensitivity
        = Raised ZeroDivisionError).
Proof.
  intros Hg lbo.
  destruct (build_operating_model_run lbo base_revenue revenue_growth
              ebitda_margin capex_rate nwc_rate tax_rate Hg)
    as (model & Hbuild & Hmodel).
  set (lbo2 := set_operating_model lbo model).
  assert (Hready : schedule_ready lbo2).
  { split; [|split].
    - apply (structure_debt_items (init name price equity) a b r s).
    - discriminate.
    - intros y Hy. cbn [lbo2 operating_model set_operating_model].
      destruct (Hmodel y) as (oy & Hoy & _).
      { unfold years in Hy. simpl in Hy. lia. }
      rewrite Hoy. discriminate. }
  destruct (schedule_facts lbo2 Hready) as (schedule & Hsched & Hyears).
  set (lbo3 := set_debt_schedule lbo2 schedule).
  destruct (Hyears 5%Z) as (oy5 & s5 & _ & Hoy5 & _ & Hs5 & _);
    [apply years_range; lia|].
  assert (Hy : 5%Z <> 0%Z) by discriminate.
  destruct (exit_analysis_records float_pow lbo3 None 5 oy5 (year_schedule s5)
              Hoy5 Hs5 Hy) as (results & Hexit & Hloop & _).
  destruct (scenario_loop float_pow (sponsor_equity lbo3) (ebitda oy5)
              (remaining_debt_of (year_schedule s5)) 5 default_exit_multiples Hy [])
    as (results' & Hloop' & _ & Hkeys & _).
  cbv zeta in Hloop. rewrite Hloop in Hloop'. injection Hloop' as <-.
  assert (Hbase : sget results "10.0x"%string <> None).
  { apply (Hkeys (lit 10)). unfold default_exit_multiples. simpl. tauto. }
  exists model, schedule, results.
  split; [exact Hbuild|]. split; [exact Hsched|]. split; [exact Hexit|].
  split; [exact Hbase|].
  destruct (sget results "10.0x"%string) as [base_case|] eqn:Eb; [|contradiction].
  split.
  - intro Hne. eexists. split.
    + unfold sensitivity_analysis, dict_item.
      cbn [returns_analysis set_returns_analysis]. rewrite Eb.
      assert (T : truthy results = true)
        by (destruct results; [discriminate | reflexivity]).
      rewrite T. cbn [negb bind].
      rewrite (sensitivity_outer float_pow (set_returns_analysis lbo3 results)
                 base_case oy5 _ _ Hoy5 Hne).
      reflexivity.
    + reflexivity.
  - intro Hz.
    rewrite (sensitivity_zero_equity_run float_pow
               (set_returns_analysis lbo3 results) base_case oy5 _ _ Eb Hoy5 Hz).
    reflexivity.
Qed.
End Pipeline.


(** ** The figures *)

Lemma comprehension_returns {A B : Type} (f : A -> outcome B)
    (P : A -> B -> Prop) (xs : list A) :
  (forall x, In x xs -> exists y, f x = Returned y /\ P x y) ->
  exists ys, comprehension f xs = Returned ys /\ Forall2 P xs ys.
Proof.
  induction xs as [|x xs IH]; intro H.
  - exists []. split; [reflexivity | constructor].
  - destruct (H x (or_introl eq_refl)) as (y & Hy & HP).
    destruct IH as (ys & Hys & Hall); [intros x' Hx'; apply H; right; exact Hx'|].
    exists (y :: ys). split.
    + cbn [comprehension]. rewrite Hy. cbn [bind]. rewrite Hys. reflexivity.
    + constructor; assumption.
Qed.

Lemma comprehension_if_returns {A B : Type} (c : A -> outcome bool)
    (f : A -> outcome B) (xs : list A) :
  (forall x, In x xs -> exists b, c x = Returned b) ->
  (forall x, In x xs -> exists y, f x = Returned y) ->
  exists ys, comprehension_if c f xs = Returned ys.
Proof.
  induction xs as [|x xs IH]; intros Hc Hf.
  - exists []. reflexivity.
  - destruct (Hc x (or_introl eq_refl)) as (b & Hb).
    destruct (Hf x (or_introl eq_refl)) as (y & Hy).
    destruct IH as (ys & Hys).
    { intros x' Hx'. apply Hc. right. exact Hx'. }
    { intros x' Hx'. apply Hf. right. exact Hx'. }
    cbn [comprehension_if]. rewrite Hb. cbn [bind]. destruct b.
    + rewrite Hy. cbn [bind]. rewrite Hys. eexists. reflexivity.
    + rewrite Hys. eexists. reflexivity.
Qed.

Lemma for_each_append {A B : Type} (g : A -> outcome B) (P : A -> B -> Prop)
    (xs : list A) :
  (forall x, In x xs -> exists v, g x = Returned v /\ P x v) ->
  forall acc,
  exists vs,
    for_each xs (fun x acc => v <- g x ;; Returned (acc ++ [v])) acc
    = Returned (acc ++ vs)
    /\ Forall2 P xs vs.
Proof.
  induction xs as [|x xs IH]; intros H acc.
  - exists []. split; [rewrite app_nil_r; reflexivity | constructor].
  - destruct (H x (or_introl eq_refl)) as (v & Hv & HP).
    destruct (IH (fun x' Hx' => H x' (or_intror Hx')) (acc ++ [v]))
      as (vs & Hrun & Hall).
    exists (v :: vs). split.
    + rewrite for_each_cons, Hv. cbn [bind]. rewrite Hrun, <- app_assoc. reflexivity.
    + constructor; assumption.
Qed.

Lemma zitem_some {V : Type} (d : zdict V) (k : Z) (v : V) :
  zget d k = Some v -> zitem d k = Returned v.
Proof. intro H. unfold dict_item. rewrite H. reflexivity. Qed.

Lemma Forall2_length_eq {A B : Type} (R : A -> B -> Prop) (xs : list A) (ys : list B) :
  Forall2 R xs ys -> List.length ys = List.length xs.
Proof. intro H. induction H; simpl; congruence. Qed.

Lemma ending_balance_at_row (self : LBOAnalysis) (y : Z) (n : string) :
  schedule_row (debt_schedule self) y n <> None ->
  exists r,
    schedule_row (debt_schedule self) y n = Some r
    /\ ending_balance_at self y n = Returned (ending_balance r).
Proof.
  unfold schedule_row, ending_balance_at, dict_item. intro H.
  destruct (zget (debt_schedule self) y) as [ys|]; [|contradiction].
  cbn [bind]. destruct (sget ys n) as [r|]; [|contradiction].
  exists r. split; reflexivity.
Qed.

Lemma sget_of_key {V : Type} (d : sdict V) (n : string) :
  In n (dict_keys d) -> sget d n <> None.
Proof.
  induction d as [|[k v] d IH]; simpl; intro H; [contradiction|].
  destruct (String.eqb n k) eqn:E; [discriminate|].
  destruct H as [H | H]; [|apply IH, H].
  subst. rewrite String.eqb_refl in E. discriminate.
Qed.

(** The trace the debt figure shows for a tranche. *)
Lemma debt_trace_step (self : LBOAnalysis) (n : string) (traces : list DebtTrace) :
  figures_ready self ->
  In n figure_tranches ->
  exists terms balances,
    sget (debt_structure self) n = Some terms
    /\ Forall2 (fun y e => exists r, schedule_row (debt_schedule self) y n = Some r
                                     /\ e = ending_balance r) years balances
    /\ (terms' <- sitem (debt_structure self) n ;;
        if Qc_ltb 0 (amount terms')
        then
          balances' <-
            comprehension (fun year => ending_balance_at self year n) years ;;
          Returned (traces ++ [ {| trace_name := n; trace_years := years;
                                   trace_balances := balances' |} ])
        else Returned traces)
       = Returned
           (traces ++
            if Qc_ltb 0 (amount terms)
            then [ {| trace_name := n; trace_years := years;
                      trace_balances := balances |} ]
            else []).
Proof.
  intros (Hnames & _ & Hrows) Hn.
  destruct (sget (debt_structure self) n) as [terms|] eqn:Et;
    [|exfalso; exact (Hnames n Hn Et)].
  assert (Hkey : In n (dict_keys (debt_structure self)))
    by exact (sget_key _ _ _ Et).
  destruct (comprehension_returns (fun year => ending_balance_at self year n)
              (fun y e => exists r, schedule_row (debt_schedule self) y n = Some r
                                    /\ e = ending_balance r) years)
    as (balances & Hc & Hall).
  { intros y Hy. destruct (ending_balance_at_row self y n (Hrows y n Hy Hkey))
      as (r & Hr & Hr'). exists (ending_balance r). split; [exact Hr'|].
    exists r. split; [exact Hr | reflexivity]. }
  exists terms, balances. split; [reflexivity|]. split; [exact Hall|].
  unfold dict_item. rewrite Et. cbn [bind].
  destruct (Qc_ltb 0 (amount terms)).
  - rewrite Hc. reflexivity.
  - rewrite app_nil_r. reflexivity.
Qed.


Lemma debt_traces_returns (self : LBOAnalysis) :
  figures_ready self ->
  exists traces,
    debt_traces self = Returned traces
    /\ map trace_name traces
       = filter (fun n => match sget (debt_structure self) n with
                          | Some terms => Qc_ltb 0 (amount terms)
                          | None => false
                          end) figure_tranches
    /\ Forall (fun tr =>
                 trace_years tr = years
                 /\ Forall2 (fun y e =>
                               exists r,
                                 schedule_row (debt_schedule self) y (trace_name tr)
                                 = Some r
                                 /\ e = ending_balance r)
                            years (trace_balances tr)) traces.
Proof.
  intro Hready. unfold debt_traces, figure_tranches.
  destruct (debt_trace_step self "Term Loan A" [] Hready)
    as (tA & bA & EA & FA & SA); [simpl; tauto|].
  rewrite for_each_cons, SA. cbn [bind].
  destruct (debt_trace_step self "Term Loan B"
              ([] ++ if Qc_ltb 0 (amount tA)
                     then [ {| trace_name := "Term Loan A"; trace_years := years;
                               trace_balances := bA |} ] else []) Hready)
    as (tB & bB & EB & FB & SB); [simpl; tauto|].
  rewrite for_each_cons, SB. cbn [bind].
  match goal with
  | |- context [for_each _ _ ?acc] =>
      destruct (debt_trace_step self "Revolver" acc Hready)
        as (tR & bR & ER & FR & SR); [simpl; tauto|]
  end.
  rewrite for_each_cons, SR. cbn [bind].
  match goal with
  | |- context [for_each _ _ ?acc] =>
      destruct (debt_trace_step self "Subordinated Debt" acc Hready)
        as (tS & bS & ES & FS & SS); [simpl; tauto|]
  end.
  rewrite for_each_cons, SS. cbn [bind for_each].
  eexists. split; [reflexivity|].
  cbn [filter]. rewrite EA, EB, ER, ES.
  destruct (Qc_ltb 0 (amount tA)), (Qc_ltb 0 (amount tB)),
    (Qc_ltb 0 (amount tR)), (Qc_ltb 0 (amount tS));
    (split; [reflexivity|]);
    repeat (constructor; [split; [reflexivity | assumption]|]); constructor.
Qed.

Section HeatmapFacts.
Variable float_pow : Qc -> Qc -> Qc.

Lemma heatmap_balances_return (self : LBOAnalysis) (year : Z) :
  figures_ready self ->
  In year heatmap_years ->
  exists oy balances,
    zget (operating_model self) (Z.min year 5) = Some oy
    /\ comprehension_if
         (fun tranche =>
            terms <- sitem (debt_structure self) tranche ;;
            Returned (Qc_ltb 0 (amount terms)))
         (fun tranche => ending_balance_at self (Z.min year 5) tranche)
         (dict_keys (debt_structure self))
       = Returned balances.
Proof.
  intros (_ & Hom & Hrows) Hy.
  assert (Hmin : In (Z.min year 5) years).
  { unfold heatmap_years in Hy. simpl in Hy.
    destruct Hy as [<-|[<-|[<-|[<-|[<-|[]]]]]]; simpl; tauto. }
  destruct (zget (operating_model self) (Z.min year 5)) as [oy|] eqn:Eoy;
    [|exfalso; exact (Hom _ Hmin Eoy)].
  destruct (comprehension_if_returns
              (fun tranche =>
                 terms <- sitem (debt_structure self) tranche ;;
                 Returned (Qc_ltb 0 (amount terms)))
              (fun tranche => ending_balance_at self (Z.min year 5) tranche)
              (dict_keys (debt_structure self))) as (balances & Hb).
  { intros n Hn. unfold dict_item.
    destruct (sget (debt_structure self) n) as [t|] eqn:Et;
      [|exfalso; exact (sget_of_key _ _ Hn Et)].
    eexists. reflexivity. }
  { intros n Hn.
    destruct (ending_balance_at_row self _ n (Hrows _ n Hmin Hn)) as (r & _ & Hr).
    eexists. exact Hr. }
  exists oy, balances. split; [reflexivity | exact Hb].
Qed.

Lemma heatmap_cell_returns (self : LBOAnalysis) (year multiple : Z) :
  figures_ready self ->
  sponsor_equity self <> 0 ->
  In year heatmap_years ->
  exists irr_, heatmap_cell float_pow self year multiple = Returned irr_.
Proof.
  intros Hready Hse Hy.
  destruct (heatmap_balances_return self year Hready Hy) as (oy & balances & Hoy & Hb).
  unfold heatmap_cell. rewrite (zitem_some _ _ _ Hoy). cbn [bind].
  rewrite Hb. cbn [bind].
  unfold py_div at 1. rewrite (Qc_eqb_false _ _ Hse). cbn [bind].
  unfold irr_of, py_div. rewrite lit_year_nonzero.
  - destruct (Qc_ltb 0 _); eexists; reflexivity.
  - unfold heatmap_years in Hy. simpl in Hy. lia.
Qed.

Lemma irr_matrix_returns (self : LBOAnalysis) :
  figures_ready self ->
  sponsor_equity self <> 0 ->
  exists matrix,
    irr_matrix float_pow self = Returned matrix
    /\ List.length matrix = 5%nat
    /\ Forall (fun row => List.length row = 5%nat) matrix.
Proof.
  intros Hready Hse. unfold irr_matrix.
  destruct (for_each_append
              (fun year =>
                 for_each heatmap_multiples
                   (fun multiple row =>
                      irr_ <- heatmap_cell float_pow self year multiple ;;
                      Returned (row ++ [irr_])) [])
              (fun _ row => List.length row = 5%nat)
              heatmap_years) with (acc := @nil (list Qc))
    as (matrix & Hrun & Hall).
  { intros year Hy.
    destruct (for_each_append (heatmap_cell float_pow self year)
                (fun _ _ => True) heatmap_multiples)
      with (acc := @nil Qc) as (row & Hrow & Hcells).
    - intros m _.
      destruct (heatmap_cell_returns self year m Hready Hse Hy) as (v & Hv).
      exists v. split; [exact Hv | exact I].
    - exists row. split; [exact Hrow|].
      apply (Forall2_length_eq _ _ _ Hcells). }
  exists matrix. split; [exact Hrun|]. split.
  - apply (Forall2_length_eq _ _ _ Hall).
  - clear Hrun. induction Hall; constructor; assumption.
Qed.
End HeatmapFacts.


Lemma figures_ready_tables (self : LBOAnalysis) :
  figures_ready self ->
  truthy (debt_schedule self) = true /\ truthy (operating_model self) = true.
Proof.
  intros (Hnames & Hom & Hrows). split.
  - assert (Hkey : In "Term Loan A"%string (dict_keys (debt_structure self))).
    { destruct (sget (debt_structure self) "Term Loan A"%string) as [t|] eqn:E.
      - exact (sget_key _ _ _ E).
      - exfalso. apply (Hnames "Term Loan A"%string); [simpl; tauto | exact E]. }
    specialize (Hrows 1%Z _ (or_introl eq_refl) Hkey).
    unfold schedule_row in Hrows.
    destruct (debt_schedule self); [contradiction | reflexivity].
  - specialize (Hom 1%Z (or_introl eq_refl)).
    destruct (operating_model self); [contradiction | reflexivity].
Qed.

Section FigureProperties.
Variable float_pow : Qc -> Qc -> Qc.

(** X21.  Called after the schedule but before any exit analysis, the
    figure method never returns its figures: the debt figure is built, the
    heat map is skipped, and the return statement reads a variable that
    was never assigned (UnboundLocalError). *)
Theorem figures_need_exit_analysis (self : LBOAnalysis) :
  figures_ready self ->
  returns_analysis self = [] ->
  create_visualizations float_pow self = RaisedUnboundLocalError.
Proof.
  intros Hready Hra.
  destruct (figures_ready_tables self Hready) as [Ts Tm].
  destruct (debt_traces_returns self Hready) as (traces & Htr & _).
  unfold create_visualizations. rewrite Ts, Tm, Htr, Hra. reflexivity.
Qed.

(** X22.  With a returns analysis in place and a sponsor equity of 0 the
    figure method raises ZeroDivisionError on the first cell of the heat
    map: its MOIC division has no guard. *)
Theorem figures_zero_equity (self : LBOAnalysis) :
  figures_ready self ->
  returns_analysis self <> [] ->
  sponsor_equity self = 0 ->
  create_visualizations float_pow self = Finished (Raised ZeroDivisionError).
Proof.
  intros Hready Hra Hse.
  destruct (figures_ready_tables self Hready) as [Ts Tm].
  destruct (debt_traces_returns self Hready) as (traces & Htr & _).
  assert (Tr : truthy (returns_analysis self) = true)
    by (destruct (returns_analysis self); [contradiction | reflexivity]).
  destruct (heatmap_balances_return self 3 Hready) as (oy & balances & Hoy & Hb);
    [simpl; tauto|].
  unfold create_visualizations. rewrite Ts, Tm, Htr, Tr. cbn [negb orb].
  assert (Hm : irr_matrix float_pow self = Raised ZeroDivisionError).
  { unfold irr_matrix, heatmap_years, heatmap_multiples.
    rewrite for_each_cons, for_each_cons.
    unfold heatmap_cell at 1. rewrite (zitem_some _ _ _ Hoy). cbn [bind].
    rewrite Hb. cbn [bind]. unfold py_div at 1. rewrite Hse. reflexivity. }
  rewrite Hm. reflexivity.
Qed.

(** X23.  With a returns analysis in place and a sponsor equity other
    than 0 the figure method returns.  The debt figure has one trace for
    each of the four named tranches whose principal is positive, in that
    order, each plotting over the years 1 to 5 the ending balances of the
    schedule; the heat map is 5 by 5, exit years 3 to 7 by multiples 8 to
    12. *)
Theorem figures_returned (self : LBOAnalysis) :
  figures_ready self ->
  returns_analysis self <> [] ->
  sponsor_equity self <> 0 ->
  exists traces heatmap,
    create_visualizations float_pow self = Finished (Returned (traces, heatmap))
    /\ map trace_name traces
       = filter (fun n => match sget (debt_structure self) n with
                          | Some terms => Qc_ltb 0 (amount terms)
                          | None => false
                          end) figure_tranches
    /\ Forall (fun tr =>
                 trace_years tr = [1; 2; 3; 4; 5]%Z
                 /\ Forall2 (fun y e =>
                               exists r,
                                 schedule_row (debt_schedule self) y (trace_name tr)
                                 = Some r
                                 /\ e = ending_balance r)
                            [1; 2; 3; 4; 5]%Z (trace_balances tr)) traces
    /\ List.length (cells heatmap) = 5%nat
    /\ Forall (fun row => List.length row = 5%nat) (cells heatmap)
    /\ x_labels heatmap = ["8x"; "9x"; "10x"; "11x"; "12x"]%string
    /\ y_labels heatmap = ["Year 3"; "Year 4"; "Year 5"; "Year 6"; "Year 7"]%string.
Proof.
  intros Hready Hra Hse.
  destruct (figures_ready_tables self Hready) as [Ts Tm].
  destruct (debt_traces_returns self Hready) as (traces & Htr & Hnames & Htraces).
  destruct (irr_matrix_returns float_pow self Hready Hse)
    as (matrix & Hm & Hlen & Hrows).
  assert (Tr : truthy (returns_analysis self) = true)
    by (destruct (returns_analysis self); [contradiction | reflexivity]).
  do 2 eexists. split.
  { unfold create_visualizations. rewrite Ts, Tm, Htr, Tr, Hm. reflexivity. }
  cbn [cells x_labels y_labels].
  split; [exact Hnames|]. split; [exact Htraces|].
  split; [exact Hlen|]. split; [exact Hrows|]. split; reflexivity.
Qed.
End FigureProperties.

(** ** The export *)

Lemma replace_spaces_length (s : string) :
  String.length (replace_spaces s) = String.length s.
Proof. induction s as [|c s IH]; simpl; [reflexivity | rewrite IH; reflexivity]. Qed.

Lemma replace_spaces_clean (s : string) :
  ~ In " "%char (list_ascii_of_string (replace_spaces s)).
Proof.
  induction s as [|c s IH]; simpl; [tauto|].
  intros [H | H]; [|exact (IH H)].
  destruct (Ascii.eqb c " ") eqn:E.
  - discriminate H.
  - subst c. rewrite Ascii.eqb_refl in E. discriminate E.
Qed.

Lemma replace_spaces_fixed (s : string) :
  ~ In " "%char (list_ascii_of_string s) -> replace_spaces s = s.
Proof.
  induction s as [|c s IH]; simpl; intro H; [reflexivity|].
  destruct (Ascii.eqb c " ") eqn:E.
  - apply Ascii.eqb_eq in E. subst c. exfalso. apply H. left. reflexivity.
  - rewrite IH; [reflexivity|]. intro Hin. apply H. right. exact Hin.
Qed.

Lemma list_ascii_of_string_app (a b : string) :
  list_ascii_of_string (a ++ b) = list_ascii_of_string a ++ list_ascii_of_string b.
Proof. induction a as [|c a IH]; simpl; [reflexivity | rewrite IH; reflexivity]. Qed.

Lemma string_length_app (a b : string) :
  String.length (a ++ b) = (String.length a + String.length b)%nat.
Proof. induction a as [|c a IH]; simpl; [reflexivity | rewrite IH; reflexivity]. Qed.

Lemma export_file_name (self : LBOAnalysis) (filename : option string) :
  fst (fst (export_to_excel self filename))
  = match filename with
    | None => (replace_spaces (company_name self) ++ "_LBO_Model.xlsx")%string
    | Some f => f
    end.
Proof.
  unfold export_to_excel.
  destruct (py_div (total_debt self) (sponsor_equity self)); try reflexivity.
  destruct (truthy (debt_schedule self)).
  - destruct (write_schedule_sheets _ _ _) as [w [u| |e]];
      try reflexivity; destruct (truthy (returns_analysis self)); reflexivity.
  - destruct (truthy (returns_analysis self)); reflexivity.
Qed.

(** X24.  The default file name is the company name with every space
    replaced by an underscore, followed by "_LBO_Model.xlsx": it contains no
    space and is 15 characters longer than the company name; a company name
    without spaces is used unchanged; a file name given by the caller is
    used as it is. *)
Theorem export_default_file_name (self : LBOAnalysis) :
  let file := fst (fst (export_to_excel self None)) in
  file = (replace_spaces (company_name self) ++ "_LBO_Model.xlsx")%string
  /\ ~ In " "%char (list_ascii_of_string file)
  /\ String.length file = (String.length (company_name self) + 15)%nat
  /\ (~ In " "%char (list_ascii_of_string (company_name self)) ->
      file = (company_name self ++ "_LBO_Model.xlsx")%string)
  /\ forall f, fst (fst (export_to_excel self (Some f))) = f.
Proof.
  cbv zeta. rewrite export_file_name.
  split; [reflexivity|]. split; [|split; [|split]].
  - rewrite list_ascii_of_string_app. intro H. apply in_app_or in H.
    destruct H as [H | H].
    + exact (replace_spaces_clean _ H).
    + simpl in H. intuition discriminate.
  - rewrite string_length_app, replace_spaces_length. reflexivity.
  - intro H. rewrite (replace_spaces_fixed _ H). reflexivity.
  - intro f. apply export_file_name.
Qed.

Lemma write_schedule_sheets_all (schedule : zdict (sdict TrancheYear))
    (written : list Sheet) :
  (forall y, In y years -> zget schedule y <> None) ->
  exists sheets,
    write_schedule_sheets schedule years written = (written ++ sheets, Returned tt)
    /\ map sheet_name sheets
       = ["Debt Schedule Y1"; "Debt Schedule Y2"; "Debt Schedule Y3";
          "Debt Schedule Y4"; "Debt Schedule Y5"]%string
    /\ Forall2 (fun y s => exists ys, zget schedule y = Some ys
                                      /\ s = DebtScheduleSheet y ys) years sheets.
Proof.
  intro H. unfold years in *.
  destruct (zget schedule 1%Z) as [s1|] eqn:E1; [|exfalso; apply (H 1%Z); simpl; tauto].
  destruct (zget schedule 2%Z) as [s2|] eqn:E2; [|exfalso; apply (H 2%Z); simpl; tauto].
  destruct (zget schedule 3%Z) as [s3|] eqn:E3; [|exfalso; apply (H 3%Z); simpl; tauto].
  destruct (zget schedule 4%Z) as [s4|] eqn:E4; [|exfalso; apply (H 4%Z); simpl; tauto].
  destruct (zget schedule 5%Z) as [s5|] eqn:E5; [|exfalso; apply (H 5%Z); simpl; tauto].
  exists [DebtScheduleSheet 1%Z s1; DebtScheduleSheet 2%Z s2; DebtScheduleSheet 3%Z s3;
          DebtScheduleSheet 4%Z s4; DebtScheduleSheet 5%Z s5].
  split.
  - cbn [write_schedule_sheets]. rewrite E1, E2, E3, E4, E5.
    rewrite <- !app_assoc. reflexivity.
  - split; [reflexivity|].
    repeat (constructor; [eexists; split; [eassumption | reflexivity]|]). constructor.
Qed.

(** X25.  With a sponsor equity other than 0 and a debt schedule that is
    empty or holds the five years, the export ends normally.  The first
    sheet is the transaction summary with purchase price, sponsor equity,
    total debt and their debt/equity ratio; then come, each only when its
    table is not empty and in this order, the operating model, one sheet per
    schedule year 1 to 5, and the returns analysis. *)
Theorem export_sheets (self : LBOAnalysis) (filename : option string) :
  sponsor_equity self <> 0 ->
  debt_schedule self = []
  \/ (forall y, In y years -> zget (debt_schedule self) y <> None) ->
  exists rest,
    snd (export_to_excel self filename) = Returned tt
    /\ snd (fst (export_to_excel self filename))
       = TransactionSummary
           [purchase_price self; sponsor_equity self; total_debt self;
            total_debt self / sponsor_equity self] :: rest
    /\ map sheet_name rest
       = (if truthy (operating_model self) then ["Operating Model"%string] else [])
         ++ (if truthy (debt_schedule self)
             then ["Debt Schedule Y1"%string; "Debt Schedule Y2"%string;
                   "Debt Schedule Y3"%string; "Debt Schedule Y4"%string;
                   "Debt Schedule Y5"%string]
             else [])
         ++ (if truthy (returns_analysis self) then ["Returns Analysis"%string] else []).
Proof.
  intros Hse Hsched. unfold export_to_excel, py_div.
  rewrite (Qc_eqb_false _ _ Hse).
  destruct (truthy (debt_schedule self)) eqn:Ts.
  - destruct Hsched as [Hnil | Hall]; [rewrite Hnil in Ts; discriminate Ts|].
    match goal with
    | |- context [write_schedule_sheets _ _ ?w] =>
        destruct (write_schedule_sheets_all (debt_schedule self) w Hall)
          as (sheets & Hw & Hnames & _)
    end.
    rewrite Hw.
    destruct (truthy (operating_model self)), (truthy (returns_analysis self));
      cbn [fst snd app]; eexists; (split; [reflexivity|]); (split; [reflexivity|]);
      cbn [map sheet_name]; rewrite ?map_app, ?Hnames; reflexivity.
  - destruct (truthy (operating_model self)), (truthy (returns_analysis self));
      cbn [fst snd app]; eexists; (split; [reflexivity|]); (split; [reflexivity|]);
      reflexivity.
Qed.

(** X26.  With a sponsor equity of 0 the export raises ZeroDivisionError
    while building the summary (the debt/equity ratio has no guard): no
    sheet reaches the writer, whatever the engine has computed. *)
Theorem export_zero_equity (self : LBOAnalysis) (filename : option string) :
  sponsor_equity self = 0 ->
  snd (export_to_excel self filename) = Raised ZeroDivisionError
  /\ snd (fst (export_to_excel self filename)) = [].
Proof.
  intro Hse. unfold export_to_excel, py_div. rewrite Hse.
  split; reflexivity.
Qed.


(** ** The heat map against the exit analysis *)

Lemma tranche_row_zero (n : string) (t : TrancheTerms) (cash : Qc) :
  ending_balance (tranche_row n t cash 0) = 0.
Proof.
  destruct (tranche_row_facts n t cash 0) as (_ & Hm & Ho1 & Ho2 & Ht & He & _).
  assert (Hm0 : mandatory_payment (tranche_row n t cash 0) = 0).
  { cbn [tranche_row mandatory_payment]. rewrite Qcmult_0_l. reflexivity. }
  rewrite He, Ht, Hm0 in *. clear - Ho1 Ho2. qc_lra.
Qed.

(** A tranche without principal has a balance of 0 in every year. *)
Lemma zero_principal_rows (self : LBOAnalysis) :
  schedule_ready self ->
  exists schedule,
    model_debt_schedule self = (Returned schedule, set_debt_schedule self schedule)
    /\ forall n t, In (n, t) (debt_structure self) -> amount t = 0 ->
       forall y, (1 <= y <= 5)%Z ->
         exists r, schedule_row schedule y n = Some r /\ ending_balance r = 0.
Proof.
  intro Hready.
  destruct (schedule_rows self Hready) as (schedule & Hrun & Hyears).
  exists schedule. split; [exact Hrun|].
  intros n t HI Hzero.
  destruct (in_split_item _ _ _ HI) as (pre & post & E).
  assert (Hall : forall k, (k <= 4)%nat ->
            exists r, schedule_row schedule (Z.of_nat k + 1) n = Some r
                      /\ ending_balance r = 0).
  { induction k as [|k IH]; intro Hk.
    - destruct (Hyears 1%Z) as (oy & ys & _ & Hys & Hrows); [lia|].
      destruct (Hrows pre n t post E) as (b & Hr & Hfirst & _).
      rewrite (Hfirst eq_refl), Hzero in Hr.
      eexists. unfold schedule_row. cbn [Z.of_nat Z.add]. rewrite Hys.
      split; [exact Hr | apply tranche_row_zero].
    - destruct IH as (r0 & Hr0 & He0); [lia|].
      destruct (Hyears (Z.of_nat (S k) + 1)%Z) as (oy & ys & _ & Hys & Hrows); [lia|].
      destruct (Hrows pre n t post E) as (b & Hr & _ & Hlater).
      destruct Hlater as (r_prev & Hprev & Hb); [lia|].
      replace (Z.of_nat (S k) + 1 - 1)%Z with (Z.of_nat k + 1)%Z in Hprev by lia.
      rewrite Hr0 in Hprev. inversion Hprev; subst r_prev. clear Hprev.
      rewrite He0 in Hb. rewrite Hb in Hr.
      eexists. unfold schedule_row. rewrite Hys.
      split; [exact Hr | apply tranche_row_zero]. }
  intros y Hy.
  destruct (Hall (Z.to_nat (y - 1))) as (r & Hr & He); [lia|].
  replace (Z.of_nat (Z.to_nat (y - 1)) + 1)%Z with y in Hr by lia.
  exists r. split; assumption.
Qed.

(** Leaving zeros out of a sum does not change it. *)
Lemma fold_sum_skip_zeros (l : list (bool * Qc)) :
  (forall k e, In (k, e) l -> k = false -> e = 0) ->
  forall acc,
    fold_left Qcplus (map snd (filter fst l)) acc
    = fold_left Qcplus (map snd l) acc.
Proof.
  induction l as [|[k e] l IH]; intros H acc; [reflexivity|].
  cbn [filter fst map snd fold_left].
  destruct k.
  - cbn [map snd fold_left]. apply IH. intros k' e' Hin. apply H. right. exact Hin.
  - rewrite (H false e (or_introl eq_refl) eq_refl), Qcplus_0_r.
    apply IH. intros k' e' Hin. apply H. right. exact Hin.
Qed.

(** The filtered comprehension, when the condition and the element are
    given by tables. *)
Lemma comprehension_if_table {A : Type} (c : A -> outcome bool)
    (f : A -> outcome Qc) (keep : A -> bool) (val : A -> Qc) (xs : list A) :
  (forall x, In x xs -> c x = Returned (keep x)) ->
  (forall x, In x xs -> f x = Returned (val x)) ->
  comprehension_if c f xs
  = Returned (map snd (filter fst (map (fun x => (keep x, val x)) xs))).
Proof.
  induction xs as [|x xs IH]; intros Hc Hf; [reflexivity|].
  cbn [comprehension_if map filter].
  rewrite (Hc x (or_introl eq_refl)). cbn [bind fst].
  rewrite IH;
    [| intros x' Hx'; apply Hc; right; exact Hx'
     | intros x' Hx'; apply Hf; right; exact Hx'].
  destruct (keep x).
  - rewrite (Hf x (or_introl eq_refl)). reflexivity.
  - reflexivity.
Qed.

Lemma dict_values_by_key {V : Type} (d : sdict V) (default : V) :
  NoDup (dict_keys d) ->
  map (fun n => match sget d n with Some v => v | None => default end) (dict_keys d)
  = dict_values d.
Proof.
  unfold dict_keys, dict_values.
  induction d as [|[k v] d IH]; intro ND; [reflexivity|].
  simpl in ND. inversion ND as [|? ? Hnot ND']; subst.
  cbn [map fst snd dict_get]. rewrite String.eqb_refl.
  f_equal. rewrite <- (IH ND'). apply map_ext_in.
  intros n Hn. destruct (String.eqb n k) eqn:E; [|reflexivity].
  apply String.eqb_eq in E. subst. contradiction.
Qed.


Section HeatmapAgainstExit.
Variable float_pow : Qc -> Qc -> Qc.

(** The remaining debt the heat map computes for exit year 5 (and later):
    the tranches with a positive principal only. *)
Lemma heatmap_debt_year5 (self : LBOAnalysis) (schedule : zdict (sdict TrancheYear))
    (ys : sdict TrancheYear) (dsched : zdict (sdict TrancheYear)) :
  NoDup (dict_keys (debt_structure self)) ->
  (forall t, In t (dict_values (debt_structure self)) -> 0 <= amount t) ->
  debt_schedule self = schedule ->
  zget schedule 5%Z = Some ys ->
  dict_keys ys = dict_keys (debt_structure self) ->
  (forall n t, In (n, t) (debt_structure self) -> amount t = 0 ->
     exists r, sget ys n = Some r /\ ending_balance r = 0) ->
  exists balances,
    comprehension_if
      (fun tranche =>
         terms <- sitem (debt_structure self) tranche ;;
         Returned (Qc_ltb 0 (amount terms)))
      (fun tranche => ending_balance_at self 5 tranche)
      (dict_keys (debt_structure self))
    = Returned balances
    /\ py_sum balances = remaining_debt_of ys.
Proof.
  intros ND Hpos Hsched Hys Hkeys Hzero.
  set (keep := fun n => match sget (debt_structure self) n with
                        | Some t => Qc_ltb 0 (amount t)
                        | None => false
                        end).
  set (val := fun n => match sget ys n with
                       | Some r => ending_balance r
                       | None => 0
                       end).
  eexists. split.
  - apply (comprehension_if_table _ _ keep val).
    + intros n Hn. unfold dict_item, keep.
      destruct (sget (debt_structure self) n) eqn:E;
        [reflexivity | exfalso; exact (sget_of_key _ _ Hn E)].
    + intros n Hn. unfold ending_balance_at, dict_item, val.
      rewrite Hsched, Hys. cbn [bind].
      destruct (sget ys n) eqn:E; [reflexivity|].
      exfalso. rewrite <- Hkeys in Hn. exact (sget_of_key _ _ Hn E).
  - unfold py_sum. rewrite fold_sum_skip_zeros.
    + rewrite map_map. cbn [snd].
      rewrite remaining_debt_of_sum. unfold py_sum. f_equal.
      rewrite <- (dict_values_by_key ys
                    {| beginning_balance := 0; mandatory_payment := 0;
                       optional_payment := 0; total_payment := 0;
                       interest_payment := 0; ending_balance := 0 |})
        by (rewrite Hkeys; exact ND).
      rewrite map_map, Hkeys. apply map_ext.
      intro n. unfold val. destruct (sget ys n); reflexivity.
    + intros k e Hin Hk. apply in_map_iff in Hin.
      destruct Hin as (n & Heq & Hn). injection Heq as Hkeep Hval. subst k e.
      unfold keep in Hk.
      destruct (in_keys_split _ _ Hn) as (pre & t & post & E).
      assert (HI : In (n, t) (debt_structure self)).
      { rewrite E. apply in_or_app. right. left. reflexivity. }
      rewrite (sget_in _ _ _ ND HI) in Hk.
      assert (Hz : amount t = 0).
      { apply Qc_ltb_ge in Hk. apply Qcle_antisym; [exact Hk|].
        apply Hpos. unfold dict_values. change t with (snd (n, t)).
        apply in_map. exact HI. }
      destruct (Hzero n t HI Hz) as (r & Hr & He).
      unfold val. rewrite Hr. exact He.
Qed.

(** X27.  With principals that are not negative and a positive sponsor
    equity, the heat map agrees with the exit analysis: its cell for exit
    year 5 and multiple m is the IRR of the scenario the exit analysis at
    year 5 stores for the multiple m (the tranches the heat map leaves out
    of the remaining debt have a balance of 0). *)
Theorem heatmap_agrees_with_exit_analysis (self : LBOAnalysis) :
  schedule_ready self ->
  (forall t, In t (dict_values (debt_structure self)) -> 0 <= amount t) ->
  0 < sponsor_equity self ->
  exists schedule results,
    model_debt_schedule self = (Returned schedule, set_debt_schedule self schedule)
    /\ exit_analysis float_pow (set_debt_schedule self schedule) None 5
       = (Returned results,
          set_returns_analysis (set_debt_schedule self schedule) results)
    /\ forall m, In m heatmap_multiples ->
         exists rec,
           sget results (scenario_label (lit (inject_Z m))) = Some rec
           /\ exit_multiple rec = lit (inject_Z m)
           /\ heatmap_cell float_pow
                (set_returns_analysis (set_debt_schedule self schedule) results)
                5 m
              = Returned (irr rec).
Proof.
  intros Hready Hpos Hse. pose proof Hready as (ND & _ & _).
  destruct (schedule_facts self Hready) as (schedule & Hrun & Hyears).
  destruct (zero_principal_rows self Hready) as (schedule' & Hrun' & Hzero).
  rewrite Hrun in Hrun'. injection Hrun' as <-.
  destruct (Hyears 5%Z) as (oy & s5 & bal & Hoy & Hsweep & Hs5 & _);
    [apply years_range; lia|].
  assert (Hkeys : dict_keys (year_schedule s5) = dict_keys (debt_structure self)).
  { unfold sweep_year in Hsweep.
    apply tranche_loop_keys in Hsweep; [exact Hsweep | exact ND | reflexivity]. }
  set (lbo3 := set_debt_schedule self schedule).
  assert (Hy : 5%Z <> 0%Z) by discriminate.
  destruct (exit_analysis_records float_pow lbo3 None 5 oy (year_schedule s5)
              Hoy Hs5 Hy) as (results & Hexit & Hloop & Hrec).
  destruct (scenario_loop_labels float_pow (sponsor_equity lbo3) (ebitda oy)
              (remaining_debt_of (year_schedule s5)) 5 default_exit_multiples Hy [])
    as (results' & Hloop' & _ & _ & Hlast).
  cbv zeta in Hloop. rewrite Hloop in Hloop'. injection Hloop' as <-.
  set (lbo4 := set_returns_analysis lbo3 results).
  destruct (heatmap_debt_year5 lbo4 schedule (year_schedule s5) schedule)
    as (balances & Hbal & Hsum); try assumption; try reflexivity.
  { intros n t HI Hz. destruct (Hzero n t HI Hz 5%Z) as (r & Hr & He); [lia|].
    unfold schedule_row in Hr. rewrite Hs5 in Hr. exists r. split; assumption. }
  exists schedule, results. split; [exact Hrun|]. split; [exact Hexit|].
  assert (Hnz : sponsor_equity self <> 0).
  { intro Hz. rewrite Hz in Hse. revert Hse. vm_compute. discriminate. }
  assert (Hcell : forall m rec,
            sget results (scenario_label (lit (inject_Z m))) = Some rec ->
            exit_multiple rec = lit (inject_Z m) ->
            heatmap_cell float_pow lbo4 5 m = Returned (irr rec)).
  { intros m rec Hget Hm.
    destruct (Hrec _ _ Hget) as (_ & Hev & Hrd & Heq & Hmoic & Hirr).
    unfold heatmap_cell. change (Z.min 5 5) with 5%Z.
    rewrite (zitem_some (operating_model lbo4) 5 oy Hoy). cbn [bind].
    rewrite Hbal. cbn [bind]. rewrite Hsum. unfold py_div at 1.
    cbn [lbo4 lbo3 sponsor_equity set_returns_analysis set_debt_schedule].
    rewrite (Qc_eqb_false _ _ Hnz). cbn [bind].
    assert (Hmo : py_max 0 (ebitda oy * lit (inject_Z m)
                            - remaining_debt_of (year_schedule s5))
                  / sponsor_equity self = moic rec).
    { rewrite Hmoic. cbn [lbo3 sponsor_equity set_debt_schedule].
      pose proof Hse as Hb. apply Qc_ltb_lt in Hb. rewrite Hb.
      rewrite Heq, Hev, Hrd, Hm. reflexivity. }
    rewrite Hmo, Hirr. unfold irr_of, py_div.
    change (Qc_eqb (lit (inject_Z 5)) 0) with false.
    destruct (Qc_ltb 0 (moic rec)); reflexivity. }
  intros m Hm. unfold heatmap_multiples in Hm. simpl in Hm.
  destruct Hm as [<-|[<-|[<-|[<-|[<-|[]]]]]].
  - destruct (Hlast [] (lit 8) [lit 9; lit 10; lit 11; lit 12] eq_refl)
      as (rec & Hget & Hmul).
    { intros m' Hin. simpl in Hin.
      repeat (destruct Hin as [<-|Hin]; [vm_compute; discriminate|]). contradiction. }
    exists rec. split; [exact Hget|]. split; [exact Hmul|].
    apply Hcell; assumption.
  - destruct (Hlast [lit 8] (lit 9) [lit 10; lit 11; lit 12] eq_refl)
      as (rec & Hget & Hmul).
    { intros m' Hin. simpl in Hin.
      repeat (destruct Hin as [<-|Hin]; [vm_compute; discriminate|]). contradiction. }
    exists rec. split; [exact Hget|]. split; [exact Hmul|].
    apply Hcell; assumption.
  - destruct (Hlast [lit 8; lit 9] (lit 10) [lit 11; lit 12] eq_refl)
      as (rec & Hget & Hmul).
    { intros m' Hin. simpl in Hin.
      repeat (destruct Hin as [<-|Hin]; [vm_compute; discriminate|]). contradiction. }
    exists rec. split; [exact Hget|]. split; [exact Hmul|].
    apply Hcell; assumption.
  - destruct (Hlast [lit 8; lit 9; lit 10] (lit 11) [lit 12] eq_refl)
      as (rec & Hget & Hmul).
    { intros m' Hin. simpl in Hin.
      repeat (destruct Hin as [<-|Hin]; [vm_compute; discriminate|]). contradiction. }
    exists rec. split; [exact Hget|]. split; [exact Hmul|].
    apply Hcell; assumption.
  - destruct (Hlast [lit 8; lit 9; lit 10; lit 11] (lit 12) [] eq_refl)
      as (rec & Hget & Hmul).
    { intros m' Hin. contradiction. }
    exists rec. split; [exact Hget|]. split; [exact Hmul|].
    apply Hcell; assumption.
Qed.
End HeatmapAgainstExit.


(* ================================================================== *)
(** * The further properties on the example run *)

Ltac figures_example_ready :=
  split;
    [ intros n Hn; unfold figure_tranches in Hn; simpl In in Hn;
      repeat (destruct Hn as [<-|Hn]; [vm_compute; discriminate|]); contradiction
    | split;
      [ intros y Hy; unfold years in Hy; simpl In in Hy;
        repeat (destruct Hy as [<-|Hy]; [vm_compute; discriminate|]); contradiction
      | intros y n Hy Hn; unfold years in Hy; simpl In in Hy; vm_compute in Hn;
        repeat (destruct Hy as [<-|Hy];
                [ repeat (destruct Hn as [<-|Hn]; [vm_compute; discriminate|]);
                  contradiction |]);
        contradiction ] ].

(** The example projection. *)
Lemma revenue_path_witness :
  let self := (demo_structured (lit 150)) in
  let base_revenue := (lit 200) in
  let revenue_growth := demo_growth in
  let ebitda_margin := (lit 0.25) in
  let capex_rate := default_capex_rate in
  let nwc_rate := default_nwc_rate in
  let tax_rate := default_tax_rate in
  (revenue_growth <> [])
  /\ (exists model,
    build_operating_model self base_revenue revenue_growth
      ebitda_margin capex_rate nwc_rate tax_rate
    = (Returned model, set_operating_model self model)
    /\ dict_keys model = [1; 2; 3; 4; 5]%Z
    /\ (exists oy1,
          zget model 1%Z = Some oy1
          /\ revenue oy1 = base_revenue
          /\ nwc_change oy1 = 0)
    /\ forall N, (2 <= N <= 5)%Z ->
         exists prev oy,
           zget model (N - 1)%Z = Some prev
           /\ zget model N = Some oy
           /\ revenue oy
              = revenue prev * (1 + growth_used revenue_growth (Z.to_nat (N - 2)))
           /\ nwc_change oy = (revenue oy - revenue prev) * nwc_rate).
Proof.
  intros self base_revenue revenue_growth ebitda_margin capex_rate nwc_rate tax_rate.
  assert (W1 : revenue_growth <> []).
  { vm_compute; discriminate. }
  split; [exact W1|].
  exact (revenue_path self base_revenue revenue_growth ebitda_margin capex_rate nwc_rate tax_rate W1).
Defined.

(** A growth list of two rates. *)
Lemma growth_list_normal_form_witness :
  let self := (demo_structured (lit 150)) in
  let base_revenue := (lit 200) in
  let revenue_growth := [lit 0.08; lit 0.07] in
  let ebitda_margin := (lit 0.25) in
  let capex_rate := default_capex_rate in
  let nwc_rate := default_nwc_rate in
  let tax_rate := default_tax_rate in
  (revenue_growth <> [])
  /\ (build_operating_model self base_revenue revenue_growth
    ebitda_margin capex_rate nwc_rate tax_rate
  = build_operating_model self base_revenue
      (map (growth_used revenue_growth) [0; 1; 2; 3]%nat)
      ebitda_margin capex_rate nwc_rate tax_rate).
Proof.
  intros self base_revenue revenue_growth ebitda_margin capex_rate nwc_rate tax_rate.
  assert (W1 : revenue_growth <> []).
  { vm_compute; discriminate. }
  split; [exact W1|].
  exact (growth_list_normal_form self base_revenue revenue_growth ebitda_margin capex_rate nwc_rate tax_rate W1).
Defined.

(** The example projection. *)
Lemma taxes_never_negative_witness :
  let self := (demo_structured (lit 150)) in
  let base_revenue := (lit 200) in
  let revenue_growth := demo_growth in
  let ebitda_margin := (lit 0.25) in
  let capex_rate := default_capex_rate in
  let nwc_rate := default_nwc_rate in
  let tax_rate := default_tax_rate in
  (revenue_growth <> [])
  /\ (exists model,
    build_operating_model self base_revenue revenue_growth
      ebitda_margin capex_rate nwc_rate tax_rate
    = (Returned model, set_operating_model self model)
    /\ forall N, (1 <= N <= 5)%Z ->
         exists oy,
           zget model N = Some oy
           /\ 0 <= taxes oy
           /\ net_income oy <= ebt oy
           /\ (0 <= tax_rate -> ebt oy <= 0 ->
               taxes oy = 0 /\ net_income oy = ebt oy)
           /\ (0 <= tax_rate -> 0 <= ebt oy ->
               taxes oy = ebt oy * tax_rate)).
Proof.
  intros self base_revenue revenue_growth ebitda_margin capex_rate nwc_rate tax_rate.
  assert (W1 : revenue_growth <> []).
  { vm_compute; discriminate. }
  split; [exact W1|].
  exact (taxes_never_negative self base_revenue revenue_growth ebitda_margin capex_rate nwc_rate tax_rate W1).
Defined.

(** The example projection. *)
Lemma interest_never_rises_witness :
  let self := (demo_structured (lit 150)) in
  let base_revenue := (lit 200) in
  let revenue_growth := demo_growth in
  let ebitda_margin := (lit 0.25) in
  let capex_rate := default_capex_rate in
  let nwc_rate := default_nwc_rate in
  let tax_rate := default_tax_rate in
  (revenue_growth <> [])
  /\ ((forall t, In t (dict_values (debt_structure self)) ->
             0 <= amount t /\ 0 <= rate t))
  /\ (exists model,
    build_operating_model self base_revenue revenue_growth
      ebitda_margin capex_rate nwc_rate tax_rate
    = (Returned model, set_operating_model self model)
    /\ (forall N, (1 <= N <= 5)%Z ->
          exists oy, zget model N = Some oy /\ 0 <= interest_expense oy)
    /\ (forall N, (1 <= N <= 4)%Z ->
          exists oy oy',
            zget model N = Some oy
            /\ zget model (N + 1)%Z = Some oy'
            /\ interest_expense oy' <= interest_expense oy)
    /\ (debt_structure self = [] \/ total_principal (debt_structure self) <= 0 ->
        forall N, (1 <= N <= 5)%Z ->
          exists oy, zget model N = Some oy /\ interest_expense oy = 0)).
Proof.
  intros self base_revenue revenue_growth ebitda_margin capex_rate nwc_rate tax_rate.
  assert (W1 : revenue_growth <> []).
  { vm_compute; discriminate. }
  assert (W2 : (forall t, In t (dict_values (debt_structure self)) ->
             0 <= amount t /\ 0 <= rate t)).
  { intros t Ht; vm_compute in Ht; repeat (destruct Ht as [<-|Ht]; [split; vm_compute; discriminate|]); contradiction. }
  split; [exact W1|].
  split; [exact W2|].
  exact (interest_never_rises self base_revenue revenue_growth ebitda_margin capex_rate nwc_rate tax_rate W1 W2).
Defined.

(** The example projection. *)
Lemma revenue_never_falls_witness :
  let self := (demo_structured (lit 150)) in
  let base_revenue := (lit 200) in
  let revenue_growth := demo_growth in
  let ebitda_margin := (lit 0.25) in
  let capex_rate := default_capex_rate in
  let nwc_rate := default_nwc_rate in
  let tax_rate := default_tax_rate in
  (revenue_growth <> [])
  /\ ((forall g, In g revenue_growth -> 0 <= g))
  /\ (0 <= base_revenue)
  /\ (0 <= nwc_rate)
  /\ (exists model,
    build_operating_model self base_revenue revenue_growth
      ebitda_margin capex_rate nwc_rate tax_rate
    = (Returned model, set_operating_model self model)
    /\ (forall N, (1 <= N <= 5)%Z ->
          exists oy,
            zget model N = Some oy
            /\ base_revenue <= revenue oy
            /\ 0 <= nwc_change oy)
    /\ (forall N, (1 <= N <= 4)%Z ->
          exists oy oy',
            zget model N = Some oy
            /\ zget model (N + 1)%Z = Some oy'
            /\ revenue oy <= revenue oy')).
Proof.
  intros self base_revenue revenue_growth ebitda_margin capex_rate nwc_rate tax_rate.
  assert (W1 : revenue_growth <> []).
  { vm_compute; discriminate. }
  assert (W2 : (forall g, In g revenue_growth -> 0 <= g)).
  { intros g Hg; vm_compute in Hg; repeat (destruct Hg as [<-|Hg]; [vm_compute; discriminate|]); contradiction. }
  assert (W3 : 0 <= base_revenue).
  { vm_compute; discriminate. }
  assert (W4 : 0 <= nwc_rate).
  { vm_compute; discriminate. }
  split; [exact W1|].
  split; [exact W2|].
  split; [exact W3|].
  split; [exact W4|].
  exact (revenue_never_falls self base_revenue revenue_growth ebitda_margin capex_rate nwc_rate tax_rate W1 W2 W3 W4).
Defined.

(** The example run. *)
Lemma balances_never_rise_witness :
  let self := (demo_projected (lit 150)) in
  (schedule_ready self)
  /\ (exists schedule,
    model_debt_schedule self = (Returned schedule, set_debt_schedule self schedule)
    /\ forall y tranche terms,
         (1 <= y <= 5)%Z ->
         In (tranche, terms) (debt_structure self) ->
         0 <= amount terms ->
         0 <= amortization terms ->
         exists r,
           schedule_row schedule y tranche = Some r
           /\ 0 <= beginning_balance r
           /\ 0 <= mandatory_payment r
           /\ 0 <= total_payment r
           /\ ending_balance r <= beginning_balance r).
Proof.
  intros self.
  assert (W1 : schedule_ready self).
  { example_ready. }
  split; [exact W1|].
  exact (balances_never_rise self W1).
Defined.

(** The example run. *)
Lemma declining_balance_path_witness :
  let self := (demo_projected (lit 150)) in
  (schedule_ready self)
  /\ (exists schedule,
    model_debt_schedule self = (Returned schedule, set_debt_schedule self schedule)
    /\ forall tranche terms,
         In (tranche, terms) (debt_structure self) ->
         tranche <> "Term Loan B"%string ->
         0 <= amount terms ->
         0 <= amortization terms ->
         amortization terms <= 1 ->
         forall y, (1 <= y <= 5)%Z ->
           exists r,
             schedule_row schedule y tranche = Some r
             /\ (y = 1%Z -> beginning_balance r = amount terms)
             /\ ((2 <= y)%Z ->
                 exists r_prev,
                   schedule_row schedule (y - 1) tranche = Some r_prev
                   /\ beginning_balance r = ending_balance r_prev)
             /\ 0 <= beginning_balance r
             /\ mandatory_payment r = beginning_balance r * amortization terms
             /\ optional_payment r = 0
             /\ total_payment r = mandatory_payment r
             /\ ending_balance r = beginning_balance r - mandatory_payment r
             /\ 0 <= ending_balance r).
Proof.
  intros self.
  assert (W1 : schedule_ready self).
  { example_ready. }
  split; [exact W1|].
  exact (declining_balance_path self W1).
Defined.

(** The example run. *)
Lemma schedule_shape_witness :
  let self := (demo_projected (lit 150)) in
  (schedule_ready self)
  /\ (exists schedule,
    model_debt_schedule self = (Returned schedule, set_debt_schedule self schedule)
    /\ dict_keys schedule = [1; 2; 3; 4; 5]%Z
    /\ forall y ys,
         zget schedule y = Some ys ->
         dict_keys ys = dict_keys (debt_structure self)).
Proof.
  intros self.
  assert (W1 : schedule_ready self).
  { example_ready. }
  split; [exact W1|].
  exact (schedule_shape self W1).
Defined.

(** The example run, asked for exit year 6. *)
Lemma exit_analysis_failures_witness :
  let float_pow := sample_pow in
  let self := (demo_scheduled (lit 150)) in
  let exit_multiples := None in
  let exit_year := 6%Z in
  (operating_model self = [] \/ debt_schedule self = []
    \/ zget (operating_model self) exit_year = None
    \/ zget (debt_schedule self) exit_year = None)
  /\ (exit_analysis float_pow self exit_multiples exit_year
    = (if negb (truthy (operating_model self)) || negb (truthy (debt_schedule self))
       then ReturnedNone else Raised KeyError,
       self)).
Proof.
  intros float_pow self exit_multiples exit_year.
  assert (W1 : operating_model self = [] \/ debt_schedule self = []
    \/ zget (operating_model self) exit_year = None
    \/ zget (debt_schedule self) exit_year = None).
  { right; right; left; vm_compute; reflexivity. }
  split; [exact W1|].
  exact (exit_analysis_failures float_pow self exit_multiples exit_year W1).
Defined.

(** The example run at exit year 5. *)
Lemma one_record_per_label_witness :
  let float_pow := sample_pow in
  let self := (demo_scheduled (lit 150)) in
  let exit_multiples := None in
  let exit_year := 5%Z in
  let oy := demo_year5 in
  let ys := demo_schedule5 in
  (zget (operating_model self) exit_year = Some oy)
  /\ (zget (debt_schedule self) exit_year = Some ys)
  /\ (exit_year <> 0%Z)
  /\ (let multiples :=
      match exit_multiples with None => default_exit_multiples | Some l => l end in
    exists results,
      exit_analysis float_pow self exit_multiples exit_year
      = (Returned results, set_returns_analysis self results)
      /\ (forall label rec,
            sget results label = Some rec ->
            label = scenario_label (exit_multiple rec)
            /\ In (exit_multiple rec) multiples)
      /\ (forall pre m post,
            multiples = pre ++ m :: post ->
            (forall m', In m' post -> scenario_label m' <> scenario_label m) ->
            exists rec,
              sget results (scenario_label m) = Some rec /\ exit_multiple rec = m)
      /\ (multiples = [] -> results = [])).
Proof.
  intros float_pow self exit_multiples exit_year oy ys.
  assert (W1 : zget (operating_model self) exit_year = Some oy).
  { vm_compute; reflexivity. }
  assert (W2 : zget (debt_schedule self) exit_year = Some ys).
  { vm_compute; reflexivity. }
  assert (W3 : exit_year <> 0%Z).
  { discriminate. }
  split; [exact W1|].
  split; [exact W2|].
  split; [exact W3|].
  exact (one_record_per_label float_pow self exit_multiples exit_year oy ys W1 W2 W3).
Defined.

(** The example run at exit year 5. *)
Lemma wiped_out_or_positive_witness :
  let float_pow := sample_pow in
  let self := (demo_scheduled (lit 150)) in
  let exit_multiples := None in
  let exit_year := 5%Z in
  let oy := demo_year5 in
  let ys := demo_schedule5 in
  (zget (operating_model self) exit_year = Some oy)
  /\ (zget (debt_schedule self) exit_year = Some ys)
  /\ (exit_year <> 0%Z)
  /\ (exists results,
      exit_analysis float_pow self exit_multiples exit_year
      = (Returned results, set_returns_analysis self results)
      /\ forall label rec,
           sget results label = Some rec ->
           0 <= equity_value rec
           /\ 0 <= moic rec
           /\ (sponsor_equity self <= 0 \/ enterprise_value rec <= remaining_debt rec ->
               moic rec = 0 /\ irr rec = lit (-1))
           /\ (0 < sponsor_equity self -> remaining_debt rec < enterprise_value rec ->
               0 < moic rec
               /\ irr rec
                  = float_pow (moic rec) (1 / lit (inject_Z exit_year)) - 1)).
Proof.
  intros float_pow self exit_multiples exit_year oy ys.
  assert (W1 : zget (operating_model self) exit_year = Some oy).
  { vm_compute; reflexivity. }
  assert (W2 : zget (debt_schedule self) exit_year = Some ys).
  { vm_compute; reflexivity. }
  assert (W3 : exit_year <> 0%Z).
  { discriminate. }
  split; [exact W1|].
  split; [exact W2|].
  split; [exact W3|].
  exact (wiped_out_or_positive float_pow self exit_multiples exit_year oy ys W1 W2 W3).
Defined.

(** The example run at exit year 5. *)
Lemma higher_multiple_higher_value_witness :
  let float_pow := sample_pow in
  let self := (demo_scheduled (lit 150)) in
  let exit_multiples := None in
  let exit_year := 5%Z in
  let oy := demo_year5 in
  let ys := demo_schedule5 in
  (zget (operating_model self) exit_year = Some oy)
  /\ (zget (debt_schedule self) exit_year = Some ys)
  /\ (exit_year <> 0%Z)
  /\ (0 <= ebitda oy)
  /\ (exists results,
      exit_analysis float_pow self exit_multiples exit_year
      = (Returned results, set_returns_analysis self results)
      /\ forall label1 rec1 label2 rec2,
           sget results label1 = Some rec1 ->
           sget results label2 = Some rec2 ->
           exit_multiple rec1 <= exit_multiple rec2 ->
           enterprise_value rec1 <= enterprise_value rec2
           /\ equity_value rec1 <= equity_value rec2
           /\ moic rec1 <= moic rec2).
Proof.
  intros float_pow self exit_multiples exit_year oy ys.
  assert (W1 : zget (operating_model self) exit_year = Some oy).
  { vm_compute; reflexivity. }
  assert (W2 : zget (debt_schedule self) exit_year = Some ys).
  { vm_compute; reflexivity. }
  assert (W3 : exit_year <> 0%Z).
  { discriminate. }
  assert (W4 : 0 <= ebitda oy).
  { vm_compute; discriminate. }
  split; [exact W1|].
  split; [exact W2|].
  split; [exact W3|].
  split; [exact W4|].
  exact (higher_multiple_higher_value float_pow self exit_multiples exit_year oy ys W1 W2 W3 W4).
Defined.

(** The example run, swept over one revenue and two EBITDA adjustments. *)
Lemma sensitivity_grid_any_witness :
  let float_pow := sample_pow in
  let self := (demo_exited (lit 150)) in
  let base_case := (demo_base_case (lit 150)) in
  let oy := demo_year5 in
  let revenue_sensitivity := [lit 0.05] in
  let ebitda_sensitivity := [lit 0; lit 0.01] in
  (sget (returns_analysis self) "10.0x"%string = Some base_case)
  /\ (zget (operating_model self) 5%Z = Some oy)
  /\ (sponsor_equity self <> 0)
  /\ (exists rows,
      sensitivity_analysis float_pow self revenue_sensitivity ebitda_sensitivity
      = Returned rows
      /\ List.length rows
         = (List.length revenue_sensitivity * List.length ebitda_sensitivity)%nat
      /\ map (fun r => (revenue_adj r, ebitda_adj r)) rows
         = list_prod revenue_sensitivity ebitda_sensitivity
      /\ rows = grid_of float_pow (ebitda oy) (remaining_debt base_case)
                  (sponsor_equity self) revenue_sensitivity ebitda_sensitivity).
Proof.
  intros float_pow self base_case oy revenue_sensitivity ebitda_sensitivity.
  assert (W1 : sget (returns_analysis self) "10.0x"%string = Some base_case).
  { vm_compute; reflexivity. }
  assert (W2 : zget (operating_model self) 5%Z = Some oy).
  { vm_compute; reflexivity. }
  assert (W3 : sponsor_equity self <> 0).
  { vm_compute; discriminate. }
  split; [exact W1|].
  split; [exact W2|].
  split; [exact W3|].
  exact (sensitivity_grid_any float_pow self base_case oy revenue_sensitivity ebitda_sensitivity W1 W2 W3).
Defined.

(** The example run with a sponsor equity of 0. *)
Lemma sensitivity_zero_equity_witness :
  let float_pow := sample_pow in
  let self := (demo_exited (lit 0)) in
  let base_case := (demo_base_case (lit 0)) in
  let oy := demo_year5 in
  let revenue_sensitivity := default_revenue_sensitivity in
  let ebitda_sensitivity := default_ebitda_sensitivity in
  (sget (returns_analysis self) "10.0x"%string = Some base_case)
  /\ (zget (operating_model self) 5%Z = Some oy)
  /\ (sponsor_equity self = 0)
  /\ (sensitivity_analysis float_pow self revenue_sensitivity ebitda_sensitivity
    = match revenue_sensitivity, ebitda_sensitivity with
      | _ :: _, _ :: _ => Raised ZeroDivisionError
      | _, _ => Returned []
      end).
Proof.
  intros float_pow self base_case oy revenue_sensitivity ebitda_sensitivity.
  assert (W1 : sget (returns_analysis self) "10.0x"%string = Some base_case).
  { vm_compute; reflexivity. }
  assert (W2 : zget (operating_model self) 5%Z = Some oy).
  { vm_compute; reflexivity. }
  assert (W3 : sponsor_equity self = 0).
  { apply Qc_is_canon; vm_compute; reflexivity. }
  split; [exact W1|].
  split; [exact W2|].
  split; [exact W3|].
  exact (sensitivity_zero_equity float_pow self base_case oy revenue_sensitivity ebitda_sensitivity W1 W2 W3).
Defined.

(** The example run. *)
Lemma centre_cell_is_base_case_witness :
  let float_pow := sample_pow in
  let self := (demo_scheduled (lit 150)) in
  let oy := demo_year5 in
  let ys := demo_schedule5 in
  (zget (operating_model self) 5%Z = Some oy)
  /\ (zget (debt_schedule self) 5%Z = Some ys)
  /\ (0 < sponsor_equity self)
  /\ (exists results base_case row,
      exit_analysis float_pow self None 5
      = (Returned results, set_returns_analysis self results)
      /\ sget results "10.0x"%string = Some base_case
      /\ exit_multiple base_case = lit 10
      /\ sensitivity_analysis float_pow (set_returns_analysis self results)
           [lit 0] [lit 0] = Returned [row]
      /\ row_moic row = moic base_case
      /\ row_irr row = irr base_case).
Proof.
  intros float_pow self oy ys.
  assert (W1 : zget (operating_model self) 5%Z = Some oy).
  { vm_compute; reflexivity. }
  assert (W2 : zget (debt_schedule self) 5%Z = Some ys).
  { vm_compute; reflexivity. }
  assert (W3 : 0 < sponsor_equity self).
  { vm_compute; reflexivity. }
  split; [exact W1|].
  split; [exact W2|].
  split; [exact W3|].
  exact (centre_cell_is_base_case float_pow self oy ys W1 W2 W3).
Defined.

(** The example run. *)
Lemma structured_tranche_paths_witness :
  let self := (demo_projected (lit 150)) in
  let self0 := (init "TechCorp Industries" (lit 500) (lit 150)) in
  let a := (lit 100) in
  let b := (lit 200) in
  let r := (lit 25) in
  let s := (lit 25) in
  (debt_structure self = fst (structure_debt self0 a b r s))
  /\ ((forall y, In y years -> zget (operating_model self) y <> None))
  /\ (0 <= a)
  /\ (0 <= r)
  /\ (0 <= s)
  /\ (exists schedule,
    model_debt_schedule self = (Returned schedule, set_debt_schedule self schedule)
    /\ forall y, (1 <= y <= 5)%Z ->
         exists rA rR rS,
           schedule_row schedule y "Term Loan A" = Some rA
           /\ (y = 1%Z -> beginning_balance rA = a)
           /\ ((2 <= y)%Z ->
               exists r_prev,
                 schedule_row schedule (y - 1) "Term Loan A" = Some r_prev
                 /\ beginning_balance rA = ending_balance r_prev)
           /\ mandatory_payment rA = beginning_balance rA * lit 0.15
           /\ optional_payment rA = 0
           /\ total_payment rA = mandatory_payment rA
           /\ ending_balance rA = beginning_balance rA - mandatory_payment rA
           /\ schedule_row schedule y "Revolver" = Some rR
           /\ beginning_balance rR = r
           /\ mandatory_payment rR = 0 /\ optional_payment rR = 0
           /\ ending_balance rR = r
           /\ schedule_row schedule y "Subordinated Debt" = Some rS
           /\ beginning_balance rS = s
           /\ mandatory_payment rS = 0 /\ optional_payment rS = 0
           /\ ending_balance rS = s).
Proof.
  intros self self0 a b r s.
  assert (W1 : debt_structure self = fst (structure_debt self0 a b r s)).
  { vm_compute; reflexivity. }
  assert (W2 : (forall y, In y years -> zget (operating_model self) y <> None)).
  { intros y Hy; unfold years in Hy; simpl In in Hy; repeat (destruct Hy as [<-|Hy]; [vm_compute; discriminate|]); contradiction. }
  assert (W3 : 0 <= a).
  { vm_compute; discriminate. }
  assert (W4 : 0 <= r).
  { vm_compute; discriminate. }
  assert (W5 : 0 <= s).
  { vm_compute; discriminate. }
  split; [exact W1|].
  split; [exact W2|].
  split; [exact W3|].
  split; [exact W4|].
  split; [exact W5|].
  exact (structured_tranche_paths self self0 a b r s W1 W2 W3 W4 W5).
Defined.

(** The example script. *)
Lemma script_sequence_witness :
  let float_pow := sample_pow in
  let name := "TechCorp Industries"%string in
  let price := (lit 500) in
  let equity := (lit 150) in
  let a := (lit 100) in
  let b := (lit 200) in
  let r := (lit 25) in
  let s := (lit 25) in
  let base_revenue := (lit 200) in
  let revenue_growth := demo_growth in
  let ebitda_margin := (lit 0.25) in
  let capex_rate := default_capex_rate in
  let nwc_rate := default_nwc_rate in
  let tax_rate := default_tax_rate in
  (revenue_growth <> [])
  /\ (let lbo := snd (structure_debt (init name price equity) a b r s) in
    exists model schedule results,
      build_operating_model lbo base_revenue revenue_growth
        ebitda_margin capex_rate nwc_rate tax_rate
      = (Returned model, set_operating_model lbo model)
      /\ model_debt_schedule (set_operating_model lbo model)
         = (Returned schedule,
            set_debt_schedule (set_operating_model lbo model) schedule)
      /\ exit_analysis float_pow
           (set_debt_schedule (set_operating_model lbo model) schedule) None 5
         = (Returned results,
            set_returns_analysis
              (set_debt_schedule (set_operating_model lbo model) schedule) results)
      /\ sget results "10.0x"%string <> None
      /\ (equity <> 0 ->
          exists rows,
            sensitivity_analysis float_pow
              (set_returns_analysis
                 (set_debt_schedule (set_operating_model lbo model) schedule) results)
              default_revenue_sensitivity default_ebitda_sensitivity
            = Returned rows
            /\ List.length rows = 9%nat)
      /\ (equity = 0 ->
          sensitivity_analysis float_pow
            (set_returns_analysis
               (set_debt_schedule (set_operating_model lbo model) schedule) results)
            default_revenue_sensitivity default_ebitda_sensitivity
          = Raised ZeroDivisionError)).
Proof.
  intros float_pow name price equity a b r s base_revenue revenue_growth ebitda_margin capex_rate nwc_rate tax_rate.
  assert (W1 : revenue_growth <> []).
  { vm_compute; discriminate. }
  split; [exact W1|].
  exact (script_sequence float_pow name price equity a b r s base_revenue revenue_growth ebitda_margin capex_rate nwc_rate tax_rate W1).
Defined.

(** The example run before the exit analysis. *)
Lemma figures_need_exit_analysis_witness :
  let float_pow := sample_pow in
  let self := (demo_scheduled (lit 150)) in
  (figures_ready self)
  /\ (returns_analysis self = [])
  /\ (create_visualizations float_pow self = RaisedUnboundLocalError).
Proof.
  intros float_pow self.
  assert (W1 : figures_ready self).
  { figures_example_ready. }
  assert (W2 : returns_analysis self = []).
  { vm_compute; reflexivity. }
  split; [exact W1|].
  split; [exact W2|].
  exact (figures_need_exit_analysis float_pow self W1 W2).
Defined.

(** The example run with a sponsor equity of 0. *)
Lemma figures_zero_equity_witness :
  let float_pow := sample_pow in
  let self := (demo_exited (lit 0)) in
  (figures_ready self)
  /\ (returns_analysis self <> [])
  /\ (sponsor_equity self = 0)
  /\ (create_visualizations float_pow self = Finished (Raised ZeroDivisionError)).
Proof.
  intros float_pow self.
  assert (W1 : figures_ready self).
  { figures_example_ready. }
  assert (W2 : returns_analysis self <> []).
  { vm_compute; discriminate. }
  assert (W3 : sponsor_equity self = 0).
  { apply Qc_is_canon; vm_compute; reflexivity. }
  split; [exact W1|].
  split; [exact W2|].
  split; [exact W3|].
  exact (figures_zero_equity float_pow self W1 W2 W3).
Defined.

(** The example run. *)
Lemma figures_returned_witness :
  let float_pow := sample_pow in
  let self := (demo_exited (lit 150)) in
  (figures_ready self)
  /\ (returns_analysis self <> [])
  /\ (sponsor_equity self <> 0)
  /\ (exists traces heatmap,
      create_visualizations float_pow self = Finished (Returned (traces, heatmap))
      /\ map trace_name traces
         = filter (fun n => match sget (debt_structure self) n with
                            | Some terms => Qc_ltb 0 (amount terms)
                            | None => false
                            end) figure_tranches
      /\ Forall (fun tr =>
                   trace_years tr = [1; 2; 3; 4; 5]%Z
                   /\ Forall2 (fun y e =>
                                 exists r,
                                   schedule_row (debt_schedule self) y (trace_name tr)
                                   = Some r
                                   /\ e = ending_balance r)
                              [1; 2; 3; 4; 5]%Z (trace_balances tr)) traces
      /\ List.length (cells heatmap) = 5%nat
      /\ Forall (fun row => List.length row = 5%nat) (cells heatmap)
      /\ x_labels heatmap = ["8x"; "9x"; "10x"; "11x"; "12x"]%string
      /\ y_labels heatmap = ["Year 3"; "Year 4"; "Year 5"; "Year 6"; "Year 7"]%string).
Proof.
  intros float_pow self.
  assert (W1 : figures_ready self).
  { figures_example_ready. }
  assert (W2 : returns_analysis self <> []).
  { vm_compute; discriminate. }
  assert (W3 : sponsor_equity self <> 0).
  { vm_compute; discriminate. }
  split; [exact W1|].
  split; [exact W2|].
  split; [exact W3|].
  exact (figures_returned float_pow self W1 W2 W3).
Defined.

(** The example run: "TechCorp Industries" becomes "TechCorp_Industries". *)
Lemma export_default_file_name_witness :
  let self := (demo_exited (lit 150)) in
  (let file := fst (fst (export_to_excel self None)) in
  file = (replace_spaces (company_name self) ++ "_LBO_Model.xlsx")%string
  /\ ~ In " "%char (list_ascii_of_string file)
  /\ String.length file = (String.length (company_name self) + 15)%nat
  /\ (~ In " "%char (list_ascii_of_string (company_name self)) ->
      file = (company_name self ++ "_LBO_Model.xlsx")%string)
  /\ forall f, fst (fst (export_to_excel self (Some f))) = f).
Proof.
  intros self.
  exact (export_default_file_name self).
Defined.

(** The example run. *)
Lemma export_sheets_witness :
  let self := (demo_exited (lit 150)) in
  let filename := None in
  (sponsor_equity self <> 0)
  /\ (debt_schedule self = []
  \/ (forall y, In y years -> zget (debt_schedule self) y <> None))
  /\ (exists rest,
    snd (export_to_excel self filename) = Returned tt
    /\ snd (fst (export_to_excel self filename))
       = TransactionSummary
           [purchase_price self; sponsor_equity self; total_debt self;
            total_debt self / sponsor_equity self] :: rest
    /\ map sheet_name rest
       = (if truthy (operating_model self) then ["Operating Model"%string] else [])
         ++ (if truthy (debt_schedule self)
             then ["Debt Schedule Y1"%string; "Debt Schedule Y2"%string;
                   "Debt Schedule Y3"%string; "Debt Schedule Y4"%string;
                   "Debt Schedule Y5"%string]
             else [])
         ++ (if truthy (returns_analysis self) then ["Returns Analysis"%string] else [])).
Proof.
  intros self filename.
  assert (W1 : sponsor_equity self <> 0).
  { vm_compute; discriminate. }
  assert (W2 : debt_schedule self = []
  \/ (forall y, In y years -> zget (debt_schedule self) y <> None)).
  { right; intros y Hy; unfold years in Hy; simpl In in Hy; repeat (destruct Hy as [<-|Hy]; [vm_compute; discriminate|]); contradiction. }
  split; [exact W1|].
  split; [exact W2|].
  exact (export_sheets self filename W1 W2).
Defined.

(** The example run with a sponsor equity of 0. *)
Lemma export_zero_equity_witness :
  let self := (demo_exited (lit 0)) in
  let filename := None in
  (sponsor_equity self = 0)
  /\ (snd (export_to_excel self filename) = Raised ZeroDivisionError
  /\ snd (fst (export_to_excel self filename)) = []).
Proof.
  intros self filename.
  assert (W1 : sponsor_equity self = 0).
  { apply Qc_is_canon; vm_compute; reflexivity. }
  split; [exact W1|].
  exact (export_zero_equity self filename W1).
Defined.

(** The example run. *)
Lemma heatmap_agrees_with_exit_analysis_witness :
  let float_pow := sample_pow in
  let self := (demo_projected (lit 150)) in
  (schedule_ready self)
  /\ ((forall t, In t (dict_values (debt_structure self)) -> 0 <= amount t))
  /\ (0 < sponsor_equity self)
  /\ (exists schedule results,
      model_debt_schedule self = (Returned schedule, set_debt_schedule self schedule)
      /\ exit_analysis float_pow (set_debt_schedule self schedule) None 5
         = (Returned results,
            set_returns_analysis (set_debt_schedule self schedule) results)
      /\ forall m, In m heatmap_multiples ->
           exists rec,
             sget results (scenario_label (lit (inject_Z m))) = Some rec
             /\ exit_multiple rec = lit (inject_Z m)
             /\ heatmap_cell float_pow
                  (set_returns_analysis (set_debt_schedule self schedule) results)
                  5 m
                = Returned (irr rec)).
Proof.
  intros float_pow self.
  assert (W1 : schedule_ready self).
  { example_ready. }
  assert (W2 : (forall t, In t (dict_values (debt_structure self)) -> 0 <= amount t)).
  { intros t Ht; vm_compute in Ht; repeat (destruct Ht as [<-|Ht]; [vm_compute; discriminate|]); contradiction. }
  assert (W3 : 0 < sponsor_equity self).
  { vm_compute; reflexivity. }
  split; [exact W1|].
  split; [exact W2|].
  split; [exact W3|].
  exact (heatmap_agrees_with_exit_analysis float_pow self W1 W2 W3).
Defined.
